(** * Horizon Board Producer: plate derivation and production

    A shallow embedding of [kicad-plugins/horizon-board-producer-plugin.py].
    The plugin drives the KiCad 6 [pcbnew] scripting interface: it derives a
    top and a bottom cutout plate from the open board and writes fabrication
    files for the three boards.

    The host objects ([BOARD], [FOOTPRINT], [PAD], drawings) are mutable and
    passed around by reference, so they live in an explicit object store;
    host calls that can raise are threaded through a state-and-exception
    monad.  Layer names resolve against the name table of a freshly created
    board, which is a parameter of the development ([Pcbnew]). *)

From Stdlib Require Import ZArith String Ascii Lia Bool.
From stdpp Require Import base option list strings.

Local Open Scope Z_scope.

(** ** Python string and path helpers used by the plugin *)

Module Py.

(** [s.startswith(p)] *)
Fixpoint startswith (p s : string) : bool :=
  match p, s with
  | EmptyString, _ => true
  | String a p', String b s' => if Ascii.eqb a b then startswith p' s' else false
  | String _ _, EmptyString => false
  end.

(** The tail of [s] after its first [n] characters. *)
Fixpoint drop_chars (n : nat) (s : string) : string :=
  match n, s with
  | O, _ => s
  | S k, String _ s' => drop_chars k s'
  | S _, EmptyString => EmptyString
  end.

(** [s.replace(old, new)] for a non-empty [old]: a left-to-right scan that
    replaces every non-overlapping occurrence.  [skip] counts the
    characters of a matched occurrence that are still to be passed over. *)
Fixpoint replace_from (old new : string) (skip : nat) (s : string) : string :=
  match s with
  | EmptyString => EmptyString
  | String c s' =>
      match skip with
      | S k => replace_from old new k s'
      | O =>
          if startswith old s
          then new +:+ replace_from old new (Nat.pred (String.length old)) s'
          else String c (replace_from old new O s')
      end
  end.

Definition replace (old new s : string) : string := replace_from old new O s.

Definition slash : ascii := "/"%char.
Definition dot : ascii := "."%char.

(** Scan for the last ['/']: [head] is everything up to and including it,
    [tail] what follows. *)
Fixpoint rsplit_slash (head tail s : string) : string * string :=
  match s with
  | EmptyString => (head, tail)
  | String c s' =>
      if Ascii.eqb c slash
      then rsplit_slash (head +:+ tail +:+ String c EmptyString) EmptyString s'
      else rsplit_slash head (tail +:+ String c EmptyString) s'
  end.

Fixpoint all_slashes (s : string) : bool :=
  match s with
  | EmptyString => true
  | String c s' => Ascii.eqb c slash && all_slashes s'
  end.

(** [s.rstrip('/')] *)
Fixpoint rstrip_slash (s : string) : string :=
  match s with
  | EmptyString => EmptyString
  | String c s' => if all_slashes s then EmptyString else String c (rstrip_slash s')
  end.

(** [os.path.split] (POSIX flavour). *)
Definition path_split (p : string) : string * string :=
  let '(head, tail) := rsplit_slash EmptyString EmptyString p in
  (if all_slashes head then head else rstrip_slash head, tail).

Fixpoint endswith_slash (s : string) : bool :=
  match s with
  | EmptyString => false
  | String c EmptyString => Ascii.eqb c slash
  | String _ s' => endswith_slash s'
  end.

(** [os.path.join(a, b)] (POSIX flavour). *)
Definition path_join (a b : string) : string :=
  if startswith "/" b then b
  else if String.eqb a EmptyString || endswith_slash a then a +:+ b
  else a +:+ "/" +:+ b.

Fixpoint all_dots (s : string) : bool :=
  match s with
  | EmptyString => true
  | String c s' => Ascii.eqb c dot && all_dots s'
  end.

(** Scan for the last ['.'] that has a character other than ['.'] before
    it: [root] is what precedes that dot, [ext] starts at it. *)
Fixpoint rsplit_dot (root ext s : string) : string * string :=
  match s with
  | EmptyString => (root, ext)
  | String c s' =>
      if Ascii.eqb c dot && negb (all_dots (root +:+ ext))
      then rsplit_dot (root +:+ ext) (String c EmptyString) s'
      else rsplit_dot root (ext +:+ String c EmptyString) s'
  end.

(** [os.path.splitext] on a name without directory separators. *)
Definition splitext (name : string) : string * string :=
  match rsplit_dot EmptyString EmptyString name with
  | (root, ext) => if startswith "." ext && negb (all_dots root) then (root, ext)
                   else (root +:+ ext, EmptyString)
  end.

Definition newline : ascii := ascii_of_nat 10.

(** A [str] is represented by its UTF-8 encoding.  The helpers above look
    for ASCII characters only, and UTF-8 uses no ASCII byte inside the
    encoding of another character, so on bytes they find what Python finds
    on characters. *)

(** The number of bytes of the character whose encoding starts with [c]. *)
Definition char_width (c : ascii) : nat :=
  let n := nat_of_ascii c in
  if (n <? 128)%nat then 1%nat
  else if (n <? 224)%nat then 2%nat
  else if (n <? 240)%nat then 3%nat
  else 4%nat.

(** The first [n] bytes of [s]. *)
Fixpoint take_chars (n : nat) (s : string) : string :=
  match n, s with
  | S k, String c s' => String c (take_chars k s')
  | _, _ => EmptyString
  end.

(** The character at the head of [s]. *)
Definition head_char (s : string) : string :=
  match s with
  | EmptyString => EmptyString
  | String c _ => take_chars (char_width c) s
  end.

(** [chr(cp).encode()] *)
Definition utf8 (cp : N) : string :=
  let byte (n : N) := String (ascii_of_N n) EmptyString in
  (if cp <? 128 then byte cp
   else if cp <? 2048 then byte (192 + cp / 64) +:+ byte (128 + cp mod 64)
   else if cp <? 65536 then
     byte (224 + cp / 4096) +:+ byte (128 + (cp / 64) mod 64) +:+ byte (128 + cp mod 64)
   else
     byte (240 + cp / 262144) +:+ byte (128 + (cp / 4096) mod 64)
     +:+ byte (128 + (cp / 64) mod 64) +:+ byte (128 + cp mod 64))%N.

(** The code points of the digit zero of every script: the characters
    of category Nd (decimal digit) of Unicode 14.0 are these and the nine
    that follow each of them. *)
Definition decimal_zeros : list N :=
  [ 48; 1632; 1776; 1984; 2406; 2534; 2662; 2790; 2918; 3046; 3174; 3302;
    3430; 3558; 3664; 3792; 3872; 4160; 4240; 6112; 6160; 6470; 6608; 6784;
    6800; 6992; 7088; 7232; 7248; 42528; 43216; 43264; 43472; 43504; 43600;
    44016; 65296; 66720; 68912; 69734; 69872; 69942; 70096; 70384; 70736;
    70864; 71248; 71360; 71472; 71904; 72016; 72784; 73040; 73120; 92768;
    92864; 93008; 120782; 120792; 120802; 120812; 120822; 123200; 123632;
    125264; 130032 ]%N.

(** What [\d] matches in a [str] pattern: the Unicode decimal digits. *)
Definition decimal_digits : list string :=
  flat_map (fun zero => map (fun i => utf8 (zero + N.of_nat i)) (seq 0 10)) decimal_zeros.

Definition is_decimal (char : string) : bool := existsb (String.eqb char) decimal_digits.

(** The tail [\d+$] of the pattern: one or more decimal digits, then the
    end of the string or a single final newline (Python's [$]).  [seen]
    records that a digit was consumed; [skip] counts the bytes of a matched
    digit that are still to be passed over. *)
Fixpoint digits_to_end (seen : bool) (skip : nat) (s : string) : bool :=
  match s with
  | EmptyString => seen
  | String c s' =>
      match skip with
      | S k => digits_to_end seen k s'
      | O =>
          if is_decimal (head_char s) then digits_to_end true (Nat.pred (char_width c)) s'
          else seen && Ascii.eqb c newline && String.eqb s' EmptyString
      end
  end.

(** [re.match(r'^(H|LOGO)\d+$', s)] as a truth value. *)
Definition re_match_H_LOGO (s : string) : bool :=
  match s with
  | String "H" r => digits_to_end false O r
  | String "L" (String "O" (String "G" (String "O" r))) => digits_to_end false O r
  | _ => false
  end.

End Py.

(** ** Geometry *)

(** Modelled from the spec: "BoundingBox: axis-aligned box with an area and
    an intersects-test against another box".  The host's rectangle is an
    origin and a size, in integer board units. *)
Record BOX := mkBOX { box_x : Z; box_y : Z; box_w : Z; box_h : Z }.

Definition GetArea (b : BOX) : Z := box_w b * box_h b.

(** Two boxes intersect when their common region exists; a common region of
    null size is accepted, so boxes that merely touch intersect. *)
Definition Intersects (a b : BOX) : bool :=
  (Z.max (box_x a) (box_x b) <=? Z.min (box_x a + box_w a) (box_x b + box_w b))
  && (Z.max (box_y a) (box_y b) <=? Z.min (box_y a + box_h a) (box_y b + box_h b)).

(** The smallest box that covers both. *)
Definition Merge (a b : BOX) : BOX :=
  let x := Z.min (box_x a) (box_x b) in
  let y := Z.min (box_y a) (box_y b) in
  mkBOX x y
    (Z.max (box_x a + box_w a) (box_x b + box_w b) - x)
    (Z.max (box_y a + box_h a) (box_y b + box_h b) - y).

(** The box of no geometry at all: the host's default rectangle. *)
Definition no_box : BOX := mkBOX 0 0 0 0.

Definition merge_all (bs : list BOX) : BOX :=
  match bs with
  | [] => no_box
  | b :: rest => fold_left Merge rest b
  end.

(** ** Board entities *)

Abbreviation loc := nat (only parsing).
Definition LSET := list Z.
Definition wxPoint := (Z * Z)%type.
Definition wxSize := (Z * Z)%type.

Inductive PAD_SHAPE :=
| PAD_SHAPE_CIRCLE | PAD_SHAPE_RECT | PAD_SHAPE_OVAL | PAD_SHAPE_TRAPEZOID
| PAD_SHAPE_ROUNDRECT | PAD_SHAPE_CHAMFERED_RECT | PAD_SHAPE_CUSTOM.

Inductive PAD_ATTRIB :=
| PAD_ATTRIB_PTH | PAD_ATTRIB_SMD | PAD_ATTRIB_CONN | PAD_ATTRIB_NPTH.

Inductive PAD_DRILL_SHAPE := PAD_DRILL_SHAPE_CIRCLE | PAD_DRILL_SHAPE_OBLONG.

(** A board-level graphic: a shape (class ["PCB_SHAPE"]), a text (class
    ["PTEXT"]) or another drawing class, on one layer. *)
Record DRAWING := mkDRAWING {
  d_class : string;
  d_layer : Z;
  d_bbox : BOX
}.

Record PAD := mkPAD {
  pad_shape : PAD_SHAPE;
  pad_attribute : PAD_ATTRIB;
  pad_drill_shape : PAD_DRILL_SHAPE;
  pad_drill_size : wxSize;
  pad_size : wxSize;
  pad_layers : LSET;
  pad_position : wxPoint
}.

(** A graphical item of a footprint. *)
Record FP_ITEM := mkFP_ITEM {
  g_class : string;
  g_layer : Z;
  g_position : wxPoint
}.

(** A footprint refers to its pads and graphical items by address. *)
Record FOOTPRINT := mkFOOTPRINT {
  fp_reference : string;
  fp_position : wxPoint;
  fp_bbox : BOX;
  fp_pads : list loc;
  fp_graphics : list loc
}.

Record BOARD := mkBOARD {
  b_filename : string;
  b_drawings : list loc;
  b_footprints : list loc
}.

Inductive obj :=
| ODrawing (d : DRAWING)
| OPad (p : PAD)
| OGraphic (g : FP_ITEM)
| OFootprint (f : FOOTPRINT)
| OBoard (b : BOARD).

(** ** The world: object store, staging directories, external effects *)

(** What the plugin asks of the file system and of the fabrication-file
    writers, in the order it asks. *)
Inductive Event :=
| EvSave (pcb : loc) (path : string)
| EvPlot (pcb : loc) (dir : string) (suffix : string) (sheet : string)
| EvClosePlot (pcb : loc)
| EvDrill (pcb : loc) (dir : string)
| EvZip (archive : string) (dir : string).

Inductive exn :=
| UnresolvableLayer (name : string)
| IOFailure (e : Event)
| BadReference (l : loc).

(** The store is addressed by position; a new object takes the next free
    address. *)
Record World := mkWorld {
  heap : list obj;
  dirs : list string;
  log : list Event
}.

Definition set_heap (h : list obj) (w : World) : World := mkWorld h (dirs w) (log w).
Definition set_dirs (d : list string) (w : World) : World := mkWorld (heap w) d (log w).
Definition add_log (e : Event) (w : World) : World := mkWorld (heap w) (dirs w) (log w ++ [e]).

(** ** The host interface *)

(** Modelled from the spec: the host side of the "Geometry/Layer Model" and
    of the external collaborators.  [standard_layers] is the layer-name
    table of a board made by [pcbnew.NewBoard]; [Edge_Cuts] the identifier
    the host's outline computation looks at; [UnplatedHoleMask] the layer
    set of an unplated hole; [normpath] is [os.path.normpath]; [io_ok] tells
    which file operations succeed ("IOFailure: persisting a board, writing
    artifacts: surfaced to the caller"). *)
Record Pcbnew := mkPcbnew {
  standard_layers : list (string * Z);
  Edge_Cuts : Z;
  UnplatedHoleMask : LSET;
  normpath : string -> string;
  io_ok : Event -> bool
}.

(** ** Computations that read and write the world and may raise *)

Inductive Outcome (A : Type) :=
| Returns (a : A)
| Raises (e : exn).
Arguments Returns {A} a.
Arguments Raises {A} e.

Definition M (A : Type) : Type := World -> Outcome A * World.

Definition ret {A} (a : A) : M A := fun w => (Returns a, w).
Definition raise {A} (e : exn) : M A := fun w => (Raises e, w).
Definition bind {A B} (m : M A) (k : A -> M B) : M B :=
  fun w => match m w with
           | (Returns a, w') => k a w'
           | (Raises e, w') => (Raises e, w')
           end.

Declare Scope py_scope.
Delimit Scope py_scope with py.
Notation "'let!' x ':=' m 'in' k" := (bind m (fun x => k))
  (at level 10, x name, m at level 100, k at level 200) : py_scope.
Notation "'do!' m 'in' k" := (bind m (fun _ => k))
  (at level 10, m at level 100, k at level 200) : py_scope.
Local Open Scope py_scope.

(** [for x in xs: body(x)] *)
Fixpoint for_each {A} (body : A -> M unit) (xs : list A) : M unit :=
  match xs with
  | [] => ret tt
  | x :: rest => do! body x in for_each body rest
  end.

(** A loop that also updates a local variable [acc]. *)
Fixpoint for_acc {A B} (body : B -> A -> M B) (acc : B) (xs : list A) : M B :=
  match xs with
  | [] => ret acc
  | x :: rest => let! acc' := body acc x in for_acc body acc' rest
  end.

Definition alloc (o : obj) : M loc :=
  fun w => (Returns (length (heap w)), set_heap (heap w ++ [o]) w).

Definition store (l : loc) (o : obj) : M unit :=
  fun w => (Returns tt, set_heap (<[l := o]> (heap w)) w).

Definition get_drawing (l : loc) : M DRAWING :=
  fun w => match heap w !! l with
           | Some (ODrawing d) => (Returns d, w)
           | _ => (Raises (BadReference l), w)
           end.

Definition get_pad (l : loc) : M PAD :=
  fun w => match heap w !! l with
           | Some (OPad p) => (Returns p, w)
           | _ => (Raises (BadReference l), w)
           end.

Definition get_graphic (l : loc) : M FP_ITEM :=
  fun w => match heap w !! l with
           | Some (OGraphic g) => (Returns g, w)
           | _ => (Raises (BadReference l), w)
           end.

Definition get_footprint (l : loc) : M FOOTPRINT :=
  fun w => match heap w !! l with
           | Some (OFootprint f) => (Returns f, w)
           | _ => (Raises (BadReference l), w)
           end.

Definition get_board (l : loc) : M BOARD :=
  fun w => match heap w !! l with
           | Some (OBoard b) => (Returns b, w)
           | _ => (Raises (BadReference l), w)
           end.

(** An external file operation: it is logged when it succeeds and raises
    otherwise. *)
Definition perform (env : Pcbnew) (e : Event) : M unit :=
  fun w => if io_ok env e then (Returns tt, add_log e w) else (Raises (IOFailure e), w).

(** [a and b], [a or b]: the right operand is evaluated only when needed. *)
Definition and_then (a b : M bool) : M bool :=
  let! x := a in if (x : bool) then b else ret false.
Definition or_else (a b : M bool) : M bool :=
  let! x := a in if (x : bool) then ret true else b.

(** A loop that collects the result of each iteration. *)
Fixpoint map_m {A B} (f : A -> M B) (xs : list A) : M (list B) :=
  match xs with
  | [] => ret []
  | x :: rest => let! y := f x in let! ys := map_m f rest in ret (y :: ys)
  end.

(** ** Host operations on boards and their items *)

Fixpoint lookup_layer (table : list (string * Z)) (name : string) : option Z :=
  match table with
  | [] => None
  | (n, id) :: rest => if String.eqb n name then Some id else lookup_layer rest name
  end.

(** Modelled from the spec: "resolve a layer name to a stable layer
    identifier within a given board ... an unresolvable layer name is a
    programming-contract violation (fatal)".  The plugin only resolves names
    on the plate board, which [NewBoard] made, so the table is the host's
    standard one. *)
Definition GetLayerID (env : Pcbnew) (name : string) : M Z :=
  match lookup_layer (standard_layers env) name with
  | Some id => ret id
  | None => raise (UnresolvableLayer name)
  end.

Definition in_lset (l : Z) (s : LSET) : bool := existsb (Z.eqb l) s.

(** [item.IsOnLayer(layer)]: a drawing or a footprint graphic is on its one
    layer, a pad on every layer of its layer set. *)
Definition IsOnLayer (item : loc) (layer : Z) : M bool :=
  fun w => match heap w !! item with
           | Some (ODrawing d) => (Returns (d_layer d =? layer), w)
           | Some (OGraphic g) => (Returns (g_layer g =? layer), w)
           | Some (OPad p) => (Returns (in_lset layer (pad_layers p)), w)
           | _ => (Raises (BadReference item), w)
           end.

Definition GetClass (item : loc) : M string :=
  fun w => match heap w !! item with
           | Some (ODrawing d) => (Returns (d_class d), w)
           | Some (OGraphic g) => (Returns (g_class g), w)
           | _ => (Raises (BadReference item), w)
           end.

Definition SetLayer (item : loc) (layer : Z) : M unit :=
  fun w => match heap w !! item with
           | Some (ODrawing d) =>
               store item (ODrawing (mkDRAWING (d_class d) layer (d_bbox d))) w
           | Some (OGraphic g) =>
               store item (OGraphic (mkFP_ITEM (g_class g) layer (g_position g))) w
           | _ => (Raises (BadReference item), w)
           end.

(** Modelled from the spec: "duplicate a Drawing or Footprint as an
    independent copy (no shared ownership with the source)". *)
Definition Duplicate (drawing : loc) : M loc :=
  let! d := get_drawing drawing in alloc (ODrawing d).

(** [pcbnew.NewBoard(path)]: an empty board with that file name. *)
Definition NewBoard (path : string) : M loc := alloc (OBoard (mkBOARD path [] [])).

Definition GetFileName (board : loc) : M string :=
  let! b := get_board board in ret (b_filename b).
Definition GetDrawings (board : loc) : M (list loc) :=
  let! b := get_board board in ret (b_drawings b).
Definition GetFootprints (board : loc) : M (list loc) :=
  let! b := get_board board in ret (b_footprints b).

Definition SetFileName (board : loc) (path : string) : M unit :=
  let! b := get_board board in
  store board (OBoard (mkBOARD path (b_drawings b) (b_footprints b))).

(** Modelled from the spec: "append a Drawing or Footprint to a board;
    enumerate a board's Drawings and Footprints in insertion order". *)
Definition Add (board item : loc) : M unit :=
  let! b := get_board board in
  fun w => match heap w !! item with
           | Some (ODrawing _) =>
               store board (OBoard (mkBOARD (b_filename b) (b_drawings b ++ [item]) (b_footprints b))) w
           | Some (OFootprint _) =>
               store board (OBoard (mkBOARD (b_filename b) (b_drawings b) (b_footprints b ++ [item]))) w
           | _ => (Raises (BadReference item), w)
           end.

(** Which drawings make the outline: shapes on the edge-cut layer. *)
Definition is_edge (env : Pcbnew) (d : DRAWING) : bool :=
  String.eqb (d_class d) "PCB_SHAPE" && (d_layer d =? Edge_Cuts env).

Definition edges_box (env : Pcbnew) (ds : list DRAWING) : BOX :=
  merge_all (map d_bbox (List.filter (is_edge env) ds)).

(** Modelled from the spec: "compute a board's outline bounding box from its
    edge-cutout geometry". *)
Definition GetBoardEdgesBoundingBox (env : Pcbnew) (board : loc) : M BOX :=
  let! ls := GetDrawings board in
  let! ds := map_m get_drawing ls in
  ret (edges_box env ds).

Definition Save (env : Pcbnew) (board : loc) (path : string) : M unit :=
  perform env (EvSave board path).

(** *** Footprints *)

Definition GetBoundingBox (footprint : loc) : M BOX :=
  let! f := get_footprint footprint in ret (fp_bbox f).
Definition GetReference (footprint : loc) : M string :=
  let! f := get_footprint footprint in ret (fp_reference f).
Definition Pads (footprint : loc) : M (list loc) :=
  let! f := get_footprint footprint in ret (fp_pads f).
Definition GraphicalItems (footprint : loc) : M (list loc) :=
  let! f := get_footprint footprint in ret (fp_graphics f).

(** [pcbnew.FOOTPRINT(footprint)]: the copy owns copies of the pads and of
    the graphical items. *)
Definition FOOTPRINT_copy (footprint : loc) : M loc :=
  let! f := get_footprint footprint in
  let! pads := map_m (fun l => let! p := get_pad l in alloc (OPad p)) (fp_pads f) in
  let! graphics := map_m (fun l => let! g := get_graphic l in alloc (OGraphic g)) (fp_graphics f) in
  alloc (OFootprint (mkFOOTPRINT (fp_reference f) (fp_position f) (fp_bbox f) pads graphics)).

Definition GetPosition (item : loc) : M wxPoint :=
  fun w => match heap w !! item with
           | Some (OFootprint f) => (Returns (fp_position f), w)
           | Some (OPad p) => (Returns (pad_position p), w)
           | _ => (Raises (BadReference item), w)
           end.

Definition shift (d p : wxPoint) : wxPoint := (fst p + fst d, snd p + snd d).

Definition move_pad (d : wxPoint) (p : PAD) : PAD :=
  mkPAD (pad_shape p) (pad_attribute p) (pad_drill_shape p) (pad_drill_size p)
        (pad_size p) (pad_layers p) (shift d (pad_position p)).

Definition move_graphic (d : wxPoint) (g : FP_ITEM) : FP_ITEM :=
  mkFP_ITEM (g_class g) (g_layer g) (shift d (g_position g)).

Definition move_box (d : wxPoint) (b : BOX) : BOX :=
  mkBOX (box_x b + fst d) (box_y b + snd d) (box_w b) (box_h b).

Definition set_pad_position (pos : wxPoint) (p : PAD) : PAD :=
  mkPAD (pad_shape p) (pad_attribute p) (pad_drill_shape p) (pad_drill_size p)
        (pad_size p) (pad_layers p) pos.

(** [item.SetPosition(pos)]: a pad takes the position; a footprint moves to
    it and carries its pads and graphical items along. *)
Definition SetPosition (item : loc) (pos : wxPoint) : M unit :=
  fun w => match heap w !! item with
           | Some (OPad p) => store item (OPad (set_pad_position pos p)) w
           | Some (OFootprint f) =>
               let delta := (fst pos - fst (fp_position f), snd pos - snd (fp_position f)) in
               (do! for_each (fun l => let! p := get_pad l in store l (OPad (move_pad delta p)))
                             (fp_pads f) in
                do! for_each (fun l => let! g := get_graphic l in store l (OGraphic (move_graphic delta g)))
                             (fp_graphics f) in
                store item (OFootprint (mkFOOTPRINT (fp_reference f) pos (move_box delta (fp_bbox f))
                                                     (fp_pads f) (fp_graphics f)))) w
           | _ => (Raises (BadReference item), w)
           end.

Definition remove_loc (l : loc) (ls : list loc) : list loc :=
  List.filter (fun x => negb (Nat.eqb x l)) ls.

(** Modelled from the spec: "Remove all marked items": the footprint drops
    the item, a pad from its pads, a graphic from its graphical items. *)
Definition Remove (footprint item : loc) : M unit :=
  let! f := get_footprint footprint in
  fun w => match heap w !! item with
           | Some (OPad _) =>
               store footprint (OFootprint (mkFOOTPRINT (fp_reference f) (fp_position f) (fp_bbox f)
                                                         (remove_loc item (fp_pads f)) (fp_graphics f))) w
           | Some (OGraphic _) =>
               store footprint (OFootprint (mkFOOTPRINT (fp_reference f) (fp_position f) (fp_bbox f)
                                                         (fp_pads f) (remove_loc item (fp_graphics f)))) w
           | _ => (Raises (BadReference item), w)
           end.

(** *** Pads *)

Definition update_pad (pad : loc) (f : PAD -> PAD) : M unit :=
  let! p := get_pad pad in store pad (OPad (f p)).

Definition GetShape (pad : loc) : M PAD_SHAPE := let! p := get_pad pad in ret (pad_shape p).
Definition GetSize (pad : loc) : M wxSize := let! p := get_pad pad in ret (pad_size p).

Definition SetAttribute (pad : loc) (a : PAD_ATTRIB) : M unit :=
  update_pad pad (fun p => mkPAD (pad_shape p) a (pad_drill_shape p) (pad_drill_size p)
                                 (pad_size p) (pad_layers p) (pad_position p)).
Definition SetDrillShape (pad : loc) (s : PAD_DRILL_SHAPE) : M unit :=
  update_pad pad (fun p => mkPAD (pad_shape p) (pad_attribute p) s (pad_drill_size p)
                                 (pad_size p) (pad_layers p) (pad_position p)).
Definition SetDrillSize (pad : loc) (s : wxSize) : M unit :=
  update_pad pad (fun p => mkPAD (pad_shape p) (pad_attribute p) (pad_drill_shape p) s
                                 (pad_size p) (pad_layers p) (pad_position p)).
Definition SetLayerSet (pad : loc) (ls : LSET) : M unit :=
  update_pad pad (fun p => mkPAD (pad_shape p) (pad_attribute p) (pad_drill_shape p) (pad_drill_size p)
                                 (pad_size p) ls (pad_position p)).

Definition shape_eqb (a b : PAD_SHAPE) : bool :=
  match a, b with
  | PAD_SHAPE_CIRCLE, PAD_SHAPE_CIRCLE | PAD_SHAPE_RECT, PAD_SHAPE_RECT
  | PAD_SHAPE_OVAL, PAD_SHAPE_OVAL | PAD_SHAPE_TRAPEZOID, PAD_SHAPE_TRAPEZOID
  | PAD_SHAPE_ROUNDRECT, PAD_SHAPE_ROUNDRECT
  | PAD_SHAPE_CHAMFERED_RECT, PAD_SHAPE_CHAMFERED_RECT
  | PAD_SHAPE_CUSTOM, PAD_SHAPE_CUSTOM => true
  | _, _ => false
  end.

(** ** The plugin *)

Module HorizonBoardProducerPlugin.

Definition gerber_layers : list (string * string) :=
  [ ("F.Cu", "Front Copper"); ("B.Cu", "Back Copper");
    ("F.SilkS", "Front SilkScreen"); ("B.SilkS", "Back SilkScreen");
    ("F.Mask", "Front Mask"); ("B.Mask", "Back Mask");
    ("Edge.Cuts", "Edges") ]%string.

(** [__create_gerbers]: one plot file per layer, then the plot is closed. *)
Definition create_gerbers (env : Pcbnew) (board : loc) (path : string) : M unit :=
  do! for_each (fun layer => perform env (EvPlot board path (fst layer) (snd layer)))
               gerber_layers in
  perform env (EvClosePlot board).

(** [__create_drill_file] *)
Definition create_drill_file (env : Pcbnew) (board : loc) (path : string) : M unit :=
  perform env (EvDrill board path).

(** [__create_zip] *)
Definition create_zip (env : Pcbnew) (zip_file_path source_folder : string) : M unit :=
  perform env (EvZip zip_file_path source_folder).

(** The body of the loop over the drawings of the source board. *)
Definition copy_drawing (env : Pcbnew) (plate_pcb : loc) (layer_name : string)
    (drawing : loc) : M unit :=
  let! new_drawing := Duplicate drawing in
  let! on_layer :=
    and_then (let! l := GetLayerID env layer_name in IsOnLayer drawing l)
             (let! c := GetClass drawing in ret (String.eqb c "PCB_SHAPE")) in
  if (on_layer : bool) then
    let! edge := GetLayerID env "Edge.Cuts" in
    do! SetLayer new_drawing edge in
    Add plate_pcb new_drawing
  else
    let! silk_text :=
      and_then
        (or_else (let! l := GetLayerID env "F.Silkscreen" in IsOnLayer drawing l)
                 (let! l := GetLayerID env "B.Silkscreen" in IsOnLayer drawing l))
        (let! c := GetClass drawing in ret (String.eqb c "PTEXT")) in
    if (silk_text : bool) then Add plate_pcb new_drawing else ret tt.

(** The body of the loop over the pads of a copied footprint;
    [remove_footprint_items] is the list being collected. *)
Definition convert_pad (env : Pcbnew) (layer_name : string)
    (remove_footprint_items : list loc) (pad : loc) : M (list loc) :=
  let! keep :=
    and_then (let! l := GetLayerID env layer_name in IsOnLayer pad l)
             (let! s := GetShape pad in
              ret (shape_eqb s PAD_SHAPE_CIRCLE || shape_eqb s PAD_SHAPE_OVAL)) in
  if (keep : bool) then
    let! s := GetShape pad in
    let drill_shape :=
      if shape_eqb s PAD_SHAPE_CIRCLE then PAD_DRILL_SHAPE_CIRCLE else PAD_DRILL_SHAPE_OBLONG in
    do! SetAttribute pad PAD_ATTRIB_NPTH in
    do! SetDrillShape pad drill_shape in
    do! (let! sz := GetSize pad in SetDrillSize pad sz) in
    do! SetLayerSet pad (UnplatedHoleMask env) in
    do! (let! pos := GetPosition pad in SetPosition pad pos) in
    ret remove_footprint_items
  else ret (remove_footprint_items ++ [pad]).

(** The body of the loop over the graphical items of a copied footprint. *)
Definition convert_graphic (env : Pcbnew) (layer_name : string)
    (remove_footprint_items : list loc) (graphic : loc) : M (list loc) :=
  let! keep := (let! l := GetLayerID env layer_name in IsOnLayer graphic l) in
  if (keep : bool) then
    let! edge := GetLayerID env "Edge.Cuts" in
    do! SetLayer graphic edge in
    ret remove_footprint_items
  else ret (remove_footprint_items ++ [graphic]).

(** The body of the loop over the footprints of the source board. *)
Definition convert_footprint (env : Pcbnew) (plate_pcb : loc) (layer_name : string)
    (platebounds : BOX) (footprint : loc) : M unit :=
  let! bbox := GetBoundingBox footprint in
  if Intersects bbox platebounds then
    let! new_footprint := FOOTPRINT_copy footprint in
    do! (let! pos := GetPosition footprint in SetPosition new_footprint pos) in
    let! reference := GetReference footprint in
    if Py.re_match_H_LOGO reference then Add plate_pcb new_footprint
    else
      let! pads := Pads new_footprint in
      let! removed_pads := for_acc (convert_pad env layer_name) [] pads in
      let! graphics := GraphicalItems new_footprint in
      let! remove_footprint_items :=
        for_acc (convert_graphic env layer_name) removed_pads graphics in
      do! for_each (Remove new_footprint) remove_footprint_items in
      let! has_content :=
        or_else (let! ps := Pads new_footprint in ret (0 <? length ps)%nat)
                (let! gs := GraphicalItems new_footprint in ret (0 <? length gs)%nat) in
      if (has_content : bool) then Add plate_pcb new_footprint else ret tt
  else ret tt.

(** [__create_plate_pcb_from_layer] *)
Definition create_plate_pcb_from_layer (env : Pcbnew) (board : loc)
    (layer_name output_folder plate_file_name_suffix : string) : M (option loc) :=
  let! file_name := GetFileName board in
  let board_filename := snd (Py.path_split file_name) in
  let plate_file_path :=
    Py.path_join output_folder
      (Py.replace ".kicad_pcb" ("-" +:+ plate_file_name_suffix +:+ ".kicad_pcb") board_filename) in
  let! plate_pcb := NewBoard plate_file_path in
  let! drawings := GetDrawings board in
  do! for_each (copy_drawing env plate_pcb layer_name) drawings in
  let! platebounds := GetBoardEdgesBoundingBox env plate_pcb in
  if GetArea platebounds =? 0 then ret None
  else
    let! footprints := GetFootprints board in
    do! for_each (convert_footprint env plate_pcb layer_name platebounds) footprints in
    do! SetFileName plate_pcb plate_file_path in
    do! Save env plate_pcb plate_file_path in
    ret (Some plate_pcb).

(** Staging directories: [os.path.exists], [shutil.rmtree], [os.makedirs].
    The world lists the directories that exist.  The model is of a file
    system on which the temporary path, when it exists, is a directory that
    can be removed, and on which the two folders can be made: what
    [rmtree] and [makedirs] raise otherwise (a regular file at the path,
    missing rights) is outside the model, and so are the folders that the
    plot and drill writers make below the temporary one. *)
Definition path_exists (p : string) : M bool :=
  fun w => (Returns (existsb (String.eqb p) (dirs w)), w).
Definition rmtree (p : string) : M unit :=
  fun w => (Returns tt,
            set_dirs (List.filter (fun d => negb (String.eqb d p || Py.startswith (p +:+ "/") d))
                                  (dirs w)) w).
Definition makedirs (p : string) : M unit :=
  fun w => (Returns tt, set_dirs (dirs w ++ [p]) w).

(** [[p for p in [board, bottom_plate, top_plate] if p]] *)
Definition boards_to_produce (board : loc) (bottom_plate top_plate : option loc) : list loc :=
  omap id [Some board; bottom_plate; top_plate].

(** The body of the loop over the boards to produce. *)
Definition produce_board (env : Pcbnew) (temp_path output_path : string) (pcb : loc) : M unit :=
  let! file_name := GetFileName pcb in
  let board_filename := snd (Py.path_split file_name) in
  let board_name := fst (Py.splitext board_filename) in
  let gerber_output_path := Py.path_join temp_path board_name in
  let archive_file_path := Py.path_join output_path board_name in
  do! create_gerbers env pcb gerber_output_path in
  do! create_drill_file env pcb gerber_output_path in
  create_zip env archive_file_path gerber_output_path.

(** [produce]; [board] is the board that [pcbnew.LoadBoard] returned for
    the file of the board open in the editor. *)
Definition produce (env : Pcbnew) (board : loc) : M unit :=
  let relative_output_path := "../../gerbers"%string in
  let relative_temp_path := "../../temp"%string in
  let! file_name := GetFileName board in
  let board_folder := fst (Py.path_split file_name) in
  let temp_path := normpath env (Py.path_join board_folder relative_temp_path) in
  let output_path := normpath env (Py.path_join board_folder relative_output_path) in
  do! (let! there := path_exists temp_path in
       if (there : bool) then rmtree temp_path else ret tt) in
  do! makedirs temp_path in
  do! (let! there := path_exists output_path in
       if (there : bool) then ret tt else makedirs output_path) in
  let! bottom_plate := create_plate_pcb_from_layer env board "B.Adhesive" temp_path "bottom-plate" in
  let! top_plate := create_plate_pcb_from_layer env board "F.Adhesive" temp_path "top-plate" in
  for_each (produce_board env temp_path output_path)
           (boards_to_produce board bottom_plate top_plate).

End HorizonBoardProducerPlugin.

(** ** A concrete host and a small board *)

Module Sample.

Import HorizonBoardProducerPlugin.

(** The layer names and identifiers of a new KiCad 6 board (the technical
    and user layers; the inner copper layers are left out). *)
Definition kicad_layers : list (string * Z) :=
  [ ("F.Cu", 0); ("B.Cu", 31); ("B.Adhesive", 32); ("F.Adhesive", 33);
    ("B.Paste", 34); ("F.Paste", 35); ("B.Silkscreen", 36); ("F.Silkscreen", 37);
    ("B.Mask", 38); ("F.Mask", 39); ("User.Drawings", 40); ("User.Comments", 41);
    ("User.Eco1", 42); ("User.Eco2", 43); ("Edge.Cuts", 44); ("Margin", 45);
    ("B.Courtyard", 46); ("F.Courtyard", 47); ("B.Fab", 48); ("F.Fab", 49) ]%string.

(** All copper layers and both solder masks. *)
Definition npth_mask : LSET := map Z.of_nat (seq 0 32) ++ [38; 39].

(** A host on which every file operation succeeds; paths are used as
    they are. *)
Definition kicad : Pcbnew := mkPcbnew kicad_layers 44 npth_mask (fun p => p) (fun _ => true).

(** The same host with a disk that refuses the bottom plate file. *)
Definition kicad_disk_full : Pcbnew :=
  mkPcbnew kicad_layers 44 npth_mask (fun p => p)
    (fun e => match e with EvSave _ _ => false | _ => true end).

(** A host whose boards do not know the adhesive layers. *)
Definition kicad_no_adhesive : Pcbnew :=
  mkPcbnew [("F.Cu", 0); ("B.Cu", 31); ("Edge.Cuts", 44)]%string 44 npth_mask
    (fun p => p) (fun _ => true).

Definition outline : DRAWING := mkDRAWING "PCB_SHAPE" 33 (mkBOX 0 0 100 50).
Definition label : DRAWING := mkDRAWING "PTEXT" 37 (mkBOX 10 10 20 5).
Definition main_edge : DRAWING := mkDRAWING "PCB_SHAPE" 44 (mkBOX 0 0 120 60).

Definition switch_pad : PAD :=
  mkPAD PAD_SHAPE_CIRCLE PAD_ATTRIB_SMD PAD_DRILL_SHAPE_CIRCLE (0, 0) (3, 3) [0; 33; 39] (10, 10).
Definition smd_pad : PAD :=
  mkPAD PAD_SHAPE_RECT PAD_ATTRIB_SMD PAD_DRILL_SHAPE_CIRCLE (0, 0) (2, 1) [0; 35; 39] (14, 10).
Definition hole_pad : PAD :=
  mkPAD PAD_SHAPE_CIRCLE PAD_ATTRIB_PTH PAD_DRILL_SHAPE_CIRCLE (2, 2) (4, 4) [0; 31; 38; 39] (95, 45).

Definition cutout : FP_ITEM := mkFP_ITEM "MGRAPHIC" 33 (10, 10).
Definition silk : FP_ITEM := mkFP_ITEM "MGRAPHIC" 37 (10, 12).

Definition src_heap : list obj :=
  [ ODrawing outline; ODrawing label; ODrawing main_edge;
    OPad switch_pad; OPad smd_pad; OGraphic cutout; OGraphic silk;
    OFootprint (mkFOOTPRINT "SW1" (10, 10) (mkBOX 5 5 10 10) [3; 4]%nat [5; 6]%nat);
    OPad hole_pad;
    OFootprint (mkFOOTPRINT "H1" (95, 45) (mkBOX 90 40 20 20) [8%nat] []);
    OPad smd_pad;
    OFootprint (mkFOOTPRINT "R1" (200, 200) (mkBOX 198 198 5 5) [10%nat] []);
    OPad smd_pad;
    OFootprint (mkFOOTPRINT "C1" (50, 20) (mkBOX 48 18 4 4) [12%nat] []);
    OBoard (mkBOARD "/home/u/horizon/pcb/horizon.kicad_pcb" [0; 1; 2]%nat [7; 9; 11; 13]%nat) ].

Definition src_board : loc := 14%nat.

Definition world0 : World := mkWorld src_heap [] [].

(** A board without any drawing. *)
Definition bare_world : World :=
  mkWorld [OBoard (mkBOARD "bare.kicad_pcb" [] [])] [] [].

End Sample.

(** ** Reading boards out of the store *)

Definition drawing_at (h : list obj) (l : loc) : option DRAWING :=
  match h !! l with Some (ODrawing d) => Some d | _ => None end.
Definition pad_at (h : list obj) (l : loc) : option PAD :=
  match h !! l with Some (OPad p) => Some p | _ => None end.
Definition graphic_at (h : list obj) (l : loc) : option FP_ITEM :=
  match h !! l with Some (OGraphic g) => Some g | _ => None end.
Definition footprint_at (h : list obj) (l : loc) : option FOOTPRINT :=
  match h !! l with Some (OFootprint f) => Some f | _ => None end.
Definition board_at (h : list obj) (l : loc) : option BOARD :=
  match h !! l with Some (OBoard b) => Some b | _ => None end.

(** A footprint with the contents of its pads and graphical items. *)
Record FootprintView := mkFootprintView {
  v_reference : string;
  v_position : wxPoint;
  v_bbox : BOX;
  v_pads : list PAD;
  v_graphics : list FP_ITEM
}.

(** A board with the contents of everything it holds. *)
Record BoardView := mkBoardView {
  v_filename : string;
  v_drawings : list DRAWING;
  v_footprints : list FootprintView
}.

Definition footprint_view (h : list obj) (l : loc) : option FootprintView :=
  f ← footprint_at h l;
  ps ← mapM (pad_at h) (fp_pads f);
  gs ← mapM (graphic_at h) (fp_graphics f);
  Some (mkFootprintView (fp_reference f) (fp_position f) (fp_bbox f) ps gs).

Definition board_view (h : list obj) (l : loc) : option BoardView :=
  b ← board_at h l;
  ds ← mapM (drawing_at h) (b_drawings b);
  fs ← mapM (footprint_view h) (b_footprints b);
  Some (mkBoardView (b_filename b) ds fs).

(** Every address a board reaches: itself, its drawings, its footprints and
    their pads and graphical items. *)
Definition footprint_items (h : list obj) (l : loc) : list loc :=
  match footprint_at h l with
  | Some f => fp_pads f ++ fp_graphics f
  | None => []
  end.

Definition board_entities (h : list obj) (l : loc) : list loc :=
  match board_at h l with
  | Some b => l :: b_drawings b ++ b_footprints b
                ++ concat (map (footprint_items h) (b_footprints b))
  | None => []
  end.

(** ** What a plate holds, as a function of the source board *)

Section Derivation.

Variable env : Pcbnew.
Variable layer_name : string.

Definition resolve (name : string) : option Z := lookup_layer (standard_layers env) name.

(** The layer [l] is the one called [name]. *)
Definition on_named (name : string) (l : Z) : bool :=
  match resolve name with Some id => l =? id | None => false end.

Definition relayer (d : DRAWING) (l : Z) : DRAWING := mkDRAWING (d_class d) l (d_bbox d).

(** The drawings a source drawing contributes to the plate. *)
Definition plate_drawings (d : DRAWING) : list DRAWING :=
  if on_named layer_name (d_layer d) && String.eqb (d_class d) "PCB_SHAPE" then
    match resolve "Edge.Cuts" with Some edge => [relayer d edge] | None => [] end
  else if (on_named "F.Silkscreen" (d_layer d) || on_named "B.Silkscreen" (d_layer d))
          && String.eqb (d_class d) "PTEXT" then [d]
  else [].

Definition keep_pad (p : PAD) : bool :=
  match resolve layer_name with Some l => in_lset l (pad_layers p) | None => false end
  && (shape_eqb (pad_shape p) PAD_SHAPE_CIRCLE || shape_eqb (pad_shape p) PAD_SHAPE_OVAL).

Definition to_npth (p : PAD) : PAD :=
  mkPAD (pad_shape p) PAD_ATTRIB_NPTH
        (if shape_eqb (pad_shape p) PAD_SHAPE_CIRCLE
         then PAD_DRILL_SHAPE_CIRCLE else PAD_DRILL_SHAPE_OBLONG)
        (pad_size p) (pad_size p) (UnplatedHoleMask env) (pad_position p).

Definition keep_graphic (g : FP_ITEM) : bool := on_named layer_name (g_layer g).

Definition to_edge (g : FP_ITEM) : FP_ITEM :=
  mkFP_ITEM (g_class g) (default (g_layer g) (resolve "Edge.Cuts")) (g_position g).

Definition filter_footprint (v : FootprintView) : FootprintView :=
  mkFootprintView (v_reference v) (v_position v) (v_bbox v)
    (map to_npth (List.filter keep_pad (v_pads v)))
    (map to_edge (List.filter keep_graphic (v_graphics v))).

Definition has_content (v : FootprintView) : bool :=
  (0 <? length (v_pads v))%nat || (0 <? length (v_graphics v))%nat.

(** The footprints a source footprint contributes to a plate with
    outline box [bounds]. *)
Definition plate_footprints (bounds : BOX) (v : FootprintView) : list FootprintView :=
  if Intersects (v_bbox v) bounds then
    if Py.re_match_H_LOGO (v_reference v) then [v]
    else if has_content (filter_footprint v) then [filter_footprint v] else []
  else [].

(** What the loop body does for one drawing: the failure it raises, or the
    drawing it adds to the plate, if any. *)
Definition drawing_outcome (d : DRAWING) : exn + option DRAWING :=
  match resolve layer_name with
  | None => inl (UnresolvableLayer layer_name)
  | Some l =>
      if (d_layer d =? l) && String.eqb (d_class d) "PCB_SHAPE" then
        match resolve "Edge.Cuts" with
        | None => inl (UnresolvableLayer "Edge.Cuts")
        | Some edge => inr (Some (relayer d edge))
        end
      else
        match resolve "F.Silkscreen" with
        | None => inl (UnresolvableLayer "F.Silkscreen")
        | Some fs =>
            if d_layer d =? fs then
              inr (if String.eqb (d_class d) "PTEXT" then Some d else None)
            else
              match resolve "B.Silkscreen" with
              | None => inl (UnresolvableLayer "B.Silkscreen")
              | Some bs =>
                  inr (if (d_layer d =? bs) && String.eqb (d_class d) "PTEXT"
                       then Some d else None)
              end
        end
  end.

End Derivation.

Import HorizonBoardProducerPlugin.

(** ** Definitions used to state and prove the claims *)

(** The names a drawing can make the loop body resolve. *)
Definition names_resolve (env : Pcbnew) (layer_name : string) : Prop :=
  is_Some (resolve env layer_name) /\ is_Some (resolve env "Edge.Cuts")
  /\ is_Some (resolve env "F.Silkscreen") /\ is_Some (resolve env "B.Silkscreen").

(** The plate board sits at address [length h0], right after the objects
    that existed when derivation started; everything it holds was made
    later.  [dvs] and [fvs] are the contents of its drawings and footprints. *)
Definition plate_heap (h0 : list obj) (fname : string) (dvs : list DRAWING)
    (fvs : list FootprintView) (h : list obj) : Prop :=
  exists P X,
    h = h0 ++ OBoard P :: X
    /\ b_filename P = fname
    /\ Forall2 (fun l d => (length h0 < l)%nat /\ h !! l = Some (ODrawing d)) (b_drawings P) dvs
    /\ Forall2 (fun l v => (length h0 < l)%nat /\ footprint_view h l = Some v
                           /\ Forall (fun i => (length h0 < i)%nat) (footprint_items h l))
               (b_footprints P) fvs.

(** The addresses, from [start] on, of the items that are kept, and of
    those that are not. *)
Fixpoint kept_from {A} (keep : A -> bool) (start : nat) (xs : list A) : list nat :=
  match xs with
  | [] => []
  | x :: rest => (if keep x then [start] else []) ++ kept_from keep (S start) rest
  end.

Fixpoint removed_from {A} (keep : A -> bool) (start : nat) (xs : list A) : list nat :=
  match xs with
  | [] => []
  | x :: rest => (if keep x then [] else [start]) ++ removed_from keep (S start) rest
  end.

(** Dropping the addresses [rm] from a list, one [Remove] at a time. *)
Definition strip (rm ls : list nat) : list nat :=
  fold_left (fun acc i => remove_loc i acc) rm ls.

(** What the pads loop leaves a pad as, and the graphical items loop a
    graphical item. *)
Definition convert_pad_value (env : Pcbnew) (layer_name : string) (p : PAD) : PAD :=
  if keep_pad env layer_name p then to_npth env p else p.

Definition convert_graphic_value (env : Pcbnew) (layer_name : string) (g : FP_ITEM) : FP_ITEM :=
  if keep_graphic env layer_name g then to_edge env g else g.

(** The store after [pcbnew.FOOTPRINT(footprint)]: the pads, the graphical
    items and the footprint [F] follow the objects of [h]. *)
Definition copy_heap (h : list obj) (ps : list PAD) (gs : list FP_ITEM) (F : FOOTPRINT)
    : list obj :=
  h ++ map OPad ps ++ map OGraphic gs ++ [OFootprint F].

(** The store after one iteration of the footprints loop. *)
Definition footprint_step_heap (env : Pcbnew) (layer_name : string) (h : list obj)
    (plate : nat) (P : BOARD) (fo : FOOTPRINT) (ps : list PAD) (gs : list FP_ITEM)
    (bounds : BOX) : list obj :=
  let nf := (length h + length ps + length gs)%nat in
  let P' := mkBOARD (b_filename P) (b_drawings P) (b_footprints P ++ [nf]) in
  let v := mkFootprintView (fp_reference fo) (fp_position fo) (fp_bbox fo) ps gs in
  if Intersects (fp_bbox fo) bounds then
    if Py.re_match_H_LOGO (fp_reference fo) then
      <[plate := OBoard P']>
        (copy_heap h ps gs
           (mkFOOTPRINT (fp_reference fo) (fp_position fo) (fp_bbox fo)
                        (seq (length h) (length ps)) (seq (length h + length ps) (length gs))))
    else
      let hc :=
        copy_heap h (map (convert_pad_value env layer_name) ps)
                  (map (convert_graphic_value env layer_name) gs)
                  (mkFOOTPRINT (fp_reference fo) (fp_position fo) (fp_bbox fo)
                     (kept_from (keep_pad env layer_name) (length h) ps)
                     (kept_from (keep_graphic env layer_name) (length h + length ps) gs)) in
      if has_content (filter_footprint env layer_name v) then <[plate := OBoard P']> hc else hc
  else h.

(** The file of the plate: the source file name with the suffix put in
    front of [".kicad_pcb"], in the output folder. *)
Definition plate_file_path (file_name output_folder plate_file_name_suffix : string) : string :=
  Py.path_join output_folder
    (Py.replace ".kicad_pcb" ("-" +:+ plate_file_name_suffix +:+ ".kicad_pcb")
                (snd (Py.path_split file_name))).

(** [old] occurs in [s] after the prefix [pre]. *)
Definition occurs_after (old pre s : string) : Prop := exists post, s = pre +:+ old +:+ post.

(** The outline box of the plate, from the drawings of the source board. *)
Definition plate_outline (env : Pcbnew) (layer_name : string) (bv : BoardView) : BOX :=
  edges_box env (flat_map (plate_drawings env layer_name) (v_drawings bv)).

(** The plate, from the source board. *)
Definition plate_view (env : Pcbnew) (layer_name output_folder suffix : string)
    (bv : BoardView) : BoardView :=
  mkBoardView (plate_file_path (v_filename bv) output_folder suffix)
    (flat_map (plate_drawings env layer_name) (v_drawings bv))
    (flat_map (plate_footprints env layer_name (plate_outline env layer_name bv))
              (v_footprints bv)).

(** ** Production: directories and artifacts *)

Definition temp_path (env : Pcbnew) (file_name : string) : string :=
  normpath env (Py.path_join (fst (Py.path_split file_name)) "../../temp").

Definition output_path (env : Pcbnew) (file_name : string) : string :=
  normpath env (Py.path_join (fst (Py.path_split file_name)) "../../gerbers").

(** The world once [produce] has prepared its directories: the temporary
    one is emptied and made anew, the output one made if missing. *)
Definition stage (env : Pcbnew) (file_name : string) (w : World) : World :=
  let temp := temp_path env file_name in
  let out := output_path env file_name in
  let cleared :=
    if existsb (String.eqb temp) (dirs w)
    then List.filter (fun d => negb (String.eqb d temp || Py.startswith (temp +:+ "/") d)) (dirs w)
    else dirs w in
  let with_temp := cleared ++ [temp] in
  set_dirs (if existsb (String.eqb out) with_temp then with_temp else with_temp ++ [out]) w.

(** What artifact generation asks for one board. *)
Definition artifact_events (temp out : string) (pcb : nat) (file_name : string) : list Event :=
  let board_name := fst (Py.splitext (snd (Py.path_split file_name))) in
  let gerber_output_path := Py.path_join temp board_name in
  map (fun layer => EvPlot pcb gerber_output_path (fst layer) (snd layer)) gerber_layers
  ++ [EvClosePlot pcb; EvDrill pcb gerber_output_path;
      EvZip (Py.path_join out board_name) gerber_output_path].

Definition board_artifacts (h : list obj) (temp out : string) (pcb : nat) : list Event :=
  match board_at h pcb with
  | Some b => artifact_events temp out pcb (b_filename b)
  | None => []
  end.

Definition add_logs (es : list Event) (w : World) : World :=
  mkWorld (heap w) (dirs w) (log w ++ es).

(** ** The sample board, derived *)

Module SampleRun.

Import Sample.

Definition src_view : BoardView :=
  Eval vm_compute in default (mkBoardView "" [] []) (board_view src_heap src_board).

(** The top plate of the sample board and the world it is left in. *)
Definition top_run : Outcome (option nat) * World :=
  Eval vm_compute in
    create_plate_pcb_from_layer kicad src_board "F.Adhesive" "/tmp" "top-plate" world0.

Definition top_plate : nat := 15.
Definition top_world : World := snd top_run.

Definition top_view : BoardView :=
  Eval vm_compute in default (mkBoardView "" [] []) (board_view (heap top_world) top_plate).

End SampleRun.

Module SampleProduce.

Import Sample SampleRun.

Definition sample_file : string := "/home/u/horizon/pcb/horizon.kicad_pcb".
Definition staged0 : World := Eval vm_compute in stage kicad sample_file world0.
Definition temp0 : string := Eval vm_compute in temp_path kicad sample_file.
Definition out0 : string := Eval vm_compute in output_path kicad sample_file.

Definition bottom_run : Outcome (option nat) * World :=
  Eval vm_compute in
    create_plate_pcb_from_layer kicad src_board "B.Adhesive" temp0 "bottom-plate" staged0.

Definition top_run2 : Outcome (option nat) * World :=
  Eval vm_compute in
    create_plate_pcb_from_layer kicad src_board "F.Adhesive" temp0 "top-plate" (snd bottom_run).

(** The filtered [SW1] of the top plate and its one pad. *)
Definition sw1_plate : FootprintView :=
  Eval vm_compute in nth 0 (v_footprints top_view) (mkFootprintView "" (0, 0) no_box [] []).
Definition sw1_hole : PAD :=
  Eval vm_compute in nth 0 (v_pads sw1_plate) Sample.smd_pad.
Definition sw1_src : FootprintView :=
  Eval vm_compute in nth 0 (v_footprints src_view) (mkFootprintView "" (0, 0) no_box [] []).
Definition h1_src : FootprintView :=
  Eval vm_compute in nth 1 (v_footprints src_view) (mkFootprintView "" (0, 0) no_box [] []).

End SampleProduce.

(** The claims as the specification words them, where the plugin does
    otherwise. *)

(** C1 as stated: every pad of a derived plate is an unplated hole whose
    drill mirrors the pad. *)
Definition every_plate_pad_is_unplated : Prop :=
  forall env layer_name output_folder suffix w board bv plate w' pv fv p,
    board_view (heap w) board = Some bv ->
    create_plate_pcb_from_layer env board layer_name output_folder suffix w
    = (Returns (Some plate), w') ->
    board_view (heap w') plate = Some pv ->
    In fv (v_footprints pv) ->
    In p (v_pads fv) ->
    pad_attribute p = PAD_ATTRIB_NPTH
    /\ pad_drill_size p = pad_size p
    /\ pad_layers p = UnplatedHoleMask env.

(** C8 as stated: a reference layer name that does not resolve makes every
    derivation fail. *)
Definition unresolvable_layer_always_raises : Prop :=
  forall env layer_name output_folder suffix w board bv,
    board_view (heap w) board = Some bv ->
    resolve env layer_name = None ->
    exists e w',
      create_plate_pcb_from_layer env board layer_name output_folder suffix w = (Raises e, w').

(** C9 as stated: when only the saving of plates can fail, the source board
    still gets its artifacts. *)
Definition plate_failure_spares_source_board : Prop :=
  forall env w board bv,
    board_view (heap w) board = Some bv ->
    (forall e, (forall pcb path, e <> EvSave pcb path) -> io_ok env e = true) ->
    exists dir, In (EvDrill board dir) (log (snd (produce env board w))).

(** ** Definitions used to state further properties *)

(** The operations of [es] that get done when they are asked for in turn:
    those before the first one the host refuses. *)
Fixpoint performed (env : Pcbnew) (es : list Event) : list Event :=
  match es with
  | [] => []
  | e :: rest => if io_ok env e then e :: performed env rest else []
  end.

(** The first operation of [es] that the host refuses, if any. *)
Fixpoint first_refused (env : Pcbnew) (es : list Event) : option Event :=
  match es with
  | [] => None
  | e :: rest => if io_ok env e then first_refused env rest else Some e
  end.

Definition outcome_of (env : Pcbnew) (es : list Event) : Outcome unit :=
  match first_refused env es with
  | None => Returns tt
  | Some e => Raises (IOFailure e)
  end.

(** What [__create_gerbers] asks of the plotter for one board. *)
Definition gerber_events (pcb : nat) (path : string) : list Event :=
  map (fun layer => EvPlot pcb path (fst layer) (snd layer)) gerber_layers
  ++ [EvClosePlot pcb].

(** The characters [ds], one after the other. *)
Fixpoint join_chars (ds : list string) : string :=
  match ds with
  | [] => EmptyString
  | d :: rest => d +:+ join_chars rest
  end.

Fixpoint no_slash (s : string) : bool :=
  match s with
  | EmptyString => true
  | String c s' => negb (Ascii.eqb c Py.slash) && no_slash s'
  end.

Fixpoint no_dot (s : string) : bool :=
  match s with
  | EmptyString => true
  | String c s' => negb (Ascii.eqb c Py.dot) && no_dot s'
  end.

(** The name under which [produce] files the artifacts of a board. *)
Definition board_name (file_name : string) : string :=
  fst (Py.splitext (snd (Py.path_split file_name))).

(** ** The sample board, produced *)

Module SampleFaults.

Import Sample SampleRun SampleProduce.

(** A host that cannot write the front mask plot. *)
Definition kicad_no_front_mask : Pcbnew :=
  mkPcbnew kicad_layers 44 npth_mask (fun p => p)
    (fun e => match e with
              | EvPlot _ _ name _ => negb (String.eqb name "F.Mask")
              | _ => true
              end).

(** A host that cannot write drill files. *)
Definition kicad_no_drill : Pcbnew :=
  mkPcbnew kicad_layers 44 npth_mask (fun p => p)
    (fun e => match e with EvDrill _ _ => false | _ => true end).

Definition gerber_run : Outcome unit * World :=
  Eval vm_compute in create_gerbers kicad_no_front_mask src_board "/tmp/horizon" world0.

Definition artifact_run : Outcome unit * World :=
  Eval vm_compute in produce_board kicad_no_drill "/tmp" "/out" src_board world0.

(** The sample world with the folders of an earlier run. *)
Definition world_again : World :=
  mkWorld src_heap [temp0; temp0 +:+ "/horizon"; out0; "/home/u/notes"]%string [].

Definition produce_run : Outcome unit * World :=
  Eval vm_compute in produce kicad src_board world_again.

(** The sample board when the plate cannot be saved. *)
Definition refused_run : Outcome (option nat) * World :=
  Eval vm_compute in
    create_plate_pcb_from_layer kicad_disk_full src_board "F.Adhesive" "/tmp" "top-plate" world0.

(** A second plate from the same layer, after the top plate. *)
Definition again_run : Outcome (option nat) * World :=
  Eval vm_compute in
    create_plate_pcb_from_layer kicad src_board "F.Adhesive" "/tmp" "again" top_world.

Definition sw1_cutout : FP_ITEM :=
  Eval vm_compute in nth 0 (v_graphics sw1_plate) Sample.silk.

(** A host that cannot write the drill file of the top plate. *)
Definition kicad_no_plate_drill : Pcbnew :=
  mkPcbnew kicad_layers 44 npth_mask (fun p => p)
    (fun e => match e with EvDrill pcb _ => negb (Nat.eqb pcb top_plate) | _ => true end).

Definition loop_run : Outcome unit * World :=
  Eval vm_compute in
    for_each (produce_board kicad_no_plate_drill "/tmp" "/out") [src_board; top_plate] top_world.

End SampleFaults.

(** ** The Python helpers on examples *)

Example splitext_ok :
  Py.splitext "horizon.kicad_pcb" = ("horizon"%string, ".kicad_pcb"%string)
  /\ Py.splitext ".hidden" = (".hidden"%string, EmptyString)
  /\ Py.splitext "a.b.c" = ("a.b"%string, ".c"%string)
  /\ Py.splitext "..x" = ("..x"%string, EmptyString)
  /\ Py.splitext "x." = ("x"%string, "."%string)
  /\ Py.splitext "noext" = ("noext"%string, EmptyString).
Proof. repeat split; reflexivity. Qed.

Example path_split_ok :
  Py.path_split "/home/u/pcb/horizon.kicad_pcb" = ("/home/u/pcb"%string, "horizon.kicad_pcb"%string)
  /\ Py.path_split "horizon.kicad_pcb" = (EmptyString, "horizon.kicad_pcb"%string)
  /\ Py.path_split "/x" = ("/"%string, "x"%string)
  /\ Py.path_split "a//b" = ("a"%string, "b"%string)
  /\ Py.path_split "a/" = ("a"%string, EmptyString).
Proof. repeat split; reflexivity. Qed.

Example replace_ok :
  Py.replace ".kicad_pcb" "-top-plate.kicad_pcb" "horizon.kicad_pcb" = "horizon-top-plate.kicad_pcb"%string
  /\ Py.replace ".kicad_pcb" "-x.kicad_pcb" "a.kicad_pcb.kicad_pcb" = "a-x.kicad_pcb-x.kicad_pcb"%string
  /\ Py.replace ".kicad_pcb" "-x.kicad_pcb" "board.txt" = "board.txt"%string
  /\ Py.replace "aa" "b" "aaa" = "ba"%string.
Proof. repeat split; reflexivity. Qed.

(** [\d] matches the decimal digits of every script, and nothing else:
    ["H"] with ARABIC-INDIC DIGIT THREE and ["LOGO"] with two fullwidth
    digits match, ["H"] with SUPERSCRIPT TWO or with CIRCLED DIGIT ONE
    does not. *)
Example re_match_unicode_ok :
  Py.re_match_H_LOGO ("H" +:+ Py.utf8 1635) = true
  /\ Py.re_match_H_LOGO ("LOGO" +:+ Py.utf8 65297 +:+ Py.utf8 65298) = true
  /\ Py.re_match_H_LOGO ("H1" +:+ Py.utf8 1635 +:+ String Py.newline EmptyString) = true
  /\ Py.re_match_H_LOGO ("H" +:+ Py.utf8 178) = false
  /\ Py.re_match_H_LOGO ("H" +:+ Py.utf8 9312) = false.
Proof. repeat split; vm_compute; reflexivity. Qed.

(** The sample board with its mounting hole named ["H"] and ARABIC-INDIC
    DIGIT THREE: the top plate keeps the hole, after the filtered [SW1]. *)
Example unicode_reference_preserved :
  let hole :=
    OFootprint (mkFOOTPRINT ("H" +:+ Py.utf8 1635) (95, 45) (mkBOX 90 40 20 20) [8%nat] []) in
  let w := mkWorld (<[9%nat := hole]> Sample.src_heap) [] [] in
  match create_plate_pcb_from_layer Sample.kicad Sample.src_board "F.Adhesive" "/tmp"
          "top-plate" w with
  | (Returns (Some plate), w') =>
      option_map (fun pv => map v_reference (v_footprints pv)) (board_view (heap w') plate)
      = Some ["SW1"%string; "H" +:+ Py.utf8 1635]
  | _ => False
  end.
Proof. vm_compute. reflexivity. Qed.

Example re_match_ok :
  Py.re_match_H_LOGO "H1" = true /\ Py.re_match_H_LOGO "LOGO12" = true
  /\ Py.re_match_H_LOGO "H" = false /\ Py.re_match_H_LOGO "H1a" = false
  /\ Py.re_match_H_LOGO "SW1" = false /\ Py.re_match_H_LOGO "LOGO" = false
  /\ Py.re_match_H_LOGO "xH1" = false.
Proof. repeat split; reflexivity. Qed.

(** ** Store lemmas *)

Section Store.

Implicit Types (h : list obj) (o : obj) (l : nat) (w : World).

Lemma lookup_snoc_old h o l x : h !! l = Some x -> (h ++ [o]) !! l = Some x.
Proof. intros H. by apply lookup_app_l_Some. Qed.

Lemma lookup_snoc_new h o : (h ++ [o]) !! length h = Some o.
Proof. by rewrite list_lookup_middle. Qed.

Lemma insert_snoc h o o' : <[length h := o']> (h ++ [o]) = h ++ [o'].
Proof. rewrite insert_app_r_alt by lia. by rewrite Nat.sub_diag. Qed.

Lemma insert_at_length h o o' t : <[length h := o']> (h ++ o :: t) = h ++ o' :: t.
Proof. rewrite insert_app_r_alt by lia. by rewrite Nat.sub_diag. Qed.

Lemma set_heap_same w : set_heap (heap w) w = w.
Proof. by destruct w. Qed.

Lemma bind_returns {A B} (m : M A) (k : A -> M B) w a w1 :
  m w = (Returns a, w1) -> bind m k w = k a w1.
Proof. unfold bind. by intros ->. Qed.

Lemma bind_raises {A B} (m : M A) (k : A -> M B) w e w1 :
  m w = (Raises e, w1) -> bind m k w = (Raises e, w1).
Proof. unfold bind. by intros ->. Qed.

End Store.

(** Symbolic execution of straight-line host calls: reduce the world
    projections and resolve the store reads that the context decides. *)
Ltac run :=
  repeat (cbn [heap set_heap dirs log fst snd andb orb];
          try match goal with
            | H : ?h !! ?l = Some _ |- context [?h !! ?l] => rewrite H
            | H : ?h !! ?l = Some ?x |- context [(?h ++ [?o]) !! ?l] =>
                rewrite (lookup_snoc_old h o l x H)
            | |- context [(?h ++ [?o]) !! length ?h] => rewrite (lookup_snoc_new h o)
            | |- context [<[length ?h := ?o']> (?h ++ [?o])] => rewrite (insert_snoc h o o')
            end).

Ltac norm_world :=
  repeat match goal with
    | |- context [set_heap ?a (set_heap ?b ?w)] =>
        change (set_heap a (set_heap b w)) with (set_heap a w)
    end.

Section Steps.

Variable env : Pcbnew.
Variable layer_name : string.

(** One iteration of the drawings loop. *)
Lemma copy_drawing_eq plate drawing d P w :
  heap w !! drawing = Some (ODrawing d) ->
  heap w !! plate = Some (OBoard P) ->
  copy_drawing env plate layer_name drawing w =
    match drawing_outcome env layer_name d with
    | inl e => (Raises e, set_heap (heap w ++ [ODrawing d]) w)
    | inr None => (Returns tt, set_heap (heap w ++ [ODrawing d]) w)
    | inr (Some d') =>
        (Returns tt,
         set_heap (<[plate := OBoard (mkBOARD (b_filename P) (b_drawings P ++ [length (heap w)])
                                             (b_footprints P))]> (heap w ++ [ODrawing d'])) w)
    end.
Proof.
  intros Hd Hp.
  unfold copy_drawing, drawing_outcome, resolve, Duplicate, and_then, or_else, GetLayerID,
    IsOnLayer, GetClass, SetLayer, Add, get_drawing, get_board, alloc, store, bind, ret, raise.
  run.
  destruct (lookup_layer (standard_layers env) layer_name) as [l|]; run; [|reflexivity].
  destruct (d_layer d =? l); run.
  - destruct (String.eqb (d_class d) "PCB_SHAPE").
    + destruct (lookup_layer (standard_layers env) "Edge.Cuts") as [edge|]; run; reflexivity.
    + destruct (lookup_layer (standard_layers env) "F.Silkscreen") as [fs|]; run; [|reflexivity].
      destruct (d_layer d =? fs); run.
      * destruct (String.eqb (d_class d) "PTEXT"); run; reflexivity.
      * destruct (lookup_layer (standard_layers env) "B.Silkscreen") as [bs|]; run; [|reflexivity].
        destruct (d_layer d =? bs); run; [|reflexivity].
        destruct (String.eqb (d_class d) "PTEXT"); run; reflexivity.
  - destruct (lookup_layer (standard_layers env) "F.Silkscreen") as [fs|]; run; [|reflexivity].
    destruct (d_layer d =? fs); run.
    + destruct (String.eqb (d_class d) "PTEXT"); run; reflexivity.
    + destruct (lookup_layer (standard_layers env) "B.Silkscreen") as [bs|]; run; [|reflexivity].
      destruct (d_layer d =? bs); run; [|reflexivity].
      destruct (String.eqb (d_class d) "PTEXT"); run; reflexivity.
Qed.

(** When the body does not raise, it adds what [plate_drawings] says. *)
Lemma drawing_outcome_inr d r :
  drawing_outcome env layer_name d = inr r ->
  plate_drawings env layer_name d = match r with Some d' => [d'] | None => [] end.
Proof.
  unfold drawing_outcome, plate_drawings, on_named.
  destruct (resolve env layer_name) as [l|]; [|done].
  destruct ((d_layer d =? l) && String.eqb (d_class d) "PCB_SHAPE").
  - destruct (resolve env "Edge.Cuts"); [|done]. by intros [= <-].
  - destruct (resolve env "F.Silkscreen") as [fs|]; [|done].
    destruct (d_layer d =? fs); cbn [orb andb].
    + intros [= <-]. by destruct (String.eqb (d_class d) "PTEXT").
    + destruct (resolve env "B.Silkscreen") as [bs|]; [|done].
      intros [= <-]. by destruct ((d_layer d =? bs) && String.eqb (d_class d) "PTEXT").
Qed.


Lemma drawing_outcome_resolved d :
  names_resolve env layer_name -> exists r, drawing_outcome env layer_name d = inr r.
Proof.
  intros ([l Hl] & [e He] & [fs Hfs] & [bs Hbs]).
  unfold drawing_outcome. rewrite Hl, He, Hfs, Hbs.
  destruct ((d_layer d =? l) && String.eqb (d_class d) "PCB_SHAPE"); [eauto|].
  destruct (d_layer d =? fs); eauto.
Qed.

Lemma drawing_outcome_unresolved d :
  resolve env layer_name = None ->
  drawing_outcome env layer_name d = inl (UnresolvableLayer layer_name).
Proof. unfold drawing_outcome. by intros ->. Qed.

End Steps.

(** ** The plate under construction *)

Section PlateHeap.

Implicit Types (h : list obj) (l : nat).

Lemma mapM_agree {A} (f g : nat -> option A) (ls : list nat) :
  Forall (fun l => g l = f l) ls -> mapM g ls = mapM f ls.
Proof.
  induction 1 as [|l ls Hl _ IH]; [done|].
  cbn. rewrite Hl, IH. done.
Qed.

(** A footprint reads the same in two stores that agree on it and on its
    items. *)
Lemma footprint_view_agree h h' l :
  h' !! l = h !! l ->
  Forall (fun i => h' !! i = h !! i) (footprint_items h l) ->
  footprint_view h' l = footprint_view h l /\ footprint_items h' l = footprint_items h l.
Proof.
  intros Hl Hitems. unfold footprint_view, footprint_items, footprint_at in *.
  rewrite Hl. destruct (h !! l) as [[| | |f|]|]; try done.
  apply Forall_app in Hitems as [Hp Hg]. split; [|done]. cbn.
  rewrite (mapM_agree (pad_at h) (pad_at h') (fp_pads f)).
  2:{ eapply Forall_impl; [exact Hp|]. intros i Hi. unfold pad_at. by rewrite Hi. }
  rewrite (mapM_agree (graphic_at h) (graphic_at h') (fp_graphics f)); [done|].
  eapply Forall_impl; [exact Hg|]. intros i Hi. unfold graphic_at. by rewrite Hi.
Qed.

Lemma footprint_items_lt h l v :
  footprint_view h l = Some v -> Forall (fun i => (i < length h)%nat) (footprint_items h l).
Proof.
  unfold footprint_view, footprint_items, footprint_at.
  destruct (h !! l) as [[| | |f|]|]; try done. cbn.
  destruct (mapM (pad_at h) (fp_pads f)) as [ps|] eqn:Hp; [|done]. cbn.
  destruct (mapM (graphic_at h) (fp_graphics f)) as [gs|] eqn:Hg; [|done]. intros _.
  apply Forall_app. split.
  - apply mapM_Some in Hp. eapply Forall2_Forall_l; [exact Hp|].
    apply Forall_forall. intros p _ i. unfold pad_at.
    destruct (h !! i) eqn:E; [|done]. intros _. by eapply lookup_lt_Some.
  - apply mapM_Some in Hg. eapply Forall2_Forall_l; [exact Hg|].
    apply Forall_forall. intros g _ i. unfold graphic_at.
    destruct (h !! i) eqn:E; [|done]. intros _. by eapply lookup_lt_Some.
Qed.

Lemma footprint_view_lt h l v : footprint_view h l = Some v -> (l < length h)%nat.
Proof.
  unfold footprint_view, footprint_at. destruct (h !! l) eqn:E; [|done].
  intros _. by eapply lookup_lt_Some.
Qed.

(** The plate's own items survive any change that leaves the objects made
    since the plate was created as they are. *)
Lemma plate_items_stable h0 h h' ls dvs :
  (forall l, (length h0 < l)%nat -> (l < length h)%nat -> h' !! l = h !! l) ->
  Forall2 (fun l d => (length h0 < l)%nat /\ h !! l = Some (ODrawing d)) ls dvs ->
  Forall2 (fun l d => (length h0 < l)%nat /\ h' !! l = Some (ODrawing d)) ls dvs.
Proof.
  intros Hsame H. eapply Forall2_impl; [exact H|]. intros l d [Hl Hd]. split; [done|].
  rewrite Hsame; [done|done|]. by eapply lookup_lt_Some.
Qed.

Lemma plate_footprints_stable h0 h h' ls fvs :
  (forall l, (length h0 < l)%nat -> (l < length h)%nat -> h' !! l = h !! l) ->
  Forall2 (fun l v => (length h0 < l)%nat /\ footprint_view h l = Some v
                      /\ Forall (fun i => (length h0 < i)%nat) (footprint_items h l)) ls fvs ->
  Forall2 (fun l v => (length h0 < l)%nat /\ footprint_view h' l = Some v
                      /\ Forall (fun i => (length h0 < i)%nat) (footprint_items h' l)) ls fvs.
Proof.
  intros Hsame H. eapply Forall2_impl; [exact H|]. intros l v (Hl & Hv & Hfresh).
  destruct (footprint_view_agree h h' l) as [Hview Hitems].
  - apply Hsame; [done|]. by eapply footprint_view_lt.
  - pose proof (footprint_items_lt _ _ _ Hv) as Hlt.
    rewrite Forall_forall in *. intros i Hi. apply Hsame; auto.
  - by rewrite Hview, Hitems.
Qed.

(** What the finished invariant says about the plate as a board. *)
Lemma plate_heap_view h0 fname dvs fvs h :
  plate_heap h0 fname dvs fvs h ->
  board_view h (length h0) = Some (mkBoardView fname dvs fvs).
Proof.
  intros (P & X & -> & <- & Hd & Hf).
  unfold board_view, board_at. rewrite list_lookup_middle by done. cbn.
  assert (mapM (drawing_at (h0 ++ OBoard P :: X)) (b_drawings P) = Some dvs) as ->.
  { apply mapM_Some. eapply Forall2_impl; [exact Hd|].
    intros l d [_ E]. unfold drawing_at. by rewrite E. }
  cbn.
  assert (mapM (footprint_view (h0 ++ OBoard P :: X)) (b_footprints P) = Some fvs) as ->.
  { apply mapM_Some. eapply Forall2_impl; [exact Hf|]. by intros l v (_ & E & _). }
  done.
Qed.

Lemma plate_heap_frame h0 fname dvs fvs h l o :
  plate_heap h0 fname dvs fvs h -> h0 !! l = Some o -> h !! l = Some o.
Proof. intros (P & X & -> & _) Hl. by apply lookup_app_l_Some. Qed.

Lemma plate_heap_new h0 fname :
  plate_heap h0 fname [] [] (h0 ++ [OBoard (mkBOARD fname [] [])]).
Proof. exists (mkBOARD fname [] []), []. repeat split; constructor. Qed.

End PlateHeap.

Section PlateSteps.

Implicit Types (h : list obj) (l : nat).

Lemma plate_heap_board h0 fname dvs fvs h :
  plate_heap h0 fname dvs fvs h ->
  exists P, h !! length h0 = Some (OBoard P) /\ b_filename P = fname.
Proof. intros (P & X & -> & <- & _). exists P. by rewrite list_lookup_middle. Qed.

(** Objects appended to the store do not disturb the plate. *)
Lemma plate_heap_grow h0 fname dvs fvs h t :
  plate_heap h0 fname dvs fvs h -> plate_heap h0 fname dvs fvs (h ++ t).
Proof.
  intros (P & X & -> & <- & Hd & Hf). exists P, (X ++ t).
  assert (Hsame : forall l, (length h0 < l)%nat -> (l < length (h0 ++ OBoard P :: X))%nat ->
                            ((h0 ++ OBoard P :: X) ++ t) !! l = (h0 ++ OBoard P :: X) !! l).
  { intros l _ Hl. by apply lookup_app_l. }
  split; [by rewrite <- app_assoc|]. split; [done|]. split.
  - by eapply plate_items_stable.
  - by eapply plate_footprints_stable.
Qed.

Lemma plate_heap_length h0 fname dvs fvs h :
  plate_heap h0 fname dvs fvs h -> (length h0 < length h)%nat.
Proof. intros (P & X & -> & _). rewrite length_app. cbn. lia. Qed.

(** The plate takes new drawings and footprints that live in objects added
    to the store. *)
Lemma plate_heap_update h0 fname dvs fvs h P P' t newd newf dvs2 fvs2 :
  plate_heap h0 fname dvs fvs h ->
  h !! length h0 = Some (OBoard P) ->
  b_filename P' = b_filename P ->
  b_drawings P' = b_drawings P ++ newd ->
  b_footprints P' = b_footprints P ++ newf ->
  Forall2 (fun l d => (length h0 < l)%nat /\ (h ++ t) !! l = Some (ODrawing d)) newd dvs2 ->
  Forall2 (fun l v => (length h0 < l)%nat /\ footprint_view (h ++ t) l = Some v
                      /\ Forall (fun i => (length h0 < i)%nat) (footprint_items (h ++ t) l))
          newf fvs2 ->
  plate_heap h0 fname (dvs ++ dvs2) (fvs ++ fvs2) (<[length h0 := OBoard P']> (h ++ t)).
Proof.
  intros Hplate HP Hfn Hdr Hfp Hnd Hnf.
  pose proof (plate_heap_grow _ _ _ _ _ t Hplate) as (P0 & X & Hh & Hname & Hd & Hf).
  assert (P0 = P) as ->.
  { assert ((h ++ t) !! length h0 = Some (OBoard P)) as E by by apply lookup_app_l_Some.
    rewrite Hh, list_lookup_middle in E by done. congruence. }
  assert (Hsame : forall l, (length h0 < l)%nat -> (l < length (h ++ t))%nat ->
                            (<[length h0 := OBoard P']> (h ++ t)) !! l = (h ++ t) !! l).
  { intros l Hl _. apply list_lookup_insert_ne. lia. }
  exists P', X. split.
  { rewrite Hh. apply insert_at_length. }
  split; [congruence|]. split.
  - rewrite Hdr. apply Forall2_app; by eapply plate_items_stable.
  - rewrite Hfp. apply Forall2_app; by eapply plate_footprints_stable.
Qed.

End PlateSteps.

Section DrawingsLoop.

Variable env : Pcbnew.
Variable layer_name : string.

(** The drawings loop either finishes, having added to the plate what
    [plate_drawings] says, or stops at the first drawing whose body
    raises. *)
Lemma copy_drawings_run h0 ls ds :
  Forall2 (fun l d => h0 !! l = Some (ODrawing d)) ls ds ->
  forall w h fname dvs fvs,
    plate_heap h0 fname dvs fvs h ->
    (exists h',
        for_each (copy_drawing env (length h0) layer_name) ls (set_heap h w)
        = (Returns tt, set_heap h' w)
        /\ plate_heap h0 fname (dvs ++ flat_map (plate_drawings env layer_name) ds) fvs h'
        /\ Forall (fun d => exists r, drawing_outcome env layer_name d = inr r) ds)
    \/ (exists e h',
           for_each (copy_drawing env (length h0) layer_name) ls (set_heap h w)
           = (Raises e, set_heap h' w)
           /\ (forall l o, h0 !! l = Some o -> h' !! l = Some o)
           /\ Exists (fun d => drawing_outcome env layer_name d = inl e) ds).
Proof.
  induction 1 as [|l d ls ds Hl _ IH]; intros w h fname dvs fvs Hplate.
  { left. exists h. cbn. rewrite app_nil_r. by repeat split. }
  destruct (plate_heap_board _ _ _ _ _ Hplate) as (P & HP & _).
  pose proof (plate_heap_frame _ _ _ _ _ _ _ Hplate Hl) as Hl'.
  assert (Hstep :
    for_each (copy_drawing env (length h0) layer_name) (l :: ls) (set_heap h w)
    = match drawing_outcome env layer_name d with
      | inl e => (Raises e, set_heap (h ++ [ODrawing d]) w)
      | inr None =>
          for_each (copy_drawing env (length h0) layer_name) ls
            (set_heap (h ++ [ODrawing d]) w)
      | inr (Some d') =>
          for_each (copy_drawing env (length h0) layer_name) ls
            (set_heap (<[length h0 := OBoard (mkBOARD (b_filename P) (b_drawings P ++ [length h])
                                                     (b_footprints P))]> (h ++ [ODrawing d'])) w)
      end).
  { cbn [for_each]. unfold bind.
    rewrite (copy_drawing_eq env layer_name (length h0) l d P (set_heap h w) Hl' HP).
    by destruct (drawing_outcome env layer_name d) as [e|[d'|]]. }
  rewrite Hstep. clear Hstep.
  destruct (drawing_outcome env layer_name d) as [e|[d'|]] eqn:Hout.
  - right. exists e, (h ++ [ODrawing d]). split; [reflexivity|]. split.
    + intros l0 o Ho. apply lookup_app_l_Some. by eapply plate_heap_frame.
    + by left.
  - assert (Hplate' : plate_heap h0 fname (dvs ++ [d']) (fvs ++ [])
              (<[length h0 := OBoard (mkBOARD (b_filename P) (b_drawings P ++ [length h])
                                              (b_footprints P ++ []))]> (h ++ [ODrawing d']))).
    { eapply plate_heap_update; eauto.
      constructor; [|constructor]. split; [|apply lookup_snoc_new].
      apply lookup_lt_Some in HP. lia. }
    rewrite !app_nil_r in Hplate'.
    destruct (IH w _ _ _ _ Hplate') as [(h' & Hrun & Hfin & Hall)|(e & h' & Hrun & Hframe & Hex)].
    + left. exists h'. split; [exact Hrun|]. split.
      * cbn [flat_map]. rewrite (drawing_outcome_inr _ _ _ _ Hout).
        by rewrite <- app_assoc in Hfin.
      * constructor; eauto.
    + right. exists e, h'. split; [exact Hrun|]. split; [done|]. by right.
  - pose proof (plate_heap_grow _ _ _ _ _ [ODrawing d] Hplate) as Hplate'.
    destruct (IH w _ _ _ _ Hplate') as [(h' & Hrun & Hfin & Hall)|(e & h' & Hrun & Hframe & Hex)].
    + left. exists h'. split; [exact Hrun|]. split.
      * cbn [flat_map]. by rewrite (drawing_outcome_inr _ _ _ _ Hout).
      * constructor; eauto.
    + right. exists e, h'. split; [exact Hrun|]. split; [done|]. by right.
Qed.

End DrawingsLoop.

(** ** Items at consecutive addresses *)

Section Consecutive.

Context {A : Type}.
Variable keep : A -> bool.


Lemma strip_filter rm ls :
  strip rm ls = List.filter (fun x => negb (existsb (Nat.eqb x) rm)) ls.
Proof.
  unfold strip. revert ls. induction rm as [|i rm IH]; intros ls; cbn.
  - induction ls as [|x ls IHl]; cbn; [done|]. by rewrite <- IHl.
  - rewrite IH. unfold remove_loc. clear IH.
    induction ls as [|x ls IHl]; cbn; [done|].
    destruct (Nat.eqb x i); cbn; [done|].
    destruct (existsb (Nat.eqb x) rm); cbn; by rewrite IHl.
Qed.

Lemma removed_from_ge start xs : Forall (fun i => (start <= i)%nat) (removed_from keep start xs).
Proof.
  revert start. induction xs as [|x xs IH]; intros start; cbn; [constructor|].
  apply Forall_app. split.
  - destruct (keep x); repeat constructor.
  - eapply Forall_impl; [apply IH|]. cbn. lia.
Qed.

Lemma removed_from_lt start xs :
  Forall (fun i => (i < start + length xs)%nat) (removed_from keep start xs).
Proof.
  revert start. induction xs as [|x xs IH]; intros start; cbn; [constructor|].
  apply Forall_app. split.
  - destruct (keep x); repeat constructor. lia.
  - eapply Forall_impl; [apply IH|]. cbn. lia.
Qed.

Lemma kept_from_ge start xs : Forall (fun i => (start <= i)%nat) (kept_from keep start xs).
Proof.
  revert start. induction xs as [|x xs IH]; intros start; cbn; [constructor|].
  apply Forall_app. split.
  - destruct (keep x); repeat constructor.
  - eapply Forall_impl; [apply IH|]. cbn. lia.
Qed.

Lemma existsb_eqb_false x rm :
  Forall (fun i => x <> i) rm -> existsb (Nat.eqb x) rm = false.
Proof.
  induction 1 as [|i rm Hi _ IH]; cbn; [done|].
  rewrite IH. by apply Nat.eqb_neq in Hi as ->.
Qed.

(** Removing the items that are not kept leaves the kept ones. *)
Lemma strip_removed start xs :
  strip (removed_from keep start xs) (seq start (length xs)) = kept_from keep start xs.
Proof.
  rewrite strip_filter. revert start.
  induction xs as [|x xs IH]; intros start; cbn [length seq kept_from removed_from List.filter];
    [done|].
  destruct (keep x); cbn [app].
  - rewrite existsb_eqb_false.
    2:{ eapply Forall_impl; [apply (removed_from_ge (S start))|]. cbn. lia. }
    cbn. by rewrite IH.
  - cbn [existsb]. rewrite Nat.eqb_refl. cbn. rewrite <- IH.
    apply filter_ext_in. intros i Hi. apply in_seq in Hi.
    assert (Nat.eqb i start = false) as -> by (apply Nat.eqb_neq; lia). done.
Qed.

End Consecutive.

(** ** Copying and reading the items of a footprint *)

Section Items.

Context {A : Type}.
Variable inj : A -> obj.
Variable get : nat -> M A.
Variable at_ : list obj -> nat -> option A.
Hypothesis get_eq : forall l a w, heap w !! l = Some (inj a) -> get l w = (Returns a, w).
Hypothesis at_eq : forall h l a, h !! l = Some (inj a) -> at_ h l = Some a.

Lemma lookup_items (pre : list obj) (xs : list A) (post : list obj) i x :
  xs !! i = Some x -> (pre ++ map inj xs ++ post) !! (length pre + i)%nat = Some (inj x).
Proof.
  intros Hx. rewrite lookup_app_r by lia.
  replace (length pre + i - length pre)%nat with i by lia.
  apply lookup_app_l_Some. by rewrite list_lookup_fmap, Hx.
Qed.

(** Copying items one by one puts the copies at the next free addresses. *)
Lemma copy_items_eq (h : list obj) ls xs :
  Forall2 (fun l a => h !! l = Some (inj a)) ls xs ->
  forall t w,
    map_m (fun l => let! a := get l in alloc (inj a)) ls (set_heap (h ++ t) w)
    = (Returns (seq (length (h ++ t)) (length ls)), set_heap (h ++ t ++ map inj xs) w).
Proof.
  induction 1 as [|l a ls xs Hl _ IH]; intros t w.
  { cbn. by rewrite !app_nil_r. }
  cbn [map_m]. unfold bind at 1. unfold bind at 1.
  rewrite (get_eq l a) by (cbn; by apply lookup_app_l_Some).
  unfold alloc at 1. cbn [heap set_heap].
  unfold bind at 1.
  replace (set_heap ((h ++ t) ++ [inj a]) (set_heap (h ++ t) w))
    with (set_heap (h ++ (t ++ [inj a])) w) by (by rewrite <- app_assoc).
  rewrite IH. unfold ret. cbn [length seq map]. f_equal.
  - do 2 f_equal. rewrite !length_app. cbn. f_equal. lia.
  - by rewrite <- !app_assoc.
Qed.

(** Reading back a run of items. *)
Lemma read_items (h : list obj) n xs :
  (forall i x, xs !! i = Some x -> h !! (n + i)%nat = Some (inj x)) ->
  mapM (at_ h) (seq n (length xs)) = Some xs.
Proof.
  revert n. induction xs as [|x xs IH]; intros n Hh; [done|].
  cbn. rewrite (at_eq h n x).
  2:{ specialize (Hh 0%nat x eq_refl). by rewrite Nat.add_0_r in Hh. }
  cbn. rewrite IH; [done|].
  intros i y Hy. specialize (Hh (S i) y Hy). by rewrite Nat.add_succ_r in Hh.
Qed.

(** Reading back the kept items of a run. *)
Lemma read_kept (keep : A -> bool) (conv : A -> A) (h : list obj) n xs :
  (forall i x, xs !! i = Some x -> h !! (n + i)%nat = Some (inj (conv x))) ->
  mapM (at_ h) (kept_from keep n xs) = Some (map conv (List.filter keep xs)).
Proof.
  revert n. induction xs as [|x xs IH]; intros n Hh; [done|].
  assert (Hrest : mapM (at_ h) (kept_from keep (S n) xs) = Some (map conv (List.filter keep xs))).
  { apply IH. intros i y Hy. specialize (Hh (S i) y Hy). by rewrite Nat.add_succ_r in Hh. }
  cbn [kept_from List.filter]. destruct (keep x); cbn [app]; [|done].
  cbn. rewrite (at_eq h n (conv x)).
  2:{ specialize (Hh 0%nat x eq_refl). by rewrite Nat.add_0_r in Hh. }
  cbn. by rewrite Hrest.
Qed.

End Items.

Section ItemsInPlace.

Context {A : Type}.
Variable inj : A -> obj.
Variable get : nat -> M A.
Hypothesis get_eq : forall l a w, heap w !! l = Some (inj a) -> get l w = (Returns a, w).

(** Rewriting items with what they already hold changes nothing. *)
Lemma rewrite_items_same (mv : A -> A) (h : list obj) ls w :
  (forall a, mv a = a) ->
  Forall (fun l => exists a, h !! l = Some (inj a)) ls ->
  for_each (fun l => let! a := get l in store l (inj (mv a))) ls (set_heap h w)
  = (Returns tt, set_heap h w).
Proof.
  intros Hmv. induction 1 as [|l ls [a Hl] _ IH]; [done|].
  cbn [for_each]. unfold bind at 1. unfold bind at 1.
  rewrite (get_eq l a) by done.
  unfold store at 1. cbn [heap set_heap]. rewrite Hmv, list_insert_id by done.
  exact IH.
Qed.

End ItemsInPlace.

Lemma get_pad_eq l p w : heap w !! l = Some (OPad p) -> get_pad l w = (Returns p, w).
Proof. unfold get_pad. by intros ->. Qed.

Lemma get_graphic_eq l g w : heap w !! l = Some (OGraphic g) -> get_graphic l w = (Returns g, w).
Proof. unfold get_graphic. by intros ->. Qed.

Lemma pad_at_eq h l p : h !! l = Some (OPad p) -> pad_at h l = Some p.
Proof. unfold pad_at. by intros ->. Qed.

Lemma graphic_at_eq h l g : h !! l = Some (OGraphic g) -> graphic_at h l = Some g.
Proof. unfold graphic_at. by intros ->. Qed.

Lemma move_pad_zero p : move_pad (0, 0) p = p.
Proof. destruct p as [? ? ? ? ? ? [x y]]. unfold move_pad, shift. cbn. by rewrite !Z.add_0_r. Qed.

Lemma move_graphic_zero g : move_graphic (0, 0) g = g.
Proof. destruct g as [? ? [x y]]. unfold move_graphic, shift. cbn. by rewrite !Z.add_0_r. Qed.

Lemma move_box_zero b : move_box (0, 0) b = b.
Proof. destruct b. unfold move_box. cbn. by rewrite !Z.add_0_r. Qed.

Section FootprintCopy.

Implicit Types (h : list obj) (w : World).

(** [pcbnew.FOOTPRINT(footprint)] puts copies of the pads, then of the
    graphical items, then the new footprint at the end of the store. *)
Lemma FOOTPRINT_copy_eq h f fo ps gs w :
  h !! f = Some (OFootprint fo) ->
  Forall2 (fun l p => h !! l = Some (OPad p)) (fp_pads fo) ps ->
  Forall2 (fun l g => h !! l = Some (OGraphic g)) (fp_graphics fo) gs ->
  FOOTPRINT_copy f (set_heap h w)
  = (Returns (length h + length ps + length gs)%nat,
     set_heap (h ++ map OPad ps ++ map OGraphic gs
                 ++ [OFootprint (mkFOOTPRINT (fp_reference fo) (fp_position fo) (fp_bbox fo)
                                             (seq (length h) (length ps))
                                             (seq (length h + length ps) (length gs)))]) w).
Proof.
  intros Hf Hps Hgs. unfold FOOTPRINT_copy, get_footprint.
  unfold bind at 1. cbn [heap set_heap]. rewrite Hf.
  unfold bind at 1.
  pose proof (copy_items_eq OPad get_pad get_pad_eq h _ _ Hps [] w) as E1.
  rewrite !app_nil_r in E1. cbn [app] in E1. rewrite E1. clear E1.
  unfold bind at 1.
  pose proof (copy_items_eq OGraphic get_graphic get_graphic_eq h _ _ Hgs (map OPad ps) w) as E2.
  rewrite E2. clear E2.
  unfold alloc. cbn [heap set_heap].
  rewrite (Forall2_length _ _ _ Hps), (Forall2_length _ _ _ Hgs).
  rewrite !length_app, !length_map. f_equal.
  - f_equal. lia.
  - unfold set_heap. cbn. f_equal. by rewrite <- !app_assoc.
Qed.

(** Moving a footprint to where it is leaves the store as it is. *)
Lemma SetPosition_same h nf F w :
  h !! nf = Some (OFootprint F) ->
  Forall (fun l => exists p, h !! l = Some (OPad p)) (fp_pads F) ->
  Forall (fun l => exists g, h !! l = Some (OGraphic g)) (fp_graphics F) ->
  SetPosition nf (fp_position F) (set_heap h w) = (Returns tt, set_heap h w).
Proof.
  intros Hnf Hps Hgs. unfold SetPosition. cbn [heap set_heap]. rewrite Hnf.
  rewrite !Z.sub_diag.
  unfold bind at 1.
  rewrite (rewrite_items_same OPad get_pad get_pad_eq (move_pad (0, 0)) h _ w move_pad_zero Hps).
  unfold bind at 1.
  rewrite (rewrite_items_same OGraphic get_graphic get_graphic_eq (move_graphic (0, 0)) h _ w
             move_graphic_zero Hgs).
  unfold store. cbn [heap set_heap]. rewrite move_box_zero.
  rewrite list_insert_id; [done|]. rewrite Hnf. by destruct F.
Qed.

End FootprintCopy.

Section PadsAndGraphics.

Variable env : Pcbnew.
Variable layer_name : string.
Variable lid edge : Z.
Hypothesis layer_resolves : resolve env layer_name = Some lid.
Hypothesis edge_resolves : resolve env "Edge.Cuts" = Some edge.


(** One iteration of the pads loop. *)
Lemma convert_pad_eq acc pad p w :
  heap w !! pad = Some (OPad p) ->
  convert_pad env layer_name acc pad w
  = (Returns (if keep_pad env layer_name p then acc else acc ++ [pad]),
     set_heap (<[pad := OPad (convert_pad_value env layer_name p)]> (heap w)) w).
Proof.
  intros Hp. pose proof (lookup_lt_Some _ _ _ Hp) as Hlt.
  unfold convert_pad_value, keep_pad. rewrite layer_resolves.
  unfold convert_pad, and_then, GetLayerID. fold (resolve env layer_name).
  rewrite layer_resolves.
  unfold IsOnLayer, GetShape, get_pad, bind, ret. rewrite Hp.
  destruct (in_lset lid (pad_layers p)); cbn [andb].
  2:{ rewrite list_insert_id by done. by destruct w. }
  rewrite Hp.
  destruct (shape_eqb (pad_shape p) PAD_SHAPE_CIRCLE || shape_eqb (pad_shape p) PAD_SHAPE_OVAL).
  2:{ rewrite list_insert_id by done. by destruct w. }
  rewrite Hp.
  unfold SetAttribute, SetDrillShape, SetDrillSize, SetLayerSet, GetSize, GetPosition,
    SetPosition, update_pad, get_pad, store, bind, ret.
  rewrite Hp. cbn [heap set_heap].
  repeat (rewrite list_lookup_insert_eq by (rewrite ?length_insert; exact Hlt);
          cbn [heap set_heap pad_shape pad_attribute pad_drill_shape pad_drill_size pad_size
               pad_layers pad_position];
          rewrite ?list_insert_insert_eq).
  reflexivity.
Qed.

(** One iteration of the graphical items loop. *)
Lemma convert_graphic_eq acc graphic g w :
  heap w !! graphic = Some (OGraphic g) ->
  convert_graphic env layer_name acc graphic w
  = (Returns (if keep_graphic env layer_name g then acc else acc ++ [graphic]),
     set_heap (<[graphic := OGraphic (convert_graphic_value env layer_name g)]> (heap w)) w).
Proof.
  intros Hg.
  unfold convert_graphic_value, keep_graphic, to_edge, on_named.
  rewrite layer_resolves, edge_resolves.
  unfold convert_graphic, GetLayerID. fold (resolve env layer_name). fold (resolve env "Edge.Cuts").
  rewrite layer_resolves, edge_resolves.
  unfold IsOnLayer, SetLayer, store, bind, ret. rewrite Hg.
  destruct (g_layer g =? lid).
  - rewrite Hg. reflexivity.
  - rewrite list_insert_id by done. by destruct w.
Qed.

End PadsAndGraphics.

Section ConvertLoop.

Context {A : Type}.
Variable inj : A -> obj.
Variable body : list nat -> nat -> M (list nat).
Variable keep : A -> bool.
Variable conv : A -> A.
Hypothesis body_eq : forall acc l a w,
  heap w !! l = Some (inj a) ->
  body acc l w = (Returns (if keep a then acc else acc ++ [l]),
                  set_heap (<[l := inj (conv a)]> (heap w)) w).

(** The loop over a run of items converts each in place and collects the
    addresses of those to remove. *)
Lemma convert_items_eq xs :
  forall pre post acc w,
    for_acc body acc (seq (length pre) (length xs)) (set_heap (pre ++ map inj xs ++ post) w)
    = (Returns (acc ++ removed_from keep (length pre) xs),
       set_heap (pre ++ map inj (map conv xs) ++ post) w).
Proof.
  induction xs as [|x xs IH]; intros pre post acc w.
  { cbn. by rewrite app_nil_r. }
  cbn [for_acc seq length map removed_from app]. unfold bind at 1.
  rewrite (body_eq acc (length pre) x) by (cbn; by rewrite list_lookup_middle).
  cbn [heap set_heap]. rewrite insert_at_length.
  specialize (IH (pre ++ [inj (conv x)]) post (if keep x then acc else acc ++ [length pre]) w).
  rewrite length_app, Nat.add_1_r, <- !app_assoc in IH. cbn [app] in IH.
  replace (set_heap (pre ++ inj (conv x) :: map inj xs ++ post)
             (set_heap (pre ++ inj x :: map inj xs ++ post) w))
    with (set_heap (pre ++ inj (conv x) :: map inj xs ++ post) w) by done.
  rewrite IH. f_equal. f_equal.
  destruct (keep x); cbn [app]; [done|]. by rewrite <- app_assoc.
Qed.

End ConvertLoop.

Section RemoveLoop.

Implicit Types (h : list obj) (w : World).

Lemma for_each_app {A} (body : A -> M unit) xs ys w :
  for_each body (xs ++ ys) w = (do! for_each body xs in for_each body ys) w.
Proof.
  revert w. induction xs as [|x xs IH]; intros w; cbn [for_each app].
  - done.
  - unfold bind. destruct (body x w) as [[[]|e] w1]; [|done].
    rewrite IH. done.
Qed.

(** Removing pads from a footprint. *)
Lemma remove_pads_eq rp :
  forall F h w nf,
    h !! nf = Some (OFootprint F) ->
    Forall (fun i => exists p, h !! i = Some (OPad p)) rp ->
    for_each (Remove nf) rp (set_heap h w)
    = (Returns tt,
       set_heap (<[nf := OFootprint (mkFOOTPRINT (fp_reference F) (fp_position F) (fp_bbox F)
                                                 (strip rp (fp_pads F)) (fp_graphics F))]> h) w).
Proof.
  induction rp as [|i rp IH]; intros F h w nf Hnf Hrp.
  { cbn. rewrite list_insert_id; [done|]. rewrite Hnf. by destruct F. }
  apply Forall_cons in Hrp as [[p Hi] Hrp].
  assert (i <> nf) by congruence.
  cbn [for_each]. unfold bind at 1. unfold Remove at 1, get_footprint, bind, store.
  cbn [heap set_heap]. rewrite Hnf. cbn [heap set_heap]. rewrite Hi. cbn [heap set_heap].
  set (F1 := mkFOOTPRINT (fp_reference F) (fp_position F) (fp_bbox F)
                         (remove_loc i (fp_pads F)) (fp_graphics F)).
  pose proof (lookup_lt_Some _ _ _ Hnf) as Hlt. norm_world.
  rewrite (IH F1 (<[nf := OFootprint F1]> h) w nf).
  - by rewrite list_insert_insert_eq.
  - by apply list_lookup_insert_eq.
  - eapply Forall_impl; [exact Hrp|]. intros j [q Hj]. exists q.
    rewrite list_lookup_insert_ne; [done|congruence].
Qed.

(** Removing graphical items from a footprint. *)
Lemma remove_graphics_eq rg :
  forall F h w nf,
    h !! nf = Some (OFootprint F) ->
    Forall (fun i => exists g, h !! i = Some (OGraphic g)) rg ->
    for_each (Remove nf) rg (set_heap h w)
    = (Returns tt,
       set_heap (<[nf := OFootprint (mkFOOTPRINT (fp_reference F) (fp_position F) (fp_bbox F)
                                                 (fp_pads F) (strip rg (fp_graphics F)))]> h) w).
Proof.
  induction rg as [|i rg IH]; intros F h w nf Hnf Hrg.
  { cbn. rewrite list_insert_id; [done|]. rewrite Hnf. by destruct F. }
  apply Forall_cons in Hrg as [[g Hi] Hrg].
  assert (i <> nf) by congruence.
  cbn [for_each]. unfold bind at 1. unfold Remove at 1, get_footprint, bind, store.
  cbn [heap set_heap]. rewrite Hnf. cbn [heap set_heap]. rewrite Hi. cbn [heap set_heap].
  set (F1 := mkFOOTPRINT (fp_reference F) (fp_position F) (fp_bbox F)
                         (fp_pads F) (remove_loc i (fp_graphics F))).
  pose proof (lookup_lt_Some _ _ _ Hnf) as Hlt. norm_world.
  rewrite (IH F1 (<[nf := OFootprint F1]> h) w nf).
  - by rewrite list_insert_insert_eq.
  - by apply list_lookup_insert_eq.
  - eapply Forall_impl; [exact Hrg|]. intros j [q Hj]. exists q.
    rewrite list_lookup_insert_ne; [done|congruence].
Qed.

End RemoveLoop.

(** ** A copied footprint in the store *)


Section CopyHeap.

Implicit Types (h : list obj) (ps : list PAD) (gs : list FP_ITEM) (F : FOOTPRINT).

Lemma copy_heap_old h ps gs F l o :
  h !! l = Some o -> copy_heap h ps gs F !! l = Some o.
Proof. intros H. by apply lookup_app_l_Some. Qed.

Lemma copy_heap_pad h ps gs F i p :
  ps !! i = Some p -> copy_heap h ps gs F !! (length h + i)%nat = Some (OPad p).
Proof. intros H. by apply (lookup_items OPad h ps). Qed.

Lemma copy_heap_graphic h ps gs F i g :
  gs !! i = Some g ->
  copy_heap h ps gs F !! (length h + length ps + i)%nat = Some (OGraphic g).
Proof.
  intros H. unfold copy_heap. rewrite app_assoc.
  pose proof (lookup_items OGraphic (h ++ map OPad ps) gs [OFootprint F] i g H) as E.
  by rewrite length_app, length_map in E.
Qed.

Lemma copy_heap_footprint h ps gs F :
  copy_heap h ps gs F !! (length h + length ps + length gs)%nat = Some (OFootprint F).
Proof.
  unfold copy_heap. rewrite !app_assoc.
  pose proof (lookup_snoc_new ((h ++ map OPad ps) ++ map OGraphic gs) (OFootprint F)) as E.
  by rewrite !length_app, !length_map in E.
Qed.

Lemma copy_heap_set_footprint h ps gs F F' :
  <[(length h + length ps + length gs)%nat := OFootprint F']> (copy_heap h ps gs F)
  = copy_heap h ps gs F'.
Proof.
  unfold copy_heap. rewrite !app_assoc.
  pose proof (insert_snoc ((h ++ map OPad ps) ++ map OGraphic gs) (OFootprint F) (OFootprint F'))
    as E.
  by rewrite !length_app, !length_map in E.
Qed.

Lemma copy_heap_pads_readable h ps gs F :
  Forall (fun l => exists p, copy_heap h ps gs F !! l = Some (OPad p))
         (seq (length h) (length ps)).
Proof.
  apply Forall_forall. intros l Hl. apply list_elem_of_In, in_seq in Hl.
  destruct (lookup_lt_is_Some_2 ps (l - length h)) as [p Hp]; [lia|].
  exists p. replace l with (length h + (l - length h))%nat by lia. by apply copy_heap_pad.
Qed.

Lemma copy_heap_graphics_readable h ps gs F :
  Forall (fun l => exists g, copy_heap h ps gs F !! l = Some (OGraphic g))
         (seq (length h + length ps) (length gs)).
Proof.
  apply Forall_forall. intros l Hl. apply list_elem_of_In, in_seq in Hl.
  destruct (lookup_lt_is_Some_2 gs (l - (length h + length ps))) as [g Hg]; [lia|].
  exists g. replace l with (length h + length ps + (l - (length h + length ps)))%nat by lia.
  by apply copy_heap_graphic.
Qed.

Lemma kept_from_length {A} (keep : A -> bool) n xs :
  length (kept_from keep n xs) = length (List.filter keep xs).
Proof.
  revert n. induction xs as [|x xs IH]; intros n; cbn; [done|].
  destruct (keep x); cbn; by rewrite IH.
Qed.

Lemma map_filter_conv {A} (keep : A -> bool) (f conv : A -> A) xs :
  (forall x, keep x = true -> conv x = f x) ->
  map conv (List.filter keep xs) = map f (List.filter keep xs).
Proof.
  intros H. apply map_ext_in. intros x Hx. apply filter_In in Hx as [_ Hx]. by apply H.
Qed.

(** The copy reads as the footprint it was made from. *)
Lemma footprint_view_copy h ps gs r p b :
  footprint_view
    (copy_heap h ps gs (mkFOOTPRINT r p b (seq (length h) (length ps))
                                    (seq (length h + length ps) (length gs))))
    (length h + length ps + length gs)
  = Some (mkFootprintView r p b ps gs).
Proof.
  unfold footprint_view, footprint_at. rewrite copy_heap_footprint. cbn.
  rewrite (read_items OPad pad_at pad_at_eq _ (length h) ps).
  2:{ intros i x Hx. by apply copy_heap_pad. }
  cbn. rewrite (read_items OGraphic graphic_at graphic_at_eq _ (length h + length ps) gs).
  2:{ intros i x Hx. by apply copy_heap_graphic. }
  done.
Qed.

End CopyHeap.

Section FilteredCopy.

Variable env : Pcbnew.
Variable layer_name : string.

(** The copy after filtering reads as [filter_footprint] says. *)
Lemma footprint_view_filtered h ps gs r p b :
  footprint_view
    (copy_heap h (map (convert_pad_value env layer_name) ps)
               (map (convert_graphic_value env layer_name) gs)
               (mkFOOTPRINT r p b
                  (kept_from (keep_pad env layer_name) (length h) ps)
                  (kept_from (keep_graphic env layer_name) (length h + length ps) gs)))
    (length h + length ps + length gs)
  = Some (filter_footprint env layer_name (mkFootprintView r p b ps gs)).
Proof.
  unfold footprint_view, footprint_at.
  pose proof (copy_heap_footprint h (map (convert_pad_value env layer_name) ps)
                (map (convert_graphic_value env layer_name) gs)) as E.
  rewrite !length_map in E. rewrite E. clear E. cbn.
  rewrite (read_kept OPad pad_at pad_at_eq (keep_pad env layer_name)
             (convert_pad_value env layer_name) _ (length h) ps).
  2:{ intros i x Hx. apply copy_heap_pad. by rewrite list_lookup_fmap, Hx. }
  cbn.
  rewrite (read_kept OGraphic graphic_at graphic_at_eq (keep_graphic env layer_name)
             (convert_graphic_value env layer_name) _ (length h + length ps) gs).
  2:{ intros i x Hx.
      pose proof (copy_heap_graphic h (map (convert_pad_value env layer_name) ps)
                    (map (convert_graphic_value env layer_name) gs)) as E.
      rewrite length_map in E. apply E. by rewrite list_lookup_fmap, Hx. }
  cbn. unfold filter_footprint. cbn. f_equal. f_equal.
  - apply map_filter_conv. intros x Hx. unfold convert_pad_value. by rewrite Hx.
  - apply map_filter_conv. intros x Hx. unfold convert_graphic_value. by rewrite Hx.
Qed.

End FilteredCopy.

Section FootprintBody.

Variable env : Pcbnew.
Variable layer_name : string.
Variable lid edge : Z.
Hypothesis layer_resolves : resolve env layer_name = Some lid.
Hypothesis edge_resolves : resolve env "Edge.Cuts" = Some edge.

Local Abbreviation keepp := (keep_pad env layer_name).
Local Abbreviation keepg := (keep_graphic env layer_name).
Local Abbreviation convp := (convert_pad_value env layer_name).
Local Abbreviation convg := (convert_graphic_value env layer_name).

(** The pads loop on a fresh copy. *)
Lemma convert_pads_eq h ps gs F w :
  for_acc (convert_pad env layer_name) [] (seq (length h) (length ps))
          (set_heap (copy_heap h ps gs F) w)
  = (Returns (removed_from keepp (length h) ps),
     set_heap (copy_heap h (map convp ps) gs F) w).
Proof.
  unfold copy_heap.
  exact (convert_items_eq OPad (convert_pad env layer_name) keepp convp
           (fun acc l a w => convert_pad_eq env layer_name lid layer_resolves acc l a w)
           ps h (map OGraphic gs ++ [OFootprint F]) [] w).
Qed.

(** The graphical items loop that follows it. *)
Lemma convert_graphics_eq h ps gs F acc w :
  for_acc (convert_graphic env layer_name) acc (seq (length h + length ps) (length gs))
          (set_heap (copy_heap h ps gs F) w)
  = (Returns (acc ++ removed_from keepg (length h + length ps) gs),
     set_heap (copy_heap h ps (map convg gs) F) w).
Proof.
  pose proof (convert_items_eq OGraphic (convert_graphic env layer_name) keepg convg
                (fun acc l a w =>
                   convert_graphic_eq env layer_name lid edge layer_resolves edge_resolves acc l a w)
                gs (h ++ map OPad ps) [OFootprint F] acc w) as E.
  rewrite length_app, length_map, <- !app_assoc in E. exact E.
Qed.

(** The removals that follow the two loops; the items in the store are
    the converted ones. *)
Lemma remove_items_eq h ps gs r p b w :
  for_each (Remove (length h + length ps + length gs))
           (removed_from keepp (length h) ps ++ removed_from keepg (length h + length ps) gs)
           (set_heap (copy_heap h (map convp ps) (map convg gs)
                        (mkFOOTPRINT r p b (seq (length h) (length ps))
                                     (seq (length h + length ps) (length gs)))) w)
  = (Returns tt,
     set_heap (copy_heap h (map convp ps) (map convg gs)
                 (mkFOOTPRINT r p b (kept_from keepp (length h) ps)
                              (kept_from keepg (length h + length ps) gs))) w).
Proof.
  set (F0 := mkFOOTPRINT r p b (seq (length h) (length ps))
                         (seq (length h + length ps) (length gs))).
  set (nf := (length h + length ps + length gs)%nat).
  set (ps' := map convp ps). set (gs' := map convg gs).
  assert (Lp : length ps' = length ps) by apply length_map.
  assert (Lg : length gs' = length gs) by apply length_map.
  assert (Hnf : forall F, copy_heap h ps' gs' F !! nf = Some (OFootprint F)).
  { intros F. unfold nf. rewrite <- Lp, <- Lg. apply copy_heap_footprint. }
  assert (Hset : forall F F', <[nf := OFootprint F']> (copy_heap h ps' gs' F)
                              = copy_heap h ps' gs' F').
  { intros F F'. unfold nf. rewrite <- Lp, <- Lg. apply copy_heap_set_footprint. }
  rewrite for_each_app. unfold bind at 1.
  rewrite (remove_pads_eq _ F0 (copy_heap h ps' gs' F0) w nf).
  2:{ apply Hnf. }
  2:{ apply Forall_forall. intros l Hl.
      pose proof (removed_from_ge keepp (length h) ps) as Hge.
      pose proof (removed_from_lt keepp (length h) ps) as Hlt.
      rewrite Forall_forall in Hge, Hlt. specialize (Hge _ Hl). specialize (Hlt _ Hl).
      pose proof (copy_heap_pads_readable h ps' gs' F0) as Hr. rewrite Forall_forall in Hr.
      apply Hr. apply list_elem_of_In, in_seq. lia. }
  rewrite Hset. cbn [fp_reference fp_position fp_bbox fp_pads fp_graphics F0].
  rewrite strip_removed.
  set (F1 := mkFOOTPRINT r p b (kept_from keepp (length h) ps)
                         (seq (length h + length ps) (length gs))).
  rewrite (remove_graphics_eq _ F1 (copy_heap h ps' gs' F1) w nf).
  2:{ apply Hnf. }
  2:{ apply Forall_forall. intros l Hl.
      pose proof (removed_from_ge keepg (length h + length ps) gs) as Hge.
      pose proof (removed_from_lt keepg (length h + length ps) gs) as Hlt.
      rewrite Forall_forall in Hge, Hlt. specialize (Hge _ Hl). specialize (Hlt _ Hl).
      pose proof (copy_heap_graphics_readable h ps' gs' F1) as Hr. rewrite Forall_forall in Hr.
      apply Hr. apply list_elem_of_In, in_seq. lia. }
  rewrite Hset. cbn [fp_reference fp_position fp_bbox fp_pads fp_graphics F1].
  by rewrite strip_removed.
Qed.

End FootprintBody.

Section FootprintStep.

Variable env : Pcbnew.
Variable layer_name : string.
Variable lid edge : Z.
Hypothesis layer_resolves : resolve env layer_name = Some lid.
Hypothesis edge_resolves : resolve env "Edge.Cuts" = Some edge.


Lemma convert_footprint_eq h plate P f fo ps gs bounds w :
  h !! f = Some (OFootprint fo) ->
  Forall2 (fun l p => h !! l = Some (OPad p)) (fp_pads fo) ps ->
  Forall2 (fun l g => h !! l = Some (OGraphic g)) (fp_graphics fo) gs ->
  h !! plate = Some (OBoard P) ->
  convert_footprint env plate layer_name bounds f (set_heap h w)
  = (Returns tt, set_heap (footprint_step_heap env layer_name h plate P fo ps gs bounds) w).
Proof.
  intros Hf Hps Hgs HP.
  unfold convert_footprint, footprint_step_heap.
  unfold GetBoundingBox, get_footprint. unfold bind at 1. unfold bind at 1.
  cbn [heap set_heap]. rewrite Hf. unfold ret at 1.
  destruct (Intersects (fp_bbox fo) bounds); [|reflexivity].
  unfold bind at 1. rewrite (FOOTPRINT_copy_eq h f fo ps gs w Hf Hps Hgs).
  set (F0 := mkFOOTPRINT (fp_reference fo) (fp_position fo) (fp_bbox fo)
                         (seq (length h) (length ps)) (seq (length h + length ps) (length gs))).
  fold (copy_heap h ps gs F0).
  set (nf := (length h + length ps + length gs)%nat).
  assert (Hf' : copy_heap h ps gs F0 !! f = Some (OFootprint fo)) by by apply copy_heap_old.
  (* the position is set to what it is *)
  unfold bind at 1. unfold GetPosition at 1. unfold bind at 1.
  cbn [heap set_heap]. rewrite Hf'.
  change (fp_position fo) with (fp_position F0) at 1.
  rewrite (SetPosition_same (copy_heap h ps gs F0) nf F0 w).
  2:{ apply copy_heap_footprint. }
  2:{ apply copy_heap_pads_readable. }
  2:{ apply copy_heap_graphics_readable. }
  unfold GetReference, get_footprint. unfold bind at 1. unfold bind at 1.
  cbn [heap set_heap]. rewrite Hf'. unfold ret at 1.
  assert (HP' : forall ps' gs' F, copy_heap h ps' gs' F !! plate = Some (OBoard P)).
  { intros. by apply copy_heap_old. }
  destruct (Py.re_match_H_LOGO (fp_reference fo)).
  { unfold Add, get_board, bind. cbn [heap set_heap]. rewrite HP'. cbn [heap set_heap].
    unfold nf. rewrite copy_heap_footprint. reflexivity. }
  (* the pads and graphical items of the copy are filtered *)
  unfold Pads at 1, get_footprint. unfold bind at 1. unfold bind at 1.
  cbn [heap set_heap]. unfold nf at 1. rewrite copy_heap_footprint. unfold ret at 1.
  cbn [fp_pads F0].
  unfold bind at 1. rewrite (convert_pads_eq env layer_name lid layer_resolves).
  unfold GraphicalItems at 1, get_footprint. unfold bind at 1. unfold bind at 1.
  cbn [heap set_heap].
  pose proof (copy_heap_footprint h (map (convert_pad_value env layer_name) ps) gs F0) as E.
  rewrite length_map in E. unfold nf at 1. rewrite E. clear E. unfold ret at 1.
  cbn [fp_graphics F0].
  unfold bind at 1.
  pose proof (convert_graphics_eq env layer_name lid edge layer_resolves edge_resolves h
                (map (convert_pad_value env layer_name) ps) gs F0
                (removed_from (keep_pad env layer_name) (length h) ps) w) as E.
  rewrite length_map in E. rewrite E. clear E.
  unfold bind at 1.
  subst nf F0. rewrite (remove_items_eq env layer_name h ps gs
             (fp_reference fo) (fp_position fo) (fp_bbox fo) w).
  set (F' := mkFOOTPRINT (fp_reference fo) (fp_position fo) (fp_bbox fo)
               (kept_from (keep_pad env layer_name) (length h) ps)
               (kept_from (keep_graphic env layer_name) (length h + length ps) gs)).
  set (hc := copy_heap h (map (convert_pad_value env layer_name) ps)
               (map (convert_graphic_value env layer_name) gs) F').
  set (nf := (length h + length ps + length gs)%nat).
  assert (Hnf : hc !! nf = Some (OFootprint F')).
  { pose proof (copy_heap_footprint h (map (convert_pad_value env layer_name) ps)
                  (map (convert_graphic_value env layer_name) gs) F') as E.
    by rewrite !length_map in E. }
  assert (HPc : hc !! plate = Some (OBoard P)) by apply HP'.
  unfold or_else, Pads, GraphicalItems, Add, get_footprint, get_board, bind, ret.
  cbn [heap set_heap]. rewrite Hnf. cbn [heap set_heap fp_pads fp_graphics F'].
  unfold has_content, filter_footprint. cbn [v_pads v_graphics].
  rewrite !length_map, !kept_from_length.
  destruct (0 <? length (List.filter (keep_pad env layer_name) ps))%nat; cbn [orb].
  { cbn [heap set_heap]. rewrite HPc. cbn [heap set_heap]. rewrite Hnf. reflexivity. }
  cbn [heap set_heap]. rewrite Hnf. cbn [heap set_heap fp_pads fp_graphics F'].
  rewrite kept_from_length.
  destruct (0 <? length (List.filter (keep_graphic env layer_name) gs))%nat; [|reflexivity].
  cbn [heap set_heap]. rewrite HPc. cbn [heap set_heap]. rewrite Hnf. reflexivity.
Qed.

End FootprintStep.

Section FootprintsLoop.

Variable env : Pcbnew.
Variable layer_name : string.
Variable lid edge : Z.
Hypothesis layer_resolves : resolve env layer_name = Some lid.
Hypothesis edge_resolves : resolve env "Edge.Cuts" = Some edge.

Lemma footprint_view_inv h l v :
  footprint_view h l = Some v ->
  exists fo ps gs,
    h !! l = Some (OFootprint fo)
    /\ Forall2 (fun i p => h !! i = Some (OPad p)) (fp_pads fo) ps
    /\ Forall2 (fun i g => h !! i = Some (OGraphic g)) (fp_graphics fo) gs
    /\ v = mkFootprintView (fp_reference fo) (fp_position fo) (fp_bbox fo) ps gs.
Proof.
  unfold footprint_view, footprint_at.
  destruct (h !! l) as [[| | |fo|]|] eqn:Hl; try done. cbn.
  destruct (mapM (pad_at h) (fp_pads fo)) as [ps|] eqn:Hp; [|done]. cbn.
  destruct (mapM (graphic_at h) (fp_graphics fo)) as [gs|] eqn:Hg; [|done]. cbn.
  intros [= <-]. exists fo, ps, gs. split; [done|]. split; [|split; [|done]].
  - apply mapM_Some in Hp. eapply Forall2_impl; [exact Hp|].
    intros i p. unfold pad_at. destruct (h !! i) as [[]|]; naive_solver.
  - apply mapM_Some in Hg. eapply Forall2_impl; [exact Hg|].
    intros i g. unfold graphic_at. destruct (h !! i) as [[]|]; naive_solver.
Qed.

Lemma footprint_items_copy h ps gs F :
  footprint_items (copy_heap h ps gs F) (length h + length ps + length gs)
  = fp_pads F ++ fp_graphics F.
Proof. unfold footprint_items, footprint_at. by rewrite copy_heap_footprint. Qed.

(** One iteration keeps the plate well formed and adds to it what
    [plate_footprints] says. *)
Lemma footprint_step_plate h0 fname dvs fvs h P fo ps gs bounds :
  plate_heap h0 fname dvs fvs h ->
  h !! length h0 = Some (OBoard P) ->
  plate_heap h0 fname dvs
    (fvs ++ plate_footprints env layer_name bounds
              (mkFootprintView (fp_reference fo) (fp_position fo) (fp_bbox fo) ps gs))
    (footprint_step_heap env layer_name h (length h0) P fo ps gs bounds).
Proof.
  intros Hplate HP. pose proof (plate_heap_length _ _ _ _ _ Hplate) as Hlen.
  unfold footprint_step_heap, plate_footprints. cbn [v_bbox v_reference].
  destruct (Intersects (fp_bbox fo) bounds); [|by rewrite app_nil_r].
  set (nf := (length h + length ps + length gs)%nat).
  destruct (Py.re_match_H_LOGO (fp_reference fo)).
  { rewrite <- (app_nil_r dvs). unfold copy_heap.
    eapply (plate_heap_update _ _ _ _ _ P _ _ [] [nf]); eauto.
    - cbn. by rewrite app_nil_r.
    - constructor; [|constructor]. split; [unfold nf; lia|].
      fold (copy_heap h ps gs (mkFOOTPRINT (fp_reference fo) (fp_position fo) (fp_bbox fo)
              (seq (length h) (length ps)) (seq (length h + length ps) (length gs)))).
      split; [apply footprint_view_copy|].
      unfold nf. rewrite footprint_items_copy. cbn. apply Forall_app. split.
      + apply Forall_forall. intros i Hi. apply list_elem_of_In, in_seq in Hi. lia.
      + apply Forall_forall. intros i Hi. apply list_elem_of_In, in_seq in Hi. lia. }
  set (v := mkFootprintView (fp_reference fo) (fp_position fo) (fp_bbox fo) ps gs).
  destruct (has_content (filter_footprint env layer_name v)).
  2:{ rewrite app_nil_r. unfold copy_heap. by apply plate_heap_grow. }
  rewrite <- (app_nil_r dvs). unfold copy_heap.
  eapply (plate_heap_update _ _ _ _ _ P _ _ [] [nf]); eauto.
  - cbn. by rewrite app_nil_r.
  - constructor; [|constructor]. split; [unfold nf; lia|].
    match goal with
    | |- context [footprint_view (h ++ map OPad ?a ++ map OGraphic ?b ++ [OFootprint ?F])] =>
        fold (copy_heap h a b F)
    end.
    split; [apply footprint_view_filtered|].
    pose proof (footprint_items_copy h (map (convert_pad_value env layer_name) ps)
                  (map (convert_graphic_value env layer_name) gs)) as E.
    rewrite !length_map in E. unfold nf. rewrite E. cbn. apply Forall_app. split.
    + eapply Forall_impl; [apply kept_from_ge|]. cbn. lia.
    + eapply Forall_impl; [apply kept_from_ge|]. cbn. lia.
Qed.

(** The footprints loop cannot raise once the two names resolve; it adds
    to the plate what [plate_footprints] says, in source order. *)
Lemma convert_footprints_run h0 bounds ls vs :
  Forall2 (fun l v => footprint_view h0 l = Some v) ls vs ->
  forall w h fname dvs fvs,
    plate_heap h0 fname dvs fvs h ->
    exists h',
      for_each (convert_footprint env (length h0) layer_name bounds) ls (set_heap h w)
      = (Returns tt, set_heap h' w)
      /\ plate_heap h0 fname dvs
           (fvs ++ flat_map (plate_footprints env layer_name bounds) vs) h'.
Proof.
  induction 1 as [|l v ls vs Hv _ IH]; intros w h fname dvs fvs Hplate.
  { exists h. cbn. by rewrite app_nil_r. }
  destruct (footprint_view_inv _ _ _ Hv) as (fo & ps & gs & Hl & Hps & Hgs & ->).
  destruct (plate_heap_board _ _ _ _ _ Hplate) as (P & HP & _).
  assert (Hl' : h !! l = Some (OFootprint fo)) by by eapply plate_heap_frame.
  assert (Hps' : Forall2 (fun i p => h !! i = Some (OPad p)) (fp_pads fo) ps).
  { eapply Forall2_impl; [exact Hps|]. intros. by eapply plate_heap_frame. }
  assert (Hgs' : Forall2 (fun i g => h !! i = Some (OGraphic g)) (fp_graphics fo) gs).
  { eapply Forall2_impl; [exact Hgs|]. intros. by eapply plate_heap_frame. }
  pose proof (footprint_step_plate h0 fname dvs fvs h P fo ps gs bounds Hplate HP) as Hstep.
  destruct (IH w _ _ _ _ Hstep) as (h' & Hrun & Hfin).
  exists h'. split.
  - cbn [for_each]. unfold bind.
    rewrite (convert_footprint_eq env layer_name lid edge layer_resolves edge_resolves
               h (length h0) P l fo ps gs bounds w Hl' Hps' Hgs' HP).
    exact Hrun.
  - cbn [flat_map]. by rewrite app_assoc.
Qed.

End FootprintsLoop.

(** ** The whole derivation *)


Section Outline.

Variable env : Pcbnew.
Variable layer_name : string.

Lemma read_drawings h ls ds w :
  Forall2 (fun l d => h !! l = Some (ODrawing d)) ls ds ->
  map_m get_drawing ls (set_heap h w) = (Returns ds, set_heap h w).
Proof.
  induction 1 as [|l d ls ds Hl _ IH]; [done|].
  cbn [map_m]. unfold bind at 1. unfold get_drawing at 1. cbn [heap set_heap]. rewrite Hl.
  unfold bind at 1. rewrite IH. done.
Qed.

Lemma class_text_not_shape c : String.eqb c "PTEXT" = true -> String.eqb c "PCB_SHAPE" = false.
Proof. intros H. apply String.eqb_eq in H. by subst. Qed.

(** Without the reference layer or the edge-cut layer, nothing that
    reaches the plate counts as outline. *)
Lemma no_outline_unresolved ds :
  resolve env layer_name = None \/ resolve env "Edge.Cuts" = None ->
  List.filter (is_edge env) (flat_map (plate_drawings env layer_name) ds) = [].
Proof.
  intros Hun. induction ds as [|d ds IH]; [done|].
  cbn [flat_map]. rewrite List.filter_app, IH, app_nil_r.
  unfold plate_drawings, on_named.
  assert (Hfirst : (match resolve env layer_name with
                    | Some id => d_layer d =? id | None => false end
                    && String.eqb (d_class d) "PCB_SHAPE" = true) ->
                   resolve env "Edge.Cuts" = None).
  { destruct Hun as [->| ->]; [done|done]. }
  destruct (match resolve env layer_name with
            | Some id => d_layer d =? id | None => false end
            && String.eqb (d_class d) "PCB_SHAPE").
  - by rewrite Hfirst.
  - match goal with |- context [if ?c then _ else _] => destruct c eqn:Hc end; [|done].
    apply andb_true_iff in Hc as [_ Hc]. cbn. unfold is_edge.
    by rewrite (class_text_not_shape _ Hc).
Qed.

(** A plate with an outline of non-zero area has both names resolved. *)
Lemma outline_resolves ds :
  GetArea (edges_box env (flat_map (plate_drawings env layer_name) ds)) <> 0 ->
  exists lid edge, resolve env layer_name = Some lid /\ resolve env "Edge.Cuts" = Some edge.
Proof.
  intros Harea.
  destruct (resolve env layer_name) as [lid|] eqn:Hl;
    [destruct (resolve env "Edge.Cuts") as [edge|] eqn:He; [eauto|]|].
  - exfalso. apply Harea. unfold edges_box.
    rewrite no_outline_unresolved by auto. done.
  - exfalso. apply Harea. unfold edges_box.
    rewrite no_outline_unresolved by auto. done.
Qed.

End Outline.

Section Derive.

Variable env : Pcbnew.
Variables layer_name output_folder suffix : string.

Lemma board_view_inv h l bv :
  board_view h l = Some bv ->
  exists b,
    h !! l = Some (OBoard b)
    /\ v_filename bv = b_filename b
    /\ Forall2 (fun i d => h !! i = Some (ODrawing d)) (b_drawings b) (v_drawings bv)
    /\ Forall2 (fun i v => footprint_view h i = Some v) (b_footprints b) (v_footprints bv).
Proof.
  unfold board_view, board_at.
  destruct (h !! l) as [[| | | |b]|] eqn:Hl; try done. cbn.
  destruct (mapM (drawing_at h) (b_drawings b)) as [ds|] eqn:Hd; [|done]. cbn.
  destruct (mapM (footprint_view h) (b_footprints b)) as [fs|] eqn:Hf; [|done]. cbn.
  intros [= <-]. exists b. cbn. repeat split; [| by apply mapM_Some].
  apply mapM_Some in Hd. eapply Forall2_impl; [exact Hd|].
  intros i d. unfold drawing_at. destruct (h !! i) as [[]|]; naive_solver.
Qed.

(** How a derivation can end: without a plate, with a plate, or raising. *)
Lemma create_plate_run h0 w board bv :
  board_view h0 board = Some bv ->
  let ds := flat_map (plate_drawings env layer_name) (v_drawings bv) in
  let bounds := edges_box env ds in
  let path := plate_file_path (v_filename bv) output_folder suffix in
  let plate := length h0 in
  (exists h',
      create_plate_pcb_from_layer env board layer_name output_folder suffix (set_heap h0 w)
      = (Returns None, set_heap h' w)
      /\ plate_heap h0 path ds [] h'
      /\ GetArea bounds = 0
      /\ Forall (fun d => exists r, drawing_outcome env layer_name d = inr r) (v_drawings bv))
  \/ (exists h',
         create_plate_pcb_from_layer env board layer_name output_folder suffix (set_heap h0 w)
         = (Returns (Some plate), add_log (EvSave plate path) (set_heap h' w))
         /\ plate_heap h0 path ds
              (flat_map (plate_footprints env layer_name bounds) (v_footprints bv)) h'
         /\ GetArea bounds <> 0
         /\ io_ok env (EvSave plate path) = true
         /\ Forall (fun d => exists r, drawing_outcome env layer_name d = inr r)
                   (v_drawings bv))
  \/ (exists e h',
         create_plate_pcb_from_layer env board layer_name output_folder suffix (set_heap h0 w)
         = (Raises e, set_heap h' w)
         /\ (forall l o, h0 !! l = Some o -> h' !! l = Some o)
         /\ (Exists (fun d => drawing_outcome env layer_name d = inl e) (v_drawings bv)
             \/ (e = IOFailure (EvSave plate path) /\ GetArea bounds <> 0
                 /\ io_ok env (EvSave plate path) = false))).
Proof.
  intros Hview.
  destruct (board_view_inv _ _ _ Hview) as (b & Hb & Hname & Hds & Hfs).
  cbv zeta. rewrite Hname.
  set (ds := flat_map (plate_drawings env layer_name) (v_drawings bv)).
  set (bounds := edges_box env ds).
  set (path := plate_file_path (b_filename b) output_folder suffix).
  set (h1 := h0 ++ [OBoard (mkBOARD path [] [])]).
  assert (Hb1 : h1 !! board = Some (OBoard b)) by by apply lookup_snoc_old.
  pose proof (plate_heap_new h0 path) as Hplate1. fold h1 in Hplate1.
  remember (create_plate_pcb_from_layer env board layer_name output_folder suffix
              (set_heap h0 w)) as R eqn:HR.
  assert (Hstart : R
    = (do! for_each (copy_drawing env (length h0) layer_name) (b_drawings b) in
       let! platebounds := GetBoardEdgesBoundingBox env (length h0) in
       if GetArea platebounds =? 0 then ret None
       else
         let! footprints := GetFootprints board in
         do! for_each (convert_footprint env (length h0) layer_name platebounds) footprints in
         do! SetFileName (length h0) path in
         do! Save env (length h0) path in
         ret (Some (length h0))) (set_heap h1 w)).
  { rewrite HR.
    unfold create_plate_pcb_from_layer, GetFileName, GetDrawings, NewBoard, get_board, alloc.
    unfold bind at 1. unfold bind at 1. cbn [heap set_heap]. rewrite Hb. unfold ret at 1.
    unfold bind at 1. cbn [heap set_heap].
    unfold bind at 1. unfold bind at 1. cbn [heap set_heap].
    change (Py.path_join output_folder _) with path.
    fold h1. rewrite Hb1. unfold ret at 1. reflexivity. }
  clear HR.
  destruct (copy_drawings_run env layer_name h0 _ _ Hds w h1 path [] [] Hplate1)
    as [(h2 & Hrun & Hplate2 & Hok)|(e & h2 & Hrun & Hframe & Hex)].
  2:{ right. right. exists e, h2. split; [|split; [done|by left]].
      rewrite Hstart. unfold bind at 1. by rewrite Hrun. }
  cbn [app] in Hplate2. fold ds in Hplate2.
  unfold bind at 1 in Hstart. rewrite Hrun in Hstart.
  (* the outline of the plate *)
  pose proof Hplate2 as (P2 & X2 & Hh2 & HP2name & Hd2 & Hf2).
  assert (HP2 : h2 !! (length h0) = Some (OBoard P2)).
  { rewrite Hh2. by apply list_lookup_middle. }
  assert (Hbounds : GetBoardEdgesBoundingBox env (length h0) (set_heap h2 w)
                    = (Returns bounds, set_heap h2 w)).
  { unfold GetBoardEdgesBoundingBox, GetDrawings, get_board.
    unfold bind at 1. unfold bind at 1. cbn [heap set_heap]. rewrite HP2. unfold ret at 1.
    unfold bind at 1. rewrite (read_drawings h2 (b_drawings P2) ds w); [done|].
    eapply Forall2_impl; [exact Hd2|]. by intros l d [_ E]. }
  unfold bind at 1 in Hstart. rewrite Hbounds in Hstart.
  destruct (GetArea bounds =? 0) eqn:Harea.
  { left. exists h2. split; [exact Hstart|]. split; [done|]. split; [|done].
    by apply Z.eqb_eq. }
  apply Z.eqb_neq in Harea.
  destruct (outline_resolves env layer_name _ Harea) as (lid & edge & Hlid & Hedge).
  assert (Hb2 : h2 !! board = Some (OBoard b)) by by eapply plate_heap_frame.
  unfold GetFootprints, get_board in Hstart. unfold bind at 1 in Hstart.
  unfold bind at 1 in Hstart.
  cbn [heap set_heap] in Hstart. rewrite Hb2 in Hstart. unfold ret at 1 in Hstart.
  destruct (convert_footprints_run env layer_name lid edge Hlid Hedge h0 bounds _ _ Hfs
              w h2 path ds [] Hplate2) as (h3 & Hrun3 & Hplate3).
  cbn [app] in Hplate3.
  unfold bind at 1 in Hstart. rewrite Hrun3 in Hstart.
  (* the file name is set and the plate saved *)
  destruct (plate_heap_board _ _ _ _ _ Hplate3) as (P3 & HP3 & HP3name).
  set (P4 := mkBOARD path (b_drawings P3) (b_footprints P3)).
  assert (Hplate4 : plate_heap h0 path ds
            (flat_map (plate_footprints env layer_name bounds) (v_footprints bv))
            (<[(length h0) := OBoard P4]> h3)).
  { pose proof (plate_heap_update h0 path ds _ h3 P3 P4 [] [] [] [] [] Hplate3 HP3) as U.
    rewrite !app_nil_r in U. apply U; try done; cbn; rewrite ?app_nil_r; try done;
      constructor. }
  unfold SetFileName, get_board, store in Hstart. unfold bind at 1 in Hstart.
  unfold bind at 1 in Hstart.
  cbn [heap set_heap] in Hstart. rewrite HP3 in Hstart. fold P4 in Hstart.
  unfold Save, perform in Hstart. unfold bind at 1 in Hstart. cbn [heap set_heap] in Hstart.
  destruct (io_ok env (EvSave (length h0) path)) eqn:Hio.
  - right. left. exists (<[(length h0) := OBoard P4]> h3). split; [exact Hstart|done].
  - right. right. exists (IOFailure (EvSave (length h0) path)), (<[(length h0) := OBoard P4]> h3).
    split; [exact Hstart|]. split; [|by right].
    intros l o Hl. by eapply plate_heap_frame.
Qed.

End Derive.

(** ** Replacing a substring *)


Section Replace.

Lemma append_nil (b : string) : EmptyString +:+ b = b.
Proof. reflexivity. Qed.

Lemma append_cons x (a b : string) : String x a +:+ b = String x (a +:+ b).
Proof. reflexivity. Qed.

Lemma string_app_assoc (a b c : string) : (a +:+ b) +:+ c = a +:+ b +:+ c.
Proof. induction a as [|x a IH]; [done|]. rewrite !append_cons. by f_equal. Qed.

Lemma startswith_app old post : Py.startswith old (old +:+ post) = true.
Proof.
  induction old as [|a old IH]; [done|]. rewrite append_cons. cbn. by rewrite Ascii.eqb_refl.
Qed.

Lemma startswith_inv old s : Py.startswith old s = true -> exists post, s = old +:+ post.
Proof.
  revert s. induction old as [|a old IH]; intros s; cbn.
  - intros _. by exists s.
  - destruct s as [|b s]; [done|]. destruct (Ascii.eqb a b) eqn:E; [|done].
    apply Ascii.eqb_eq in E as ->. intros H. destruct (IH _ H) as [post ->]. by exists post.
Qed.

Lemma drop_chars_app a b : Py.drop_chars (String.length a) (a +:+ b) = b.
Proof.
  induction a as [|x a IH]; [by destruct b|]. rewrite append_cons. cbn. exact IH.
Qed.

(** Passing over [k] characters is replacing in what follows them. *)
Lemma replace_from_skip old new s :
  forall k, Py.replace_from old new k s = Py.replace_from old new 0 (Py.drop_chars k s).
Proof.
  induction s as [|c s IH]; intros k.
  - by destruct k.
  - destruct k as [|k]; [done|]. cbn [Py.replace_from Py.drop_chars]. apply IH.
Qed.

(** An occurrence at the head is replaced, and the scan resumes after it. *)
Lemma replace_head a old new rest :
  Py.replace (String a old) new (String a old +:+ rest)
  = new +:+ Py.replace (String a old) new rest.
Proof.
  unfold Py.replace. rewrite append_cons. cbn [Py.replace_from].
  rewrite <- append_cons, startswith_app. f_equal. cbn [String.length Nat.pred].
  rewrite replace_from_skip. by rewrite drop_chars_app.
Qed.

(** Without an occurrence the string is unchanged. *)
Lemma replace_absent old new s :
  (forall pre, ~ occurs_after old pre s) -> Py.replace old new s = s.
Proof.
  unfold Py.replace. induction s as [|c s IH]; intros Hno; [done|].
  cbn [Py.replace_from].
  destruct (Py.startswith old (String c s)) eqn:E.
  { exfalso. destruct (startswith_inv _ _ E) as [post Hpost].
    apply (Hno EmptyString). by exists post. }
  f_equal. apply IH. intros pre [post Hpost]. apply (Hno (String c pre)).
  exists post. rewrite append_cons. by rewrite Hpost.
Qed.

(** The first occurrence is replaced where it stands; the scan goes on
    after it. *)
Lemma replace_first a old new pre rest :
  (forall pre', occurs_after (String a old) pre' (pre +:+ String a old +:+ rest) ->
                (String.length pre <= String.length pre')%nat) ->
  Py.replace (String a old) new (pre +:+ String a old +:+ rest)
  = pre +:+ new +:+ Py.replace (String a old) new rest.
Proof.
  induction pre as [|c pre IH]; intros Hfirst.
  { rewrite !append_nil. apply replace_head. }
  unfold Py.replace. rewrite !(append_cons c). cbn [Py.replace_from].
  destruct (Py.startswith (String a old) (String c (pre +:+ String a old +:+ rest))) eqn:E.
  { exfalso. destruct (startswith_inv _ _ E) as [post Hpost].
    specialize (Hfirst EmptyString). cbn [String.length] in Hfirst.
    assert (S (String.length pre) <= 0)%nat; [|lia].
    apply Hfirst. exists post. rewrite append_nil, (append_cons c). exact Hpost. }
  f_equal. apply IH. intros pre' [post Hpost].
  specialize (Hfirst (String c pre')). cbn [String.length] in Hfirst.
  assert (S (String.length pre) <= S (String.length pre'))%nat; [|lia].
  apply Hfirst. exists post. rewrite !(append_cons c). by rewrite Hpost.
Qed.

End Replace.

(** ** What a derivation leaves behind *)


Section Outcomes.

Variable env : Pcbnew.
Variables layer_name output_folder suffix : string.

Local Abbreviation derive := (create_plate_pcb_from_layer env).

(** A derivation that returns a plate. *)
Lemma derive_some w board bv plate w' :
  board_view (heap w) board = Some bv ->
  derive board layer_name output_folder suffix w = (Returns (Some plate), w') ->
  plate = length (heap w)
  /\ GetArea (plate_outline env layer_name bv) <> 0
  /\ (exists lid edge, resolve env layer_name = Some lid /\ resolve env "Edge.Cuts" = Some edge)
  /\ exists h',
      w' = add_log (EvSave plate (plate_file_path (v_filename bv) output_folder suffix))
                   (set_heap h' w)
      /\ plate_heap (heap w) (v_filename (plate_view env layer_name output_folder suffix bv))
           (v_drawings (plate_view env layer_name output_folder suffix bv))
           (v_footprints (plate_view env layer_name output_folder suffix bv)) h'.
Proof.
  intros Hview Hrun.
  pose proof (create_plate_run env layer_name output_folder suffix (heap w) w board bv Hview)
    as Hcases.
  cbv zeta in Hcases. rewrite set_heap_same in Hcases.
  destruct Hcases as [(h' & E & _)|[(h' & E & Hplate & Harea & _)|(e & h' & E & _)]];
    rewrite E in Hrun; try discriminate.
  injection Hrun as <- <-. split; [done|]. split; [done|].
  split; [by eapply outline_resolves|]. by exists h'.
Qed.

(** The plate reads as [plate_view] says. *)
Lemma derive_some_view w board bv plate w' :
  board_view (heap w) board = Some bv ->
  derive board layer_name output_folder suffix w = (Returns (Some plate), w') ->
  board_view (heap w') plate = Some (plate_view env layer_name output_folder suffix bv).
Proof.
  intros Hview Hrun.
  destruct (derive_some _ _ _ _ _ Hview Hrun) as (-> & _ & _ & h' & -> & Hplate).
  cbn [heap add_log set_heap]. by apply plate_heap_view in Hplate.
Qed.

End Outcomes.

Section Returned.

Variable env : Pcbnew.
Variables layer_name output_folder suffix : string.

Local Abbreviation derive := (create_plate_pcb_from_layer env).

(** Whatever a derivation returns, the plate board it worked on holds the
    drawings [plate_drawings] says, and no drawing made the body raise. *)
Lemma derive_returns w board bv r w' :
  board_view (heap w) board = Some bv ->
  derive board layer_name output_folder suffix w = (Returns r, w') ->
  Forall (fun d => exists o, drawing_outcome env layer_name d = inr o) (v_drawings bv)
  /\ exists fvs,
      plate_heap (heap w) (plate_file_path (v_filename bv) output_folder suffix)
        (flat_map (plate_drawings env layer_name) (v_drawings bv)) fvs (heap w').
Proof.
  intros Hview Hrun.
  pose proof (create_plate_run env layer_name output_folder suffix (heap w) w board bv Hview)
    as Hcases.
  cbv zeta in Hcases. rewrite set_heap_same in Hcases.
  destruct Hcases as [(h' & E & Hplate & _ & Hok)
                     |[(h' & E & Hplate & _ & _ & Hok)|(e & h' & E & _)]];
    rewrite E in Hrun; try discriminate.
  - injection Hrun as <- <-. split; [done|]. by eexists.
  - injection Hrun as <- <-. split; [done|]. by eexists.
Qed.

Lemma shape_on_layer_resolves d o :
  drawing_outcome env layer_name d = inr o ->
  on_named env layer_name (d_layer d) && String.eqb (d_class d) "PCB_SHAPE" = true ->
  exists edge, resolve env "Edge.Cuts" = Some edge.
Proof.
  unfold drawing_outcome, on_named.
  destruct (resolve env layer_name) as [l|]; [|done].
  intros Hout Hcond. rewrite Hcond in Hout.
  destruct (resolve env "Edge.Cuts") as [edge|]; [eauto|done].
Qed.

Lemma in_plate_footprints bounds (fvs : list FootprintView) fv :
  In fv (flat_map (plate_footprints env layer_name bounds) fvs) ->
  exists fv0,
    In fv0 fvs /\ Intersects (v_bbox fv0) bounds = true
    /\ ((Py.re_match_H_LOGO (v_reference fv0) = true /\ fv = fv0)
        \/ (Py.re_match_H_LOGO (v_reference fv0) = false
            /\ has_content (filter_footprint env layer_name fv0) = true
            /\ fv = filter_footprint env layer_name fv0)).
Proof.
  intros Hin. apply in_flat_map in Hin as (fv0 & Hin0 & Hin).
  exists fv0. split; [done|]. unfold plate_footprints in Hin.
  destruct (Intersects (v_bbox fv0) bounds); [|done]. split; [done|].
  destruct (Py.re_match_H_LOGO (v_reference fv0)).
  - left. destruct Hin as [<-|[]]. done.
  - right. destruct (has_content (filter_footprint env layer_name fv0)); [|done].
    destruct Hin as [<-|[]]. done.
Qed.

End Returned.


(** ** Plate derivation: the claims *)

Section Claims.

Variable env : Pcbnew.
Variables layer_name output_folder suffix : string.

Local Abbreviation derive := (create_plate_pcb_from_layer env).

(** C1, as amended.  In a derived plate, every pad of an ordinary
    footprint (one whose reference does not match [^(H|LOGO)\d+$]) is the
    conversion of a circle or oval pad [p0] of the source footprint that
    lies on the reference layer: it is unplated (NPTH), its drill is
    circular for a circle and oblong for an oval, its drill size is the
    pad's size, its layer set is the unplated-hole mask, and shape, size
    and position are those of [p0].  The pads of a footprint whose
    reference matches survive as they are in the source: the footprint has
    exactly the pads of a source footprint of that reference, plated or
    not. *)
Theorem C1_ordinary_pads_become_unplated_holes w board bv plate w' pv fv p :
  board_view (heap w) board = Some bv ->
  derive board layer_name output_folder suffix w = (Returns (Some plate), w') ->
  board_view (heap w') plate = Some pv ->
  In fv (v_footprints pv) ->
  In p (v_pads fv) ->
  (Py.re_match_H_LOGO (v_reference fv) = false ->
   exists fv0 p0,
     In fv0 (v_footprints bv) /\ In p0 (v_pads fv0)
     /\ v_reference fv0 = v_reference fv
     /\ keep_pad env layer_name p0 = true
     /\ pad_attribute p = PAD_ATTRIB_NPTH
     /\ ((pad_shape p0 = PAD_SHAPE_CIRCLE /\ pad_drill_shape p = PAD_DRILL_SHAPE_CIRCLE)
         \/ (pad_shape p0 = PAD_SHAPE_OVAL /\ pad_drill_shape p = PAD_DRILL_SHAPE_OBLONG))
     /\ pad_drill_size p = pad_size p0
     /\ pad_layers p = UnplatedHoleMask env
     /\ pad_position p = pad_position p0
     /\ pad_shape p = pad_shape p0
     /\ pad_size p = pad_size p0)
  /\ (Py.re_match_H_LOGO (v_reference fv) = true ->
      exists fv0,
        In fv0 (v_footprints bv) /\ v_reference fv0 = v_reference fv
        /\ v_pads fv = v_pads fv0 /\ In p (v_pads fv0)).
Proof.
  intros Hview Hrun Hpv Hfv Hp.
  rewrite (derive_some_view _ _ _ _ _ _ _ _ _ Hview Hrun) in Hpv. injection Hpv as <-.
  cbn [v_footprints plate_view] in Hfv.
  apply in_plate_footprints in Hfv as (fv0 & Hin0 & _ & [[Hpres ->]|(Hord0 & _ & ->)]).
  { split; [congruence|]. intros _. by exists fv0. }
  split; [|cbn [v_reference filter_footprint]; congruence].
  intros _. cbn [v_pads filter_footprint] in Hp.
  apply in_map_iff in Hp as (p0 & <- & Hp0). apply filter_In in Hp0 as [Hp0 Hkeep].
  exists fv0, p0. repeat (split; [done|]). cbn.
  split; [|done].
  unfold keep_pad in Hkeep. apply andb_true_iff in Hkeep as [_ Hshape].
  destruct (pad_shape p0); cbn in *; auto; done.
Qed.

(** C3.  A source footprint whose reference matches [^(H|LOGO)\d+$] and
    whose bounding box intersects the outline box of the plate has a
    duplicate among the footprints of the derived plate: a new object that
    reads exactly as the source footprint does (same reference, position,
    box, pads and graphical items). *)
Theorem C3_preserved_footprint_duplicated w board bv plate w' fv :
  board_view (heap w) board = Some bv ->
  derive board layer_name output_folder suffix w = (Returns (Some plate), w') ->
  In fv (v_footprints bv) ->
  Py.re_match_H_LOGO (v_reference fv) = true ->
  Intersects (v_bbox fv) (plate_outline env layer_name bv) = true ->
  exists P l,
    heap w' !! plate = Some (OBoard P)
    /\ In l (b_footprints P)
    /\ footprint_view (heap w') l = Some fv
    /\ heap w !! l = None.
Proof.
  intros Hview Hrun Hfv Hpres Hbox.
  destruct (derive_some _ _ _ _ _ _ _ _ _ Hview Hrun) as (-> & _ & _ & h' & -> & Hplate).
  cbn [heap add_log set_heap].
  destruct Hplate as (P & X & -> & _ & _ & Hf).
  exists P.
  assert (Hin : fv ∈ v_footprints (plate_view env layer_name output_folder suffix bv)).
  { apply list_elem_of_In. cbn. apply in_flat_map. exists fv. split; [done|].
    unfold plate_footprints. rewrite Hbox, Hpres. by left. }
  apply list_elem_of_lookup in Hin as [i Hi].
  destruct (Forall2_lookup_r _ _ _ _ _ Hf Hi) as (l & Hl & Hfresh & Hv & _).
  exists l. split; [by apply list_lookup_middle|]. split.
  - apply list_elem_of_In. by eapply list_elem_of_lookup_2.
  - split; [done|]. apply lookup_ge_None. lia.
Qed.

(** C4.  An ordinary footprint whose bounding box intersects the outline
    box contributes to the plate, at its place in source order, exactly
    its filtered duplicate when that retains at least one pad or graphical
    item, and nothing otherwise; one retained pad is enough. *)
Theorem C4_ordinary_footprint_kept_iff_content w board bv plate w' i fv :
  board_view (heap w) board = Some bv ->
  derive board layer_name output_folder suffix w = (Returns (Some plate), w') ->
  v_footprints bv !! i = Some fv ->
  Py.re_match_H_LOGO (v_reference fv) = false ->
  Intersects (v_bbox fv) (plate_outline env layer_name bv) = true ->
  let contribution := plate_footprints env layer_name (plate_outline env layer_name bv) in
  let filtered := filter_footprint env layer_name fv in
  exists pv,
    board_view (heap w') plate = Some pv
    /\ v_footprints pv
       = flat_map contribution (take i (v_footprints bv))
         ++ (if has_content filtered then [filtered] else [])
         ++ flat_map contribution (drop (S i) (v_footprints bv))
    /\ (has_content filtered = true <-> v_pads filtered <> [] \/ v_graphics filtered <> [])
    /\ (length (v_pads filtered) = 1%nat -> has_content filtered = true).
Proof.
  intros Hview Hrun Hi Hord Hbox contribution filtered.
  exists (plate_view env layer_name output_folder suffix bv).
  split; [by eapply derive_some_view|]. split.
  - cbn [v_footprints plate_view]. fold contribution.
    rewrite <- (take_drop_middle _ _ _ Hi) at 1.
    rewrite flat_map_app. cbn [flat_map]. f_equal. f_equal.
    unfold contribution at 1, plate_footprints. by rewrite Hbox, Hord.
  - unfold has_content. split.
    + rewrite orb_true_iff, !Nat.ltb_lt.
      destruct (v_pads filtered), (v_graphics filtered); cbn; split;
        try (intros [?|?]; (lia || done)); auto with lia.
    + intros ->. done.
Qed.

(** C5.  Whatever the derivation returns, the plate board it built (the
    object made by [NewBoard]) holds, in source order, what each drawing of
    the source contributes: a shape on the reference layer gives its
    duplicate moved to the edge-cut layer; otherwise a text on the front
    or back silkscreen gives its unchanged duplicate; anything else gives
    nothing.  So a copy is either remapped or preserved, never both. *)
Theorem C5_drawings_copied_in_order w board bv r w' :
  board_view (heap w) board = Some bv ->
  derive board layer_name output_folder suffix w = (Returns r, w') ->
  exists pv,
    board_view (heap w') (length (heap w)) = Some pv
    /\ v_drawings pv = flat_map (plate_drawings env layer_name) (v_drawings bv)
    /\ forall d, In d (v_drawings bv) ->
         let shape_on_layer :=
           on_named env layer_name (d_layer d) && String.eqb (d_class d) "PCB_SHAPE" in
         let silk_text :=
           (on_named env "F.Silkscreen" (d_layer d) || on_named env "B.Silkscreen" (d_layer d))
           && String.eqb (d_class d) "PTEXT" in
         (shape_on_layer = true ->
          exists edge, resolve env "Edge.Cuts" = Some edge
                       /\ plate_drawings env layer_name d = [relayer d edge])
         /\ (shape_on_layer = false -> silk_text = true ->
             plate_drawings env layer_name d = [d])
         /\ (shape_on_layer = false -> silk_text = false ->
             plate_drawings env layer_name d = []).
Proof.
  intros Hview Hrun.
  destruct (derive_returns _ _ _ _ _ _ _ _ _ Hview Hrun) as (Hok & fvs & Hplate).
  eexists. split; [by eapply plate_heap_view|]. split; [done|].
  intros d Hd shape_on_layer silk_text.
  rewrite Forall_forall in Hok. destruct (Hok d) as [o Ho]; [by apply list_elem_of_In|].
  unfold plate_drawings. fold shape_on_layer silk_text. repeat split.
  - intros Hs. destruct (shape_on_layer_resolves _ _ _ _ Ho Hs) as [edge He].
    exists edge. by rewrite Hs, He.
  - by intros -> ->.
  - by intros -> ->.
Qed.

(** C6.  In a derived plate, every pad of an ordinary footprint is an
    unplated hole and every graphical item of an ordinary footprint lies
    on the edge-cut layer: nothing plated, surface-mounted or drawn on
    another layer survives. *)
Theorem C6_ordinary_footprints_hold_holes_and_edges w board bv plate w' pv fv :
  board_view (heap w) board = Some bv ->
  derive board layer_name output_folder suffix w = (Returns (Some plate), w') ->
  board_view (heap w') plate = Some pv ->
  In fv (v_footprints pv) ->
  Py.re_match_H_LOGO (v_reference fv) = false ->
  exists edge,
    resolve env "Edge.Cuts" = Some edge
    /\ (forall p, In p (v_pads fv) ->
                  pad_attribute p = PAD_ATTRIB_NPTH /\ pad_layers p = UnplatedHoleMask env)
    /\ (forall g, In g (v_graphics fv) -> g_layer g = edge).
Proof.
  intros Hview Hrun Hpv Hfv Hord.
  destruct (derive_some _ _ _ _ _ _ _ _ _ Hview Hrun) as (_ & _ & (lid & edge & _ & He) & _).
  rewrite (derive_some_view _ _ _ _ _ _ _ _ _ Hview Hrun) in Hpv. injection Hpv as <-.
  cbn [v_footprints plate_view] in Hfv.
  apply in_plate_footprints in Hfv as (fv0 & Hin0 & _ & [[Hpres ->]|(_ & _ & ->)]).
  { congruence. }
  exists edge. split; [done|]. cbn [v_pads v_graphics filter_footprint]. split.
  - intros p Hp. apply in_map_iff in Hp as (p0 & <- & _). done.
  - intros g Hg. apply in_map_iff in Hg as (g0 & <- & _). cbn. by rewrite He.
Qed.

End Claims.

(** ** The source board is left alone *)

Section Frame.

Implicit Types (h : list obj) (l : nat).

Lemma footprint_view_mono h h' l v :
  (forall i x, h !! i = Some x -> h' !! i = Some x) ->
  footprint_view h l = Some v -> footprint_view h' l = Some v.
Proof.
  intros Hmono Hv. pose proof (footprint_items_lt _ _ _ Hv) as Hlt.
  destruct (footprint_view_agree h h' l) as [E _]; [| |by rewrite E].
  - pose proof (footprint_view_lt _ _ _ Hv) as Hl.
    destruct (lookup_lt_is_Some_2 h l Hl) as [x Hx]. by rewrite Hx, (Hmono _ _ Hx).
  - eapply Forall_impl; [exact Hlt|]. intros i Hi.
    destruct (lookup_lt_is_Some_2 h i Hi) as [x Hx]. by rewrite Hx, (Hmono _ _ Hx).
Qed.

Lemma board_view_mono h h' l bv :
  (forall i x, h !! i = Some x -> h' !! i = Some x) ->
  board_view h l = Some bv -> board_view h' l = Some bv.
Proof.
  intros Hmono Hv. destruct (board_view_inv _ _ _ Hv) as (b & Hb & Hname & Hds & Hfs).
  unfold board_view, board_at in *. rewrite Hb in Hv. rewrite (Hmono _ _ Hb). cbn in *.
  assert (mapM (drawing_at h') (b_drawings b) = Some (v_drawings bv)) as ->.
  { apply mapM_Some. eapply Forall2_impl; [exact Hds|].
    intros i d Hi. unfold drawing_at. by rewrite (Hmono _ _ Hi). }
  assert (mapM (footprint_view h') (b_footprints b) = Some (v_footprints bv)) as ->.
  { apply mapM_Some. eapply Forall2_impl; [exact Hfs|].
    intros i v Hi. by eapply footprint_view_mono. }
  cbn. destruct bv. cbn in *. by subst.
Qed.

(** Everything a well-formed board reaches is in the store. *)
Lemma board_entities_valid h l bv :
  board_view h l = Some bv -> Forall (fun i => (i < length h)%nat) (board_entities h l).
Proof.
  intros Hv. destruct (board_view_inv _ _ _ Hv) as (b & Hb & _ & Hds & Hfs).
  unfold board_entities, board_at. rewrite Hb.
  constructor; [by eapply lookup_lt_Some|]. repeat rewrite Forall_app. repeat split.
  - eapply Forall2_Forall_l; [exact Hds|]. apply Forall_forall.
    intros d _ i Hi. by eapply lookup_lt_Some.
  - eapply Forall2_Forall_l; [exact Hfs|]. apply Forall_forall.
    intros v _ i Hi. by eapply footprint_view_lt.
  - apply Forall_concat, Forall_map.
    eapply Forall2_Forall_l; [exact Hfs|]. apply Forall_forall.
    intros v _ i Hi. by eapply footprint_items_lt.
Qed.

(** Everything the plate reaches was made during the derivation. *)
Lemma plate_entities_fresh h0 fname dvs fvs h :
  plate_heap h0 fname dvs fvs h ->
  Forall (fun i => (length h0 <= i)%nat) (board_entities h (length h0)).
Proof.
  intros (P & X & -> & _ & Hd & Hf).
  unfold board_entities, board_at. rewrite list_lookup_middle by done.
  constructor; [done|]. repeat rewrite Forall_app. repeat split.
  - eapply Forall2_Forall_l; [exact Hd|]. apply Forall_forall. intros d _ i [Hi _]. lia.
  - eapply Forall2_Forall_l; [exact Hf|]. apply Forall_forall. intros v _ i [Hi _]. lia.
  - apply Forall_concat, Forall_map.
    eapply Forall2_Forall_l; [exact Hf|]. apply Forall_forall.
    intros v _ i (_ & _ & Hi). eapply Forall_impl; [exact Hi|]. cbn. lia.
Qed.

End Frame.

Section ClaimsFrame.

Variable env : Pcbnew.
Variables layer_name output_folder suffix : string.

Local Abbreviation derive := (create_plate_pcb_from_layer env).

(** However a derivation ends, the objects that existed before are as
    they were, and nothing but the saving of a returned plate is logged. *)
Lemma derive_frame w board bv o w' :
  board_view (heap w) board = Some bv ->
  derive board layer_name output_folder suffix w = (o, w') ->
  (forall l x, heap w !! l = Some x -> heap w' !! l = Some x)
  /\ dirs w' = dirs w
  /\ log w' = match o with
              | Returns (Some plate) =>
                  log w ++ [EvSave plate (plate_file_path (v_filename bv) output_folder suffix)]
              | _ => log w
              end.
Proof.
  intros Hview Hrun.
  pose proof (create_plate_run env layer_name output_folder suffix (heap w) w board bv Hview)
    as Hcases.
  cbv zeta in Hcases. rewrite set_heap_same in Hcases.
  destruct Hcases as [(h' & E & Hplate & _)
                     |[(h' & E & Hplate & _)|(e & h' & E & Hframe & _)]];
    rewrite E in Hrun; injection Hrun as <- <-; cbn [heap dirs log set_heap add_log].
  - split; [|done]. intros l x Hl. by eapply plate_heap_frame.
  - split; [|done]. intros l x Hl. by eapply plate_heap_frame.
  - done.
Qed.

(** C7.  A derivation, however it ends, leaves every object that existed
    before it exactly as it was, so the source board reads the same
    afterwards; and everything a returned plate reaches (the plate, its
    drawings, its footprints, their pads and graphical items) is an
    object made during the derivation, none of them an entity of the
    source board. *)
Theorem C7_source_board_unmodified w board bv o w' :
  board_view (heap w) board = Some bv ->
  derive board layer_name output_folder suffix w = (o, w') ->
  (forall l x, heap w !! l = Some x -> heap w' !! l = Some x)
  /\ board_view (heap w') board = Some bv
  /\ forall plate, o = Returns (Some plate) ->
       forall l, In l (board_entities (heap w') plate) ->
                 heap w !! l = None /\ ~ In l (board_entities (heap w) board).
Proof.
  intros Hview Hrun.
  destruct (derive_frame _ _ _ _ _ Hview Hrun) as (Hframe & _ & _).
  split; [done|]. split; [by eapply board_view_mono|].
  intros plate -> l Hl.
  destruct (derive_some _ _ _ _ _ _ _ _ _ Hview Hrun) as (-> & _ & _ & h' & -> & Hplate).
  cbn [heap add_log set_heap] in Hl.
  pose proof (plate_entities_fresh _ _ _ _ _ Hplate) as Hfresh.
  rewrite Forall_forall in Hfresh. specialize (Hfresh l (proj2 (list_elem_of_In _ _) Hl)).
  split; [by apply lookup_ge_None|].
  intros Hsrc. pose proof (board_entities_valid _ _ _ Hview) as Hvalid.
  rewrite Forall_forall in Hvalid. specialize (Hvalid l (proj2 (list_elem_of_In _ _) Hsrc)).
  lia.
Qed.

(** C8, as amended.  A reference layer name that does not resolve makes
    the derivation raise at the first drawing of the source board, with
    nothing saved and the source board as it was; on a board without
    drawings the name is never looked up, and the derivation returns no
    plate. *)
Theorem C8_unresolvable_layer_raises_at_first_drawing w board bv :
  board_view (heap w) board = Some bv ->
  resolve env layer_name = None ->
  (v_drawings bv <> [] ->
   exists w',
     derive board layer_name output_folder suffix w
     = (Raises (UnresolvableLayer layer_name), w')
     /\ log w' = log w /\ board_view (heap w') board = Some bv)
  /\ (v_drawings bv = [] ->
      exists w',
        derive board layer_name output_folder suffix w = (Returns None, w')
        /\ log w' = log w).
Proof.
  intros Hview Hun.
  pose proof (create_plate_run env layer_name output_folder suffix (heap w) w board bv Hview)
    as Hcases.
  cbv zeta in Hcases. rewrite set_heap_same in Hcases.
  assert (Hresolved : GetArea (plate_outline env layer_name bv) <> 0 -> False).
  { intros Hne. destruct (outline_resolves env layer_name _ Hne) as (lid & _ & Hl & _).
    congruence. }
  destruct Hcases as [(h' & E & _ & _ & Hok)
                     |[(h' & E & _ & Hne & _)|(e & h' & E & Hframe & [Hex|(_ & Hne & _)])]];
    try (by destruct (Hresolved Hne)).
  - split.
    + intros Hsome. destruct (v_drawings bv) as [|d ds]; [done|].
      apply Forall_cons in Hok as [[r Hr] _].
      rewrite (drawing_outcome_unresolved env layer_name d Hun) in Hr. done.
    + intros _. eexists. split; [exact E|done].
  - apply Exists_exists in Hex as (d & Hin & Hd).
    rewrite (drawing_outcome_unresolved env layer_name d Hun) in Hd. injection Hd as <-.
    split.
    + intros _. eexists. split; [exact E|]. split; [done|].
      cbn [heap set_heap]. by eapply board_view_mono.
    + intros Hnil. rewrite Hnil in Hin. by apply elem_of_nil in Hin.
Qed.

(** C10.  The plate is created and saved under the source file name with
    every [".kicad_pcb"] replaced by the suffixed one, in the output
    folder: a name without [".kicad_pcb"] is used unchanged, and the
    suffix goes in front of the first [".kicad_pcb"], wherever in the name
    that is. *)
Theorem C10_plate_file_name_by_substring_replacement w board bv plate w' :
  board_view (heap w) board = Some bv ->
  derive board layer_name output_folder suffix w = (Returns (Some plate), w') ->
  let name := snd (Py.path_split (v_filename bv)) in
  let new := "-" +:+ suffix +:+ ".kicad_pcb" in
  let plate_name := Py.replace ".kicad_pcb" new name in
  (exists P, heap w' !! plate = Some (OBoard P)
             /\ b_filename P = Py.path_join output_folder plate_name)
  /\ log w' = log w ++ [EvSave plate (Py.path_join output_folder plate_name)]
  /\ ((forall pre, ~ occurs_after ".kicad_pcb" pre name) -> plate_name = name)
  /\ (forall pre rest,
        name = pre +:+ ".kicad_pcb" +:+ rest ->
        (forall pre', occurs_after ".kicad_pcb" pre' name ->
                      (String.length pre <= String.length pre')%nat) ->
        plate_name
        = pre +:+ "-" +:+ suffix +:+ ".kicad_pcb" +:+ Py.replace ".kicad_pcb" new rest).
Proof.
  intros Hview Hrun name new plate_name.
  destruct (derive_some _ _ _ _ _ _ _ _ _ Hview Hrun) as (-> & _ & _ & h' & -> & Hplate).
  cbn [heap log add_log set_heap]. repeat split.
  - destruct (plate_heap_board _ _ _ _ _ Hplate) as (P & HP & Hname). by exists P.
  - intros Hno. by apply replace_absent.
  - intros pre rest Hname Hfirst. unfold plate_name. rewrite Hname in Hfirst |- *.
    rewrite (replace_first "." "kicad_pcb" new pre rest Hfirst).
    unfold new. by rewrite !string_app_assoc.
Qed.

End ClaimsFrame.

(** ** Production *)


Section Produce.

Variable env : Pcbnew.

Lemma produce_eq w board b :
  heap w !! board = Some (OBoard b) ->
  let temp := temp_path env (b_filename b) in
  let out := output_path env (b_filename b) in
  produce env board w
  = (let! bottom_plate :=
       create_plate_pcb_from_layer env board "B.Adhesive" temp "bottom-plate" in
     let! top_plate :=
       create_plate_pcb_from_layer env board "F.Adhesive" temp "top-plate" in
     for_each (produce_board env temp out) (boards_to_produce board bottom_plate top_plate))
      (stage env (b_filename b) w).
Proof.
  intros Hb temp out.
  unfold produce, GetFileName, get_board.
  unfold bind at 1. unfold bind at 1. rewrite Hb. unfold ret at 1.
  fold (temp_path env (b_filename b)) (output_path env (b_filename b)). fold temp out.
  unfold path_exists, rmtree, makedirs, stage. fold temp out.
  unfold bind at 1. unfold bind at 1.
  destruct (existsb (String.eqb temp) (dirs w)).
  - unfold bind at 1. cbn [dirs set_dirs].
    unfold bind at 1. unfold bind at 1. cbn [dirs set_dirs].
    destruct (existsb (String.eqb out) _); reflexivity.
  - unfold ret at 1. unfold bind at 1. cbn [dirs set_dirs].
    unfold bind at 1. unfold bind at 1. cbn [dirs set_dirs].
    destruct (existsb (String.eqb out) _); [|reflexivity].
    unfold ret at 1. by destruct w.
Qed.

Hypothesis io_fine : forall e, io_ok env e = true.

Lemma perform_events {X} (f : X -> Event) k w (es : list X) :
  for_each (fun x => perform env (f x)) es (add_logs k w)
  = (Returns tt, add_logs (k ++ map f es) w).
Proof.
  revert k. induction es as [|x es IH]; intros k.
  { cbn. by rewrite app_nil_r. }
  cbn [for_each map]. unfold bind, perform at 1. rewrite io_fine.
  replace (add_log (f x) (add_logs k w)) with (add_logs (k ++ [f x]) w).
  2:{ unfold add_log, add_logs. cbn. by rewrite app_assoc. }
  rewrite IH. by rewrite <- app_assoc.
Qed.

(** Artifact generation for one board, when every file operation
    succeeds. *)
Lemma produce_board_eq temp out pcb b w :
  heap w !! pcb = Some (OBoard b) ->
  produce_board env temp out pcb w
  = (Returns tt, add_logs (artifact_events temp out pcb (b_filename b)) w).
Proof.
  intros Hb. unfold produce_board, GetFileName, get_board.
  unfold bind at 1. unfold bind at 1. rewrite Hb. unfold ret at 1.
  unfold create_gerbers, create_drill_file, create_zip.
  set (g := Py.path_join temp _). set (z := Py.path_join out _).
  assert (Hw : w = add_logs [] w).
  { unfold add_logs. rewrite app_nil_r. by destruct w. }
  unfold bind at 1. unfold bind at 1. rewrite Hw at 1.
  rewrite (perform_events (fun layer => EvPlot pcb g (fst layer) (snd layer))).
  unfold perform at 1. cbv beta. rewrite io_fine.
  unfold bind at 1. unfold perform at 1. cbv beta. rewrite io_fine.
  unfold perform. cbv beta. rewrite io_fine.
  unfold artifact_events. fold g z. unfold add_log, add_logs. cbn.
  by rewrite <- !app_assoc.
Qed.

(** Artifact generation for the boards to produce, in turn. *)
Lemma produce_boards_eq temp out boards :
  forall w,
    Forall (fun pcb => is_Some (board_at (heap w) pcb)) boards ->
    for_each (produce_board env temp out) boards w
    = (Returns tt, add_logs (flat_map (board_artifacts (heap w) temp out) boards) w).
Proof.
  induction boards as [|pcb boards IH]; intros w Hall.
  { cbn. unfold add_logs. rewrite app_nil_r. by destruct w. }
  apply Forall_cons in Hall as [[b Hb] Hall].
  assert (Hpcb : heap w !! pcb = Some (OBoard b)).
  { unfold board_at in Hb. destruct (heap w !! pcb) as [[]|]; congruence. }
  cbn [for_each flat_map]. unfold bind. rewrite (produce_board_eq temp out pcb b w Hpcb).
  rewrite IH by done.
  change (heap (add_logs _ w)) with (heap w).
  unfold board_artifacts at 2. rewrite Hb.
  generalize (artifact_events temp out pcb (b_filename b)).
  generalize (flat_map (board_artifacts (heap w) temp out) boards).
  intros l1 l2. unfold add_logs. cbn [heap dirs log]. by rewrite app_assoc.
Qed.

End Produce.

Section ClaimProduce.

Variable env : Pcbnew.

Local Abbreviation derive := (create_plate_pcb_from_layer env).

Lemma derive_plate_exists layer_name output_folder suffix w board bv plate w' :
  board_view (heap w) board = Some bv ->
  derive board layer_name output_folder suffix w = (Returns (Some plate), w') ->
  is_Some (board_at (heap w') plate).
Proof.
  intros Hview Hrun.
  pose proof (derive_some_view _ _ _ _ _ _ _ _ _ Hview Hrun) as Hv.
  destruct (board_view_inv _ _ _ Hv) as (P & HP & _). unfold board_at. by rewrite HP.
Qed.

(** C9, as amended.  The absence of a plate is a normal outcome: when
    both derivations return (a plate or none), [produce] hands the source
    board and then each plate that was returned to artifact generation,
    and with working file operations every one of them gets its
    artifacts.  A failure is not contained: an exception raised by a
    derivation or by artifact generation for one board leaves [produce] at
    once, and the boards not yet processed never are. *)
Theorem C9_absence_is_normal_failure_aborts w board bv :
  board_view (heap w) board = Some bv ->
  let temp := temp_path env (v_filename bv) in
  let out := output_path env (v_filename bv) in
  let staged := stage env (v_filename bv) w in
  let derive_bottom := derive board "B.Adhesive" temp "bottom-plate" in
  let derive_top := derive board "F.Adhesive" temp "top-plate" in
  (forall e w2,
      derive_bottom staged = (Raises e, w2) ->
      produce env board w = (Raises e, w2) /\ log w2 = log w)
  /\ (forall bottom w2 e w3,
         derive_bottom staged = (Returns bottom, w2) ->
         derive_top w2 = (Raises e, w3) ->
         produce env board w = (Raises e, w3) /\ log w3 = log w2)
  /\ (forall bottom top w2 w3,
         derive_bottom staged = (Returns bottom, w2) ->
         derive_top w2 = (Returns top, w3) ->
         produce env board w
         = for_each (produce_board env temp out) (boards_to_produce board bottom top) w3
         /\ ((forall e, io_ok env e = true) ->
             produce env board w
             = (Returns tt,
                add_logs (flat_map (board_artifacts (heap w3) temp out)
                                   (boards_to_produce board bottom top)) w3)))
  /\ (forall pcb rest w3 e w4,
         produce_board env temp out pcb w3 = (Raises e, w4) ->
         for_each (produce_board env temp out) (pcb :: rest) w3 = (Raises e, w4)).
Proof.
  intros Hview temp out staged derive_bottom derive_top.
  destruct (board_view_inv _ _ _ Hview) as (b & Hb & Hname & _).
  pose proof (produce_eq env w board b Hb) as Hprod. cbv zeta in Hprod.
  rewrite <- Hname in Hprod. fold temp out staged derive_bottom derive_top in Hprod.
  assert (Hview1 : board_view (heap staged) board = Some bv) by done.
  split; [|split; [|split]].
  - intros e w2 H. split.
    + rewrite Hprod. unfold bind. by rewrite H.
    + destruct (derive_frame _ _ _ _ _ _ _ _ _ Hview1 H) as (_ & _ & Hlog). exact Hlog.
  - intros bottom w2 e w3 H H0. split.
    + rewrite Hprod. unfold bind. by rewrite H, H0.
    + destruct (derive_frame _ _ _ _ _ _ _ _ _ Hview1 H) as (Hframe & _).
      assert (Hview2 : board_view (heap w2) board = Some bv) by by eapply board_view_mono.
      destruct (derive_frame _ _ _ _ _ _ _ _ _ Hview2 H0) as (_ & _ & Hlog). exact Hlog.
  - intros bottom top w2 w3 H H0. split.
    + rewrite Hprod. unfold bind. by rewrite H, H0.
    + intros Hio. rewrite Hprod. unfold bind. rewrite H, H0.
      destruct (derive_frame _ _ _ _ _ _ _ _ _ Hview1 H) as (Hframe1 & _).
      assert (Hview2 : board_view (heap w2) board = Some bv) by by eapply board_view_mono.
      destruct (derive_frame _ _ _ _ _ _ _ _ _ Hview2 H0) as (Hframe2 & _).
      apply produce_boards_eq; [done|].
      unfold boards_to_produce. cbn [omap].
      assert (Hsrc : is_Some (board_at (heap w3) board)).
      { unfold board_at. rewrite (Hframe2 _ _ (Hframe1 _ _ Hb)). by eexists. }
      assert (Hbot : forall p, bottom = Some p -> is_Some (board_at (heap w3) p)).
      { intros p ->. destruct (derive_plate_exists _ _ _ _ _ _ _ _ Hview1 H) as [P HP].
        unfold board_at in *. destruct (heap w2 !! p) as [x|] eqn:E; [|done].
        rewrite (Hframe2 _ _ E). destruct x; try done; by eexists. }
      assert (Htop : forall p, top = Some p -> is_Some (board_at (heap w3) p)).
      { intros p ->. by eapply derive_plate_exists. }
      destruct bottom as [pb|], top as [pt|]; cbn; repeat constructor; auto.
  - intros pcb rest w3 e w4 Hfail. cbn [for_each]. unfold bind. by rewrite Hfail.
Qed.

(** How a derivation ends when the outline has no area. *)
Lemma zero_area_outcome layer_name output_folder suffix w board bv o w' :
  board_view (heap w) board = Some bv ->
  GetArea (plate_outline env layer_name bv) = 0 ->
  derive board layer_name output_folder suffix w = (o, w') ->
  log w' = log w /\ dirs w' = dirs w
  /\ (o = Returns None
      \/ exists e, o = Raises e
                   /\ Exists (fun d => drawing_outcome env layer_name d = inl e)
                             (v_drawings bv)).
Proof.
  intros Hview Harea Hrun.
  pose proof (create_plate_run env layer_name output_folder suffix (heap w) w board bv Hview)
    as Hcases.
  cbv zeta in Hcases. rewrite set_heap_same in Hcases.
  fold (plate_outline env layer_name bv) in Hcases.
  destruct Hcases as [(h' & E & _)
                     |[(h' & E & _ & Hne & _)|(e & h' & E & _ & [Hex|(_ & Hne & _)])]];
    try done; rewrite E in Hrun; injection Hrun as <- <-.
  - split; [done|]. split; [done|]. by left.
  - split; [done|]. split; [done|]. right. by exists e.
Qed.

(** [produce] once both derivations have returned. *)
Lemma produce_returned w board bv bottom top w2 w3 :
  board_view (heap w) board = Some bv ->
  let temp := temp_path env (v_filename bv) in
  let out := output_path env (v_filename bv) in
  derive board "B.Adhesive" temp "bottom-plate" (stage env (v_filename bv) w)
  = (Returns bottom, w2) ->
  derive board "F.Adhesive" temp "top-plate" w2 = (Returns top, w3) ->
  board_view (heap w2) board = Some bv
  /\ produce env board w
     = for_each (produce_board env temp out) (boards_to_produce board bottom top) w3
  /\ ((forall e, io_ok env e = true) ->
      produce env board w
      = (Returns tt,
         add_logs (flat_map (board_artifacts (heap w3) temp out)
                            (boards_to_produce board bottom top)) w3)).
Proof.
  intros Hview temp out H H0.
  destruct (board_view_inv _ _ _ Hview) as (b & Hb & Hname & _).
  pose proof (produce_eq env w board b Hb) as Hprod. cbv zeta in Hprod.
  rewrite <- Hname in Hprod. fold temp out in Hprod.
  assert (Hview1 : board_view (heap (stage env (v_filename bv) w)) board = Some bv) by done.
  destruct (derive_frame _ _ _ _ _ _ _ _ _ Hview1 H) as (Hframe1 & _).
  assert (Hview2 : board_view (heap w2) board = Some bv) by by eapply board_view_mono.
  destruct (derive_frame _ _ _ _ _ _ _ _ _ Hview2 H0) as (Hframe2 & _).
  assert (Heq : produce env board w
                = for_each (produce_board env temp out)
                           (boards_to_produce board bottom top) w3).
  { rewrite Hprod. unfold bind. by rewrite H, H0. }
  split; [done|]. split; [done|].
  intros Hio. rewrite Heq. apply produce_boards_eq; [done|].
  unfold boards_to_produce. cbn [omap].
  assert (Hsrc : is_Some (board_at (heap w3) board)).
  { unfold board_at. rewrite (Hframe2 _ _ (Hframe1 _ _ Hb)). by eexists. }
  assert (Hbot : forall p, bottom = Some p -> is_Some (board_at (heap w3) p)).
  { intros p ->. destruct (derive_plate_exists _ _ _ _ _ _ _ _ Hview1 H) as [P HP].
    unfold board_at in *. destruct (heap w2 !! p) as [x|] eqn:E; [|done].
    rewrite (Hframe2 _ _ E). destruct x; try done; by eexists. }
  assert (Htop : forall p, top = Some p -> is_Some (board_at (heap w3) p)).
  { intros p ->. by eapply derive_plate_exists. }
  destruct bottom as [pb|], top as [pt|]; cbn; repeat constructor; auto.
Qed.

(** C2.  When the shapes that reach the plate's edge-cut layer span a box
    of zero area, the derivation produces no plate and saves nothing: the
    log and the staging directories are as before and the outcome is
    [None], unless a drawing made the loop before the area test raise (a
    layer name that does not resolve); with the looked-up names resolving
    it is [None].  [produce] then skips artifact generation for that
    plate: when the outline of one of its two reference layers has zero
    area and both derivations return, that derivation returned [None], the
    artifact loop runs over the source board and the other plate only, and
    with working file operations the log receives the artifact operations
    of these and of no other board. *)
Theorem C2_zero_area_outline_gives_no_plate layer_name output_folder suffix w board bv :
  board_view (heap w) board = Some bv ->
  GetArea (plate_outline env layer_name bv) = 0 ->
  (forall o w',
      derive board layer_name output_folder suffix w = (o, w') ->
      log w' = log w /\ dirs w' = dirs w
      /\ (o = Returns None
          \/ exists e, o = Raises e
                       /\ Exists (fun d => drawing_outcome env layer_name d = inl e)
                                 (v_drawings bv)))
  /\ (names_resolve env layer_name ->
      exists w', derive board layer_name output_folder suffix w = (Returns None, w'))
  /\ let temp := temp_path env (v_filename bv) in
     let out := output_path env (v_filename bv) in
     let staged := stage env (v_filename bv) w in
     let artifacts_only_of boards w3 :=
       produce env board w = for_each (produce_board env temp out) boards w3
       /\ ((forall e, io_ok env e = true) ->
           produce env board w
           = (Returns tt,
              add_logs (flat_map (board_artifacts (heap w3) temp out) boards) w3)) in
     forall bottom top w2 w3,
       derive board "B.Adhesive" temp "bottom-plate" staged = (Returns bottom, w2) ->
       derive board "F.Adhesive" temp "top-plate" w2 = (Returns top, w3) ->
       (layer_name = "B.Adhesive"%string ->
        bottom = None /\ artifacts_only_of (board :: option_list top) w3)
       /\ (layer_name = "F.Adhesive"%string ->
           top = None /\ artifacts_only_of (board :: option_list bottom) w3).
Proof.
  intros Hview Harea. split; [|split].
  - intros o w' Hrun. by eapply zero_area_outcome.
  - intros Hnames.
    destruct (derive board layer_name output_folder suffix w) as [o w'] eqn:Hrun.
    destruct (zero_area_outcome _ _ _ _ _ _ _ _ Hview Harea Hrun)
      as (_ & _ & [->|(e & -> & Hex)]); [by exists w'|].
    apply Exists_exists in Hex as (d & _ & Hd).
    destruct (drawing_outcome_resolved env layer_name d Hnames) as [r Hr]. congruence.
  - intros temp out staged artifacts_only_of bottom top w2 w3 H1 H2.
    destruct (produce_returned w board bv bottom top w2 w3 Hview H1 H2)
      as (Hview2 & Heq & Hio).
    assert (Hview1 : board_view (heap staged) board = Some bv) by done.
    split.
    + intros ->.
      destruct (zero_area_outcome _ _ _ _ _ _ _ _ Hview1 Harea H1) as (_ & _ & [E|(e & E & _)]);
        [|discriminate E].
      injection E as ->. split; [done|]. by split.
    + intros ->.
      destruct (zero_area_outcome _ _ _ _ _ _ _ _ Hview2 Harea H2) as (_ & _ & [E|(e & E & _)]);
        [|discriminate E].
      injection E as ->. split; [done|]. split.
      * rewrite Heq. by destruct bottom.
      * intros Hfine. rewrite (Hio Hfine). by destruct bottom.
Qed.

End ClaimProduce.

(** ** The claims on the sample board *)



Section OnTheSample.

Import Sample SampleRun SampleProduce.

Lemma sample_view : board_view (heap world0) src_board = Some src_view.
Proof. vm_compute. reflexivity. Qed.

Lemma sample_top :
  create_plate_pcb_from_layer kicad src_board "F.Adhesive" "/tmp" "top-plate" world0
  = (Returns (Some top_plate), top_world).
Proof. vm_compute. reflexivity. Qed.

Lemma sample_top_view : board_view (heap top_world) top_plate = Some top_view.
Proof. vm_compute. reflexivity. Qed.

(** C1 fails as stated: the top plate of the sample board keeps the plated
    pad of the mounting hole [H1] as it is. *)
Lemma C1_counterexample : ~ every_plate_pad_is_unplated.
Proof.
  intros Hclaim.
  destruct (Hclaim kicad "F.Adhesive" "/tmp" "top-plate" world0 src_board src_view top_plate
              top_world top_view h1_src hole_pad sample_view sample_top sample_top_view)
    as [Hattr _].
  - vm_compute. auto.
  - vm_compute. auto.
  - discriminate Hattr.
Qed.

(** C8 fails as stated: on a board without drawings the unknown layer
    name is never looked up and the derivation returns no plate. *)
Lemma C8_counterexample : ~ unresolvable_layer_always_raises.
Proof.
  intros Hclaim.
  destruct (Hclaim kicad "Nope" "/tmp" "top-plate" bare_world 0%nat
              (mkBoardView "bare.kicad_pcb" [] []) eq_refl eq_refl) as (e & w' & Hrun).
  vm_compute in Hrun. discriminate Hrun.
Qed.

(** C9 fails as stated: when the top plate of the sample board cannot be
    saved, [produce] stops there and no board gets artifacts. *)
Lemma C9_counterexample : ~ plate_failure_spares_source_board.
Proof.
  intros Hclaim.
  destruct (Hclaim kicad_disk_full world0 src_board src_view sample_view) as [dir Hin].
  - intros [] Hne; try reflexivity. by destruct (Hne pcb path).
  - vm_compute in Hin. exact Hin.
Qed.

End OnTheSample.

Section Witnesses.

Import Sample SampleRun SampleProduce.

Lemma sample_bottom :
  create_plate_pcb_from_layer kicad src_board "B.Adhesive" temp0 "bottom-plate" staged0
  = (Returns None, snd bottom_run).
Proof. vm_compute. reflexivity. Qed.

Lemma sample_top2 :
  create_plate_pcb_from_layer kicad src_board "F.Adhesive" temp0 "top-plate" (snd bottom_run)
  = (Returns (Some 19%nat), snd top_run2).
Proof. vm_compute. reflexivity. Qed.

(** C1 on the sample board: the pad of [SW1] in the top plate. *)
Lemma C1_witness :
  In sw1_plate (v_footprints top_view) /\ In sw1_hole (v_pads sw1_plate)
  /\ exists fv0 p0,
      In fv0 (v_footprints src_view) /\ In p0 (v_pads fv0)
      /\ v_reference fv0 = v_reference sw1_plate
      /\ keep_pad kicad "F.Adhesive" p0 = true
      /\ pad_attribute sw1_hole = PAD_ATTRIB_NPTH
      /\ ((pad_shape p0 = PAD_SHAPE_CIRCLE /\ pad_drill_shape sw1_hole = PAD_DRILL_SHAPE_CIRCLE)
          \/ (pad_shape p0 = PAD_SHAPE_OVAL /\ pad_drill_shape sw1_hole = PAD_DRILL_SHAPE_OBLONG))
      /\ pad_drill_size sw1_hole = pad_size p0
      /\ pad_layers sw1_hole = UnplatedHoleMask kicad
      /\ pad_position sw1_hole = pad_position p0
      /\ pad_shape sw1_hole = pad_shape p0
      /\ pad_size sw1_hole = pad_size p0.
Proof.
  assert (H1 : In sw1_plate (v_footprints top_view)) by (vm_compute; auto).
  assert (H2 : In sw1_hole (v_pads sw1_plate)) by (vm_compute; auto).
  split; [exact H1|]. split; [exact H2|].
  exact (proj1 (C1_ordinary_pads_become_unplated_holes kicad "F.Adhesive" "/tmp" "top-plate"
                  world0 src_board src_view top_plate top_world top_view sw1_plate sw1_hole
                  sample_view sample_top sample_top_view H1 H2) eq_refl).
Defined.

(** C2 on the sample board, which draws nothing on the back adhesive
    layer: no bottom plate, and artifacts for the source board and the
    top plate only. *)
Lemma C2_witness :
  GetArea (plate_outline kicad "B.Adhesive" src_view) = 0
  /\ (exists w',
         create_plate_pcb_from_layer kicad src_board "B.Adhesive" "/tmp" "bottom-plate" world0
         = (Returns None, w'))
  /\ produce kicad src_board world0
     = for_each (produce_board kicad temp0 out0) [src_board; 19%nat] (snd top_run2).
Proof.
  assert (Harea : GetArea (plate_outline kicad "B.Adhesive" src_view) = 0) by reflexivity.
  split; [exact Harea|].
  destruct (C2_zero_area_outline_gives_no_plate kicad "B.Adhesive" "/tmp" "bottom-plate"
              world0 src_board src_view sample_view Harea) as (_ & Hnone & Hskip).
  split.
  - apply Hnone. repeat split; eexists; reflexivity.
  - destruct (Hskip None (Some 19%nat) (snd bottom_run) (snd top_run2)
                sample_bottom sample_top2) as [Hbottom _].
    destruct (Hbottom eq_refl) as (_ & Heq & _). exact Heq.
Defined.

(** C3 on the sample board: the mounting hole [H1] in the top plate. *)
Lemma C3_witness :
  In h1_src (v_footprints src_view)
  /\ Py.re_match_H_LOGO (v_reference h1_src) = true
  /\ Intersects (v_bbox h1_src) (plate_outline kicad "F.Adhesive" src_view) = true
  /\ exists P l,
      heap top_world !! top_plate = Some (OBoard P)
      /\ In l (b_footprints P)
      /\ footprint_view (heap top_world) l = Some h1_src
      /\ heap world0 !! l = None.
Proof.
  assert (Hin : In h1_src (v_footprints src_view)) by (vm_compute; auto).
  split; [exact Hin|]. split; [reflexivity|]. split; [reflexivity|].
  exact (C3_preserved_footprint_duplicated kicad "F.Adhesive" "/tmp" "top-plate"
           world0 src_board src_view top_plate top_world h1_src
           sample_view sample_top Hin eq_refl eq_refl).
Defined.

(** C4 on the sample board: the switch [SW1], first of the footprints. *)
Lemma C4_witness :
  v_footprints src_view !! 0%nat = Some sw1_src
  /\ exists pv,
      board_view (heap top_world) top_plate = Some pv
      /\ v_footprints pv
         = flat_map (plate_footprints kicad "F.Adhesive"
                       (plate_outline kicad "F.Adhesive" src_view))
                    (take 0 (v_footprints src_view))
           ++ (if has_content (filter_footprint kicad "F.Adhesive" sw1_src)
               then [filter_footprint kicad "F.Adhesive" sw1_src] else [])
           ++ flat_map (plate_footprints kicad "F.Adhesive"
                          (plate_outline kicad "F.Adhesive" src_view))
                       (drop 1 (v_footprints src_view))
      /\ (has_content (filter_footprint kicad "F.Adhesive" sw1_src) = true
          <-> v_pads (filter_footprint kicad "F.Adhesive" sw1_src) <> []
              \/ v_graphics (filter_footprint kicad "F.Adhesive" sw1_src) <> [])
      /\ (length (v_pads (filter_footprint kicad "F.Adhesive" sw1_src)) = 1%nat ->
          has_content (filter_footprint kicad "F.Adhesive" sw1_src) = true).
Proof.
  split; [reflexivity|].
  exact (C4_ordinary_footprint_kept_iff_content kicad "F.Adhesive" "/tmp" "top-plate"
           world0 src_board src_view top_plate top_world 0%nat sw1_src
           sample_view sample_top eq_refl eq_refl eq_refl).
Defined.

(** C5 on the sample board and its top plate. *)
Lemma C5_witness :
  exists pv,
    board_view (heap top_world) (length (heap world0)) = Some pv
    /\ v_drawings pv = flat_map (plate_drawings kicad "F.Adhesive") (v_drawings src_view)
    /\ forall d, In d (v_drawings src_view) ->
         let shape_on_layer :=
           on_named kicad "F.Adhesive" (d_layer d) && String.eqb (d_class d) "PCB_SHAPE" in
         let silk_text :=
           (on_named kicad "F.Silkscreen" (d_layer d) || on_named kicad "B.Silkscreen" (d_layer d))
           && String.eqb (d_class d) "PTEXT" in
         (shape_on_layer = true ->
          exists edge, resolve kicad "Edge.Cuts" = Some edge
                       /\ plate_drawings kicad "F.Adhesive" d = [relayer d edge])
         /\ (shape_on_layer = false -> silk_text = true ->
             plate_drawings kicad "F.Adhesive" d = [d])
         /\ (shape_on_layer = false -> silk_text = false ->
             plate_drawings kicad "F.Adhesive" d = []).
Proof.
  exact (C5_drawings_copied_in_order kicad "F.Adhesive" "/tmp" "top-plate"
           world0 src_board src_view (Some top_plate) top_world sample_view sample_top).
Defined.

(** C6 on the sample board: [SW1] in the top plate. *)
Lemma C6_witness :
  In sw1_plate (v_footprints top_view)
  /\ exists edge,
      resolve kicad "Edge.Cuts" = Some edge
      /\ (forall p, In p (v_pads sw1_plate) ->
                    pad_attribute p = PAD_ATTRIB_NPTH /\ pad_layers p = UnplatedHoleMask kicad)
      /\ (forall g, In g (v_graphics sw1_plate) -> g_layer g = edge).
Proof.
  assert (H1 : In sw1_plate (v_footprints top_view)) by (vm_compute; auto).
  split; [exact H1|].
  exact (C6_ordinary_footprints_hold_holes_and_edges kicad "F.Adhesive" "/tmp" "top-plate"
           world0 src_board src_view top_plate top_world top_view sw1_plate
           sample_view sample_top sample_top_view H1 eq_refl).
Defined.

(** C7 on the sample board and its top plate. *)
Lemma C7_witness :
  (forall l x, heap world0 !! l = Some x -> heap top_world !! l = Some x)
  /\ board_view (heap top_world) src_board = Some src_view
  /\ forall plate, Returns (Some top_plate) = Returns (Some plate) ->
       forall l, In l (board_entities (heap top_world) plate) ->
                 heap world0 !! l = None /\ ~ In l (board_entities (heap world0) src_board).
Proof.
  exact (C7_source_board_unmodified kicad "F.Adhesive" "/tmp" "top-plate"
           world0 src_board src_view (Returns (Some top_plate)) top_world
           sample_view sample_top).
Defined.

(** C8 on the sample board, with a host that has no adhesive layers. *)
Lemma C8_witness :
  resolve kicad_no_adhesive "F.Adhesive" = None
  /\ (v_drawings src_view <> [] ->
      exists w',
        create_plate_pcb_from_layer kicad_no_adhesive src_board "F.Adhesive" "/tmp" "top-plate"
          world0
        = (Raises (UnresolvableLayer "F.Adhesive"), w')
        /\ log w' = log world0 /\ board_view (heap w') src_board = Some src_view)
  /\ (v_drawings src_view = [] ->
      exists w',
        create_plate_pcb_from_layer kicad_no_adhesive src_board "F.Adhesive" "/tmp" "top-plate"
          world0
        = (Returns None, w')
        /\ log w' = log world0).
Proof.
  split; [reflexivity|].
  exact (C8_unresolvable_layer_raises_at_first_drawing kicad_no_adhesive "F.Adhesive" "/tmp"
           "top-plate" world0 src_board src_view sample_view eq_refl).
Defined.

(** C9 on the sample board: no bottom plate, a top plate, and artifacts
    for the source board and the top plate. *)
Lemma C9_witness :
  produce kicad src_board world0
  = (Returns tt,
     add_logs (flat_map (board_artifacts (heap (snd top_run2)) temp0 out0)
                        (boards_to_produce src_board None (Some 19%nat)))
              (snd top_run2)).
Proof.
  destruct (C9_absence_is_normal_failure_aborts kicad world0 src_board src_view sample_view)
    as (_ & _ & Hboth & _).
  destruct (Hboth None (Some 19%nat) (snd bottom_run) (snd top_run2) sample_bottom sample_top2)
    as [_ Hok].
  exact (Hok (fun _ => eq_refl)).
Defined.

(** C10 on the sample board: the file of the top plate. *)
Lemma C10_witness :
  (exists P, heap top_world !! top_plate = Some (OBoard P)
             /\ b_filename P = "/tmp/horizon-top-plate.kicad_pcb")
  /\ log top_world = log world0 ++ [EvSave top_plate "/tmp/horizon-top-plate.kicad_pcb"].
Proof.
  destruct (C10_plate_file_name_by_substring_replacement kicad "F.Adhesive" "/tmp" "top-plate"
              world0 src_board src_view top_plate top_world sample_view sample_top)
    as (HP & Hlog & _).
  split; [exact HP|exact Hlog].
Defined.

End Witnesses.

(** ** Artifact generation *)

Section Performing.

Variable env : Pcbnew.

Lemma add_logs_nil w : add_logs [] w = w.
Proof. unfold add_logs. rewrite app_nil_r. by destruct w. Qed.

Lemma add_logs_add_logs k1 k2 w : add_logs k2 (add_logs k1 w) = add_logs (k1 ++ k2) w.
Proof. unfold add_logs. cbn. by rewrite app_assoc. Qed.

(** Asking for the operations [es] in turn. *)
Lemma perform_all {X} (f : X -> Event) (xs : list X) w :
  for_each (fun x => perform env (f x)) xs w
  = (outcome_of env (map f xs), add_logs (performed env (map f xs)) w).
Proof.
  revert w. induction xs as [|x xs IH]; intros w.
  { cbn. by rewrite add_logs_nil. }
  cbn [for_each map]. unfold bind, perform at 1. unfold outcome_of. cbn [first_refused performed].
  destruct (io_ok env (f x)) eqn:Hok.
  - rewrite IH. unfold outcome_of. f_equal.
    change (add_log (f x) w) with (add_logs [f x] w). by rewrite add_logs_add_logs.
  - by rewrite add_logs_nil.
Qed.

Lemma performed_app es1 es2 :
  performed env (es1 ++ es2)
  = performed env es1
    ++ match first_refused env es1 with Some _ => [] | None => performed env es2 end.
Proof.
  induction es1 as [|e es1 IH]; [done|].
  cbn. destruct (io_ok env e); [|done]. by rewrite IH.
Qed.

Lemma first_refused_app es1 es2 :
  first_refused env (es1 ++ es2)
  = match first_refused env es1 with Some e => Some e | None => first_refused env es2 end.
Proof.
  induction es1 as [|e es1 IH]; [done|].
  cbn. by destruct (io_ok env e).
Qed.

(** Two batches of operations, one after the other, from the world [w]. *)
Lemma perform_then_at (m : M unit) (k : M unit) es1 es2 w :
  m w = (outcome_of env es1, add_logs (performed env es1) w) ->
  k (add_logs (performed env es1) w)
  = (outcome_of env es2, add_logs (performed env es2) (add_logs (performed env es1) w)) ->
  (do! m in k) w = (outcome_of env (es1 ++ es2), add_logs (performed env (es1 ++ es2)) w).
Proof.
  intros Hm Hk. unfold bind. rewrite Hm.
  unfold outcome_of. rewrite first_refused_app, performed_app.
  destruct (first_refused env es1) as [e|].
  - by rewrite app_nil_r.
  - rewrite Hk. unfold outcome_of. by rewrite add_logs_add_logs.
Qed.

(** Two batches of operations, one after the other. *)
Lemma perform_then (m : M unit) (k : M unit) es1 es2 :
  (forall w, m w = (outcome_of env es1, add_logs (performed env es1) w)) ->
  (forall w, k w = (outcome_of env es2, add_logs (performed env es2) w)) ->
  forall w, (do! m in k) w = (outcome_of env (es1 ++ es2), add_logs (performed env (es1 ++ es2)) w).
Proof.
  intros Hm Hk w. unfold bind. rewrite Hm.
  unfold outcome_of. rewrite first_refused_app, performed_app.
  destruct (first_refused env es1) as [e|].
  - by rewrite app_nil_r.
  - rewrite Hk. unfold outcome_of. by rewrite add_logs_add_logs.
Qed.

Lemma perform_one e w :
  perform env e w = (outcome_of env [e], add_logs (performed env [e]) w).
Proof.
  unfold perform, outcome_of. cbn. destruct (io_ok env e); [done|]. by rewrite add_logs_nil.
Qed.

Lemma create_gerbers_eq pcb path w :
  create_gerbers env pcb path w
  = (outcome_of env (gerber_events pcb path), add_logs (performed env (gerber_events pcb path)) w).
Proof.
  unfold create_gerbers, gerber_events.
  apply perform_then; [apply perform_all | apply perform_one].
Qed.

Lemma artifact_events_eq temp out pcb file_name :
  artifact_events temp out pcb file_name
  = gerber_events pcb (Py.path_join temp (board_name file_name))
    ++ [EvDrill pcb (Py.path_join temp (board_name file_name))]
    ++ [EvZip (Py.path_join out (board_name file_name))
              (Py.path_join temp (board_name file_name))].
Proof. unfold artifact_events, gerber_events, board_name. by rewrite <- app_assoc. Qed.

Lemma produce_board_run temp out pcb b w :
  heap w !! pcb = Some (OBoard b) ->
  produce_board env temp out pcb w
  = (outcome_of env (artifact_events temp out pcb (b_filename b)),
     add_logs (performed env (artifact_events temp out pcb (b_filename b))) w).
Proof.
  intros Hb. unfold produce_board, GetFileName, get_board.
  unfold bind at 1. unfold bind at 1. rewrite Hb. unfold ret at 1.
  rewrite artifact_events_eq. fold (board_name (b_filename b)).
  apply perform_then; [intros w0; apply create_gerbers_eq|].
  apply perform_then; intros w0; apply perform_one.
Qed.

Lemma performed_all es : first_refused env es = None -> performed env es = es.
Proof.
  induction es as [|e es IH]; [done|]. cbn. destruct (io_ok env e); [|done].
  intros H. by rewrite IH.
Qed.

Lemma first_refused_spec es x :
  first_refused env es = Some x ->
  io_ok env x = false /\ exists rest, es = performed env es ++ x :: rest.
Proof.
  induction es as [|e es IH]; [done|]. cbn. destruct (io_ok env e) eqn:Hok.
  - intros H. destruct (IH H) as (Hx & rest & E). split; [done|]. exists rest. cbn. by f_equal.
  - intros [= <-]. split; [done|]. by exists es.
Qed.


Lemma not_in_before_last {X} (l done rest : list X) (c e : X) :
  l ++ [c] = done ++ e :: rest -> ~ In c l -> ~ In c done.
Proof.
  intros E Hn Hin. destruct rest as [|r rest _] using rev_ind.
  - apply app_inj_tail in E as [-> _]. done.
  - change (done ++ e :: rest ++ [r]) with (done ++ (e :: rest) ++ [r]) in E.
    rewrite app_assoc in E. apply app_inj_tail in E as [-> _].
    apply Hn, in_or_app. by left.
Qed.

(** How a batch of operations ends: all done, or stopped at the first
    refused one. *)
Lemma perform_cases (m : M unit) es w o w' :
  m w = (outcome_of env es, add_logs (performed env es) w) ->
  m w = (o, w') ->
  heap w' = heap w /\ dirs w' = dirs w
  /\ ((o = Returns tt /\ log w' = log w ++ es)
      \/ (exists done e rest,
             o = Raises (IOFailure e) /\ io_ok env e = false
             /\ es = done ++ e :: rest /\ log w' = log w ++ done)).
Proof.
  intros Hm Hrun. rewrite Hm in Hrun. injection Hrun as <- <-.
  split; [done|]. split; [done|]. unfold outcome_of. cbn [log add_logs].
  destruct (first_refused env es) as [e|] eqn:Hf.
  - right. destruct (first_refused_spec _ _ Hf) as (Hx & rest & E).
    exists (performed env es), e, rest. done.
  - left. by rewrite performed_all.
Qed.

End Performing.

Section Artifacts.

Variable env : Pcbnew.

(** X1.  [__create_gerbers] asks for one plot per layer, in the fixed
    order front copper, back copper, front and back silkscreen, front and
    back mask, edge cuts, and then closes the plot.  It stops at the first
    operation the host refuses: the operations before it were done, the
    exception is that refusal, and the plot is then never closed.  The
    store and the directories are not touched. *)
Theorem X1_gerbers_in_order_and_stop_at_failure pcb path w o w' :
  create_gerbers env pcb path w = (o, w') ->
  let plot name sheet := EvPlot pcb path name sheet in
  let asked :=
    [plot "F.Cu" "Front Copper"; plot "B.Cu" "Back Copper";
     plot "F.SilkS" "Front SilkScreen"; plot "B.SilkS" "Back SilkScreen";
     plot "F.Mask" "Front Mask"; plot "B.Mask" "Back Mask";
     plot "Edge.Cuts" "Edges"; EvClosePlot pcb]%string in
  heap w' = heap w /\ dirs w' = dirs w
  /\ ((o = Returns tt /\ log w' = log w ++ asked)
      \/ (exists done e rest,
             o = Raises (IOFailure e) /\ io_ok env e = false
             /\ asked = done ++ e :: rest /\ log w' = log w ++ done
             /\ ~ In (EvClosePlot pcb) done)).
Proof.
  intros Hrun plot asked.
  destruct (perform_cases env _ (gerber_events pcb path) _ _ _
              (create_gerbers_eq env pcb path w) Hrun) as (Hh & Hd & Hcases).
  split; [done|]. split; [done|].
  destruct Hcases as [[-> Hlog]|(done & e & rest & -> & Hok & E & Hlog)]; [by left|].
  right. exists done, e, rest. repeat split; try done.
  eapply (not_in_before_last _ done rest (EvClosePlot pcb) e); [exact E|].
  cbn. intros H. repeat (destruct H as [H|H]; [discriminate|]). done.
Qed.

(** X2.  Artifact generation for one board files everything under the
    board's name (its file name without folder and extension): the
    gerbers, then the drill file, both into the folder of that name under
    the temporary folder, then the archive of that folder, named after the
    board in the output folder.  It stops at the first refused operation,
    so the archive is only ever made of a folder whose plots, plot closing
    and drill file were all done. *)
Theorem X2_archive_only_after_gerbers_and_drill temp out pcb b w o w' :
  heap w !! pcb = Some (OBoard b) ->
  produce_board env temp out pcb w = (o, w') ->
  let folder := Py.path_join temp (board_name (b_filename b)) in
  let archive := Py.path_join out (board_name (b_filename b)) in
  let asked := gerber_events pcb folder ++ [EvDrill pcb folder; EvZip archive folder] in
  heap w' = heap w /\ dirs w' = dirs w
  /\ ((o = Returns tt /\ log w' = log w ++ asked)
      \/ (exists done e rest,
             o = Raises (IOFailure e) /\ io_ok env e = false
             /\ asked = done ++ e :: rest /\ log w' = log w ++ done
             /\ ~ In (EvZip archive folder) done)).
Proof.
  intros Hb Hrun folder archive asked.
  assert (Hasked : asked = artifact_events temp out pcb (b_filename b)).
  { by rewrite artifact_events_eq. }
  destruct (perform_cases env _ (artifact_events temp out pcb (b_filename b)) _ _ _
              (produce_board_run env temp out pcb b w Hb) Hrun) as (Hh & Hd & Hcases).
  rewrite <- Hasked in Hcases.
  split; [done|]. split; [done|].
  destruct Hcases as [[-> Hlog]|(done & e & rest & -> & Hok & E & Hlog)]; [by left|].
  right. exists done, e, rest. repeat split; try done.
  eapply (not_in_before_last (gerber_events pcb folder ++ [EvDrill pcb folder]) done rest
            (EvZip archive folder) e).
  { rewrite <- E. unfold asked. by rewrite <- app_assoc. }
  cbn. intros H. repeat (destruct H as [H|H]; [discriminate|]). done.
Qed.

(** Artifact generation never touches the store or the directories. *)
Lemma produce_board_frame temp out pcb w o w' :
  produce_board env temp out pcb w = (o, w') -> heap w' = heap w /\ dirs w' = dirs w.
Proof.
  intros Hrun. destruct (heap w !! pcb) as [[| | | |b]|] eqn:Hb;
    try (unfold produce_board, GetFileName, get_board in Hrun;
         unfold bind at 1 in Hrun; unfold bind at 1 in Hrun; rewrite Hb in Hrun;
         by injection Hrun as <- <-).
  destruct (perform_cases env _ _ _ _ _ (produce_board_run env temp out pcb b w Hb) Hrun)
    as (Hh & Hd & _). done.
Qed.

Lemma produce_boards_frame temp out boards w o w' :
  for_each (produce_board env temp out) boards w = (o, w') ->
  heap w' = heap w /\ dirs w' = dirs w.
Proof.
  revert w. induction boards as [|pcb boards IH]; intros w.
  { cbn. by intros [= <- <-]. }
  cbn [for_each]. unfold bind.
  destruct (produce_board env temp out pcb w) as [[[]|e] w1] eqn:H1;
    destruct (produce_board_frame _ _ _ _ _ _ H1) as [Hh Hd].
  - intros H2. destruct (IH _ H2) as [Hh2 Hd2]. split; congruence.
  - by intros [= <- <-].
Qed.

(** The artifact loop, as one batch of operations. *)
Lemma produce_boards_run temp out boards :
  forall w,
    Forall (fun pcb => is_Some (board_at (heap w) pcb)) boards ->
    let asked := flat_map (board_artifacts (heap w) temp out) boards in
    for_each (produce_board env temp out) boards w
    = (outcome_of env asked, add_logs (performed env asked) w).
Proof.
  induction boards as [|pcb boards IH]; intros w Hall asked.
  { cbn. by rewrite add_logs_nil. }
  apply Forall_cons in Hall as [[b Hb] Hall].
  assert (Hpcb : heap w !! pcb = Some (OBoard b)).
  { unfold board_at in Hb. destruct (heap w !! pcb) as [[]|]; congruence. }
  assert (Easked : asked = artifact_events temp out pcb (b_filename b)
                           ++ flat_map (board_artifacts (heap w) temp out) boards).
  { unfold asked. cbn [flat_map]. unfold board_artifacts at 1. by rewrite Hb. }
  rewrite Easked. cbn [for_each].
  apply perform_then_at.
  - apply (produce_board_run env temp out pcb b w Hpcb).
  - apply (IH (add_logs (performed env (artifact_events temp out pcb (b_filename b))) w)).
    exact Hall.
Qed.

(** X16.  The loop over the boards to produce does the artifact
    operations of the boards in turn and stops at the first one the host
    refuses: the boards before the failing one have their complete
    artifacts, the failing one has those before the refusal, and the
    boards after it get nothing. *)
Theorem X16_artifact_loop_stops_at_first_refusal temp out boards w o w' :
  Forall (fun pcb => is_Some (board_at (heap w) pcb)) boards ->
  for_each (produce_board env temp out) boards w = (o, w') ->
  let asked := flat_map (board_artifacts (heap w) temp out) boards in
  heap w' = heap w /\ dirs w' = dirs w
  /\ ((o = Returns tt /\ log w' = log w ++ asked)
      \/ (exists done e rest,
             o = Raises (IOFailure e) /\ io_ok env e = false
             /\ asked = done ++ e :: rest /\ log w' = log w ++ done)).
Proof.
  intros Hall Hrun asked.
  exact (perform_cases env _ asked _ _ _ (produce_boards_run temp out boards w Hall) Hrun).
Qed.

End Artifacts.

(** ** The directories and the store across a production *)

Section Production.

Variable env : Pcbnew.

Local Abbreviation derive := (create_plate_pcb_from_layer env).

(** Once the directories are prepared, [produce] changes no directory and
    no object that existed before. *)
Lemma produce_frame w board bv o w' :
  board_view (heap w) board = Some bv ->
  produce env board w = (o, w') ->
  (forall l x, heap w !! l = Some x -> heap w' !! l = Some x)
  /\ dirs w' = dirs (stage env (v_filename bv) w).
Proof.
  intros Hview Hrun.
  destruct (board_view_inv _ _ _ Hview) as (b & Hb & Hname & _).
  rewrite (produce_eq env w board b Hb) in Hrun. cbv zeta in Hrun.
  rewrite <- Hname in Hrun.
  set (staged := stage env (v_filename bv) w) in *.
  set (temp := temp_path env (v_filename bv)) in *.
  set (out := output_path env (v_filename bv)) in *.
  assert (Hview1 : board_view (heap staged) board = Some bv) by done.
  unfold bind at 1 in Hrun.
  destruct (derive board "B.Adhesive" temp "bottom-plate" staged) as [[bottom|e] w2] eqn:H1;
    destruct (derive_frame _ _ _ _ _ _ _ _ _ Hview1 H1) as (Hf1 & Hd1 & _).
  2:{ injection Hrun as <- <-. done. }
  assert (Hview2 : board_view (heap w2) board = Some bv) by by eapply board_view_mono.
  unfold bind at 1 in Hrun.
  destruct (derive board "F.Adhesive" temp "top-plate" w2) as [[top|e] w3] eqn:H2;
    destruct (derive_frame _ _ _ _ _ _ _ _ _ Hview2 H2) as (Hf2 & Hd2 & _).
  2:{ injection Hrun as <- <-. split; [|congruence]. intros l x Hl. by apply Hf2, Hf1. }
  destruct (produce_boards_frame _ _ _ _ _ _ _ Hrun) as [Hh Hd].
  split; [|congruence]. intros l x Hl. rewrite Hh. by apply Hf2, Hf1.
Qed.

(** X4.  However [produce] ends, every object that existed before is as
    it was, so the source board reads the same after both derivations and
    the artifact generation. *)
Theorem X4_produce_leaves_source_board w board bv o w' :
  board_view (heap w) board = Some bv ->
  produce env board w = (o, w') ->
  (forall l x, heap w !! l = Some x -> heap w' !! l = Some x)
  /\ board_view (heap w') board = Some bv.
Proof.
  intros Hview Hrun. destruct (produce_frame _ _ _ _ _ Hview Hrun) as [Hf _].
  split; [done|]. by eapply board_view_mono.
Qed.

End Production.

(** ** More on what a derivation returns *)

Section Plates.

Variable env : Pcbnew.
Variables layer_name output_folder suffix : string.

Local Abbreviation derive := (create_plate_pcb_from_layer env).

(** Only the shapes of the reference layer can make the outline. *)
Lemma outline_needs_reference_shape ds :
  Forall (fun d => on_named env layer_name (d_layer d)
                   && String.eqb (d_class d) "PCB_SHAPE" = false) ds ->
  List.filter (is_edge env) (flat_map (plate_drawings env layer_name) ds) = [].
Proof.
  induction 1 as [|d ds Hd _ IH]; [done|].
  cbn [flat_map]. rewrite List.filter_app, IH, app_nil_r.
  unfold plate_drawings. rewrite Hd.
  match goal with |- context [if ?c then _ else _] => destruct c eqn:Hc end; [|done].
  apply andb_true_iff in Hc as [_ Hc]. cbn. unfold is_edge.
  by rewrite (class_text_not_shape _ Hc).
Qed.

(** X5.  A plate is only ever returned for a board that has a shape on
    the reference layer: the shapes of other layers (the source board's
    own edge cuts among them) and the silkscreen texts never make an
    outline, so without such a shape the derivation ends without a plate
    or raises. *)
Theorem X5_plate_needs_shape_on_reference_layer w board bv plate w' :
  board_view (heap w) board = Some bv ->
  derive board layer_name output_folder suffix w = (Returns (Some plate), w') ->
  exists d lid,
    In d (v_drawings bv) /\ resolve env layer_name = Some lid
    /\ d_layer d = lid /\ d_class d = "PCB_SHAPE"%string.
Proof.
  intros Hview Hrun.
  destruct (derive_some _ _ _ _ _ _ _ _ _ Hview Hrun)
    as (_ & Harea & (lid & edge & Hl & He) & _).
  set (shape := fun d => on_named env layer_name (d_layer d)
                         && String.eqb (d_class d) "PCB_SHAPE").
  destruct (existsb shape (v_drawings bv)) eqn:Hex.
  - apply existsb_exists in Hex as (d & Hin & Hd).
    apply andb_true_iff in Hd as [Hon Hc]. unfold on_named in Hon. rewrite Hl in Hon.
    exists d, lid. split; [done|]. split; [done|].
    split; [by apply Z.eqb_eq|by apply String.eqb_eq].
  - exfalso. apply Harea. unfold plate_outline, edges_box.
    rewrite outline_needs_reference_shape; [done|].
    apply Forall_forall. intros d Hin. fold (shape d).
    destruct (shape d) eqn:E; [|done].
    assert (existsb shape (v_drawings bv) = true); [|congruence].
    apply existsb_exists. exists d. split; [by apply list_elem_of_In|done].
Qed.

(** With the names resolved and an outline of non-zero area, saving the
    plate decides how the derivation ends. *)
Lemma derive_decided_by_save w board bv :
  board_view (heap w) board = Some bv ->
  names_resolve env layer_name ->
  GetArea (plate_outline env layer_name bv) <> 0 ->
  let plate := length (heap w) in
  let path := plate_file_path (v_filename bv) output_folder suffix in
  exists h',
    (forall l o, heap w !! l = Some o -> h' !! l = Some o)
    /\ ((io_ok env (EvSave plate path) = true
         /\ derive board layer_name output_folder suffix w
            = (Returns (Some plate), add_log (EvSave plate path) (set_heap h' w)))
        \/ (io_ok env (EvSave plate path) = false
            /\ derive board layer_name output_folder suffix w
               = (Raises (IOFailure (EvSave plate path)), set_heap h' w))).
Proof.
  intros Hview Hnames Harea plate path.
  pose proof (create_plate_run env layer_name output_folder suffix (heap w) w board bv Hview)
    as Hcases.
  cbv zeta in Hcases. rewrite set_heap_same in Hcases.
  fold plate path in Hcases. fold (plate_outline env layer_name bv) in Hcases.
  destruct Hcases as [(h' & E & _ & Hz & _)
                     |[(h' & E & Hplate & _ & Hok & _)
                      |(e & h' & E & Hframe & [Hex|(-> & _ & Hok)])]].
  - done.
  - exists h'. split; [|by left]. intros l o Hl. by eapply plate_heap_frame.
  - apply Exists_exists in Hex as (d & _ & Hd).
    destruct (drawing_outcome_resolved env layer_name d Hnames) as [r Hr]. congruence.
  - exists h'. split; [done|by right].
Qed.

(** X6.  When the layer names resolve, the outline has a non-zero area and
    the host accepts the save, the derivation returns a plate: a new
    object at the next free address, saved once under the plate's path,
    that reads as [plate_view] says; the source board reads as before. *)
Theorem X6_plate_is_returned_and_saved w board bv :
  board_view (heap w) board = Some bv ->
  names_resolve env layer_name ->
  GetArea (plate_outline env layer_name bv) <> 0 ->
  let plate := length (heap w) in
  let path := plate_file_path (v_filename bv) output_folder suffix in
  io_ok env (EvSave plate path) = true ->
  exists w',
    derive board layer_name output_folder suffix w = (Returns (Some plate), w')
    /\ heap w !! plate = None
    /\ log w' = log w ++ [EvSave plate path]
    /\ board_view (heap w') plate = Some (plate_view env layer_name output_folder suffix bv)
    /\ board_view (heap w') board = Some bv.
Proof.
  intros Hview Hnames Harea plate path Hok.
  destruct (derive_decided_by_save w board bv Hview Hnames Harea)
    as (h' & Hframe & [[_ E]|[Hno _]]); [|fold plate path in Hno; congruence].
  fold plate path in E. eexists. split; [exact E|].
  split; [by apply lookup_ge_None|]. split; [done|].
  split; [by eapply derive_some_view|].
  cbn [heap add_log set_heap]. by eapply board_view_mono.
Qed.

(** X7.  When the host refuses to save the plate, the derivation raises
    that refusal after the plate was built: no plate is returned, nothing
    is logged, the directories and the source board are as before. *)
Theorem X7_refused_save_is_raised w board bv :
  board_view (heap w) board = Some bv ->
  names_resolve env layer_name ->
  GetArea (plate_outline env layer_name bv) <> 0 ->
  let plate := length (heap w) in
  let path := plate_file_path (v_filename bv) output_folder suffix in
  io_ok env (EvSave plate path) = false ->
  exists w',
    derive board layer_name output_folder suffix w = (Raises (IOFailure (EvSave plate path)), w')
    /\ log w' = log w /\ dirs w' = dirs w
    /\ board_view (heap w') board = Some bv.
Proof.
  intros Hview Hnames Harea plate path Hok.
  destruct (derive_decided_by_save w board bv Hview Hnames Harea)
    as (h' & Hframe & [[Hyes _]|[_ E]]); [fold plate path in Hyes; congruence|].
  fold plate path in E. eexists. split; [exact E|]. split; [done|]. split; [done|].
  cbn [heap set_heap]. by eapply board_view_mono.
Qed.



(** X9.  In a derived plate, every graphical item of an ordinary
    footprint is a graphical item of the source footprint that lies on the
    reference layer, with its class and position unchanged; the items of
    other layers are removed. *)
Theorem X9_ordinary_graphics_come_from_reference_layer w board bv plate w' pv fv g :
  board_view (heap w) board = Some bv ->
  derive board layer_name output_folder suffix w = (Returns (Some plate), w') ->
  board_view (heap w') plate = Some pv ->
  In fv (v_footprints pv) ->
  Py.re_match_H_LOGO (v_reference fv) = false ->
  In g (v_graphics fv) ->
  exists fv0 g0 lid,
    In fv0 (v_footprints bv) /\ In g0 (v_graphics fv0)
    /\ v_reference fv0 = v_reference fv
    /\ resolve env layer_name = Some lid /\ g_layer g0 = lid
    /\ g_class g = g_class g0 /\ g_position g = g_position g0
    /\ length (v_graphics fv)
       = length (List.filter (fun x => g_layer x =? lid) (v_graphics fv0)).
Proof.
  intros Hview Hrun Hpv Hin Hord Hg.
  destruct (derive_some _ _ _ _ _ _ _ _ _ Hview Hrun)
    as (_ & _ & (lid & edge & Hl & He) & _).
  rewrite (derive_some_view _ _ _ _ _ _ _ _ _ Hview Hrun) in Hpv. injection Hpv as <-.
  cbn [v_footprints plate_view] in Hin.
  destruct (in_plate_footprints _ _ _ _ _ Hin) as (fv0 & Hin0 & _ & Hcase).
  destruct Hcase as [[Hm ->]|(_ & _ & ->)]; [congruence|].
  cbn [v_graphics filter_footprint] in Hg |- *.
  apply in_map_iff in Hg as (g0 & <- & Hg0). apply filter_In in Hg0 as [Hg0 Hk].
  unfold keep_graphic, on_named in Hk. rewrite Hl in Hk.
  exists fv0, g0, lid. repeat split; try done.
  - by apply Z.eqb_eq.
  - rewrite length_map. f_equal. apply List.filter_ext. intros x.
    unfold keep_graphic, on_named. by rewrite Hl.
Qed.

End Plates.

Section WholeRun.

Variable env : Pcbnew.
Hypothesis io_fine : forall e, io_ok env e = true.

Local Abbreviation derive := (create_plate_pcb_from_layer env).

(** A derivation with resolved names and working file operations. *)
Lemma derive_resolved layer_name output_folder suffix w board bv :
  board_view (heap w) board = Some bv ->
  names_resolve env layer_name ->
  let path := plate_file_path (v_filename bv) output_folder suffix in
  exists r w',
    derive board layer_name output_folder suffix w = (Returns r, w')
    /\ r = (if GetArea (plate_outline env layer_name bv) =? 0 then None
            else Some (length (heap w)))
    /\ (forall l x, heap w !! l = Some x -> heap w' !! l = Some x)
    /\ dirs w' = dirs w
    /\ log w' = log w ++ match r with Some p => [EvSave p path] | None => [] end
    /\ forall p, r = Some p ->
         exists P, heap w' !! p = Some (OBoard P) /\ b_filename P = path.
Proof.
  intros Hview Hnames path.
  assert (Hrun : exists r w',
             derive board layer_name output_folder suffix w = (Returns r, w')
             /\ r = (if GetArea (plate_outline env layer_name bv) =? 0 then None
                     else Some (length (heap w)))).
  { destruct (Z.eqb_spec (GetArea (plate_outline env layer_name bv)) 0) as [Hz|Hnz].
    - pose proof (create_plate_run env layer_name output_folder suffix (heap w) w board bv
                    Hview) as Hcases.
      cbv zeta in Hcases. rewrite set_heap_same in Hcases.
      fold (plate_outline env layer_name bv) in Hcases.
      destruct Hcases as [(h' & E & _)
                         |[(h' & E & _ & Hne & _)
                          |(e & h' & E & _ & [Hex|(_ & Hne & _)])]]; try done.
      + by eauto.
      + apply Exists_exists in Hex as (d & _ & Hd).
        destruct (drawing_outcome_resolved env layer_name d Hnames) as [r Hr]. congruence.
    - destruct (derive_decided_by_save env layer_name output_folder suffix w board bv
                  Hview Hnames Hnz) as (h' & _ & [[_ E]|[Hno _]]).
      + by eauto.
      + by rewrite io_fine in Hno. }
  destruct Hrun as (r & w' & Hrun & Hr). exists r, w'. split; [done|]. split; [done|].
  destruct (derive_frame _ _ _ _ _ _ _ _ _ Hview Hrun) as (Hframe & Hdirs & Hlog).
  split; [done|]. split; [done|]. split.
  - rewrite Hlog. destruct r; [done|by rewrite app_nil_r].
  - intros p ->.
    pose proof (derive_some_view _ _ _ _ _ _ _ _ _ Hview Hrun) as Hpv.
    destruct (board_view_inv _ _ _ Hpv) as (P & HP & Hname & _).
    exists P. split; [done|]. by rewrite <- Hname.
Qed.

(** X10.  When the five layer names the derivations look up resolve and
    the host accepts every file operation, [produce] returns normally.
    Each reference layer whose outline has a non-zero area gives a plate,
    saved in the temporary folder; and the log then holds the artifact
    operations of the source board, of the bottom plate and of the top
    plate, in this order, each plate being filed under its own file
    name. *)
Theorem X10_produce_runs_to_completion w board bv :
  board_view (heap w) board = Some bv ->
  names_resolve env "B.Adhesive" ->
  names_resolve env "F.Adhesive" ->
  let file := v_filename bv in
  let temp := temp_path env file in
  let out := output_path env file in
  let bottom_file := plate_file_path file temp "bottom-plate" in
  let top_file := plate_file_path file temp "top-plate" in
  exists bottom top w',
    produce env board w = (Returns tt, w')
    /\ (bottom = None <-> GetArea (plate_outline env "B.Adhesive" bv) = 0)
    /\ (top = None <-> GetArea (plate_outline env "F.Adhesive" bv) = 0)
    /\ log w'
       = log w
         ++ match bottom with Some p => [EvSave p bottom_file] | None => [] end
         ++ match top with Some p => [EvSave p top_file] | None => [] end
         ++ artifact_events temp out board file
         ++ match bottom with Some p => artifact_events temp out p bottom_file | None => [] end
         ++ match top with Some p => artifact_events temp out p top_file | None => [] end.
Proof.
  intros Hview HnB HnF file temp out bottom_file top_file.
  destruct (board_view_inv _ _ _ Hview) as (b & Hb & Hname & _).
  pose proof (produce_eq env w board b Hb) as Hprod. cbv zeta in Hprod.
  rewrite <- Hname in Hprod. fold file temp out in Hprod.
  set (staged := stage env file w) in *.
  assert (Hview1 : board_view (heap staged) board = Some bv) by done.
  destruct (derive_resolved "B.Adhesive" temp "bottom-plate" staged board bv Hview1 HnB)
    as (bottom & w2 & H1 & Hr1 & Hf1 & _ & Hlog1 & HP1).
  assert (Hview2 : board_view (heap w2) board = Some bv) by by eapply board_view_mono.
  destruct (derive_resolved "F.Adhesive" temp "top-plate" w2 board bv Hview2 HnF)
    as (top & w3 & H2 & Hr2 & Hf2 & _ & Hlog2 & HP2).
  fold file bottom_file in Hlog1, HP1. fold file top_file in Hlog2, HP2.
  unfold bind in Hprod. rewrite H1, H2 in Hprod.
  rewrite (produce_boards_eq env io_fine) in Hprod.
  2:{ unfold boards_to_produce. cbn [omap].
      assert (Hsrc : is_Some (board_at (heap w3) board)).
      { unfold board_at. rewrite (Hf2 _ _ (Hf1 _ _ Hb)). by eexists. }
      assert (Hbot : forall p, bottom = Some p -> is_Some (board_at (heap w3) p)).
      { intros p Hp. destruct (HP1 p Hp) as (P & HP & _).
        unfold board_at. rewrite (Hf2 _ _ HP). by eexists. }
      assert (Htop : forall p, top = Some p -> is_Some (board_at (heap w3) p)).
      { intros p Hp. destruct (HP2 p Hp) as (P & HP & _). unfold board_at. rewrite HP.
        by eexists. }
      destruct bottom as [pb|], top as [pt|]; cbn; repeat constructor; auto. }
  exists bottom, top. eexists. split; [exact Hprod|].
  split; [|split].
  - rewrite Hr1. destruct (Z.eqb_spec (GetArea (plate_outline env "B.Adhesive" bv)) 0);
      split; done.
  - rewrite Hr2. destruct (Z.eqb_spec (GetArea (plate_outline env "F.Adhesive" bv)) 0);
      split; done.
  - cbn [log add_logs]. rewrite Hlog2, Hlog1. change (log staged) with (log w).
    rewrite <- !app_assoc. do 3 f_equal.
    unfold boards_to_produce. cbn [omap].
    assert (Ea : board_artifacts (heap w3) temp out board
                 = artifact_events temp out board file).
    { unfold board_artifacts, board_at. rewrite (Hf2 _ _ (Hf1 _ _ Hb)).
      unfold file. by rewrite Hname. }
    assert (Eb : forall p, bottom = Some p ->
                   board_artifacts (heap w3) temp out p
                   = artifact_events temp out p bottom_file).
    { intros p Hp. destruct (HP1 p Hp) as (P & HP & HnP).
      unfold board_artifacts, board_at. rewrite (Hf2 _ _ HP). by rewrite HnP. }
    assert (Et : forall p, top = Some p ->
                   board_artifacts (heap w3) temp out p
                   = artifact_events temp out p top_file).
    { intros p Hp. destruct (HP2 p Hp) as (P & HP & HnP).
      unfold board_artifacts, board_at. rewrite HP. by rewrite HnP. }
    destruct bottom as [pb|], top as [pt|]; cbn [omap list_omap flat_map id app];
      rewrite ?Ea, ?(Eb _ eq_refl), ?(Et _ eq_refl), ?app_nil_r; reflexivity.
Qed.

End WholeRun.

(** ** File names *)

Section Names.

Lemma append_empty_r (s : string) : s +:+ EmptyString = s.
Proof. induction s as [|c s IH]; [done|]. rewrite append_cons. by f_equal. Qed.

Lemma no_slash_app a b : no_slash (a +:+ b) = no_slash a && no_slash b.
Proof.
  induction a as [|c a IH]; [done|]. rewrite append_cons. cbn. rewrite IH.
  by rewrite andb_assoc.
Qed.

Lemma no_dot_app a b : no_dot (a +:+ b) = no_dot a && no_dot b.
Proof.
  induction a as [|c a IH]; [done|]. rewrite append_cons. cbn. rewrite IH.
  by rewrite andb_assoc.
Qed.

Lemma all_dots_app a b : Py.all_dots (a +:+ b) = Py.all_dots a && Py.all_dots b.
Proof.
  induction a as [|c a IH]; [done|]. rewrite append_cons. cbn. rewrite IH.
  by rewrite andb_assoc.
Qed.

(** *** [os.path.split] and [os.path.join] *)

Lemma rsplit_slash_app a b : forall h t,
  Py.rsplit_slash h t (a +:+ b)
  = Py.rsplit_slash (fst (Py.rsplit_slash h t a)) (snd (Py.rsplit_slash h t a)) b.
Proof.
  induction a as [|c a IH]; intros h t; [done|].
  rewrite append_cons. cbn [Py.rsplit_slash]. destruct (Ascii.eqb c Py.slash); apply IH.
Qed.

Lemma rsplit_slash_plain x : forall h t,
  no_slash x = true -> Py.rsplit_slash h t x = (h, t +:+ x).
Proof.
  induction x as [|c x IH]; intros h t Hx.
  - by rewrite append_empty_r.
  - cbn in Hx. apply andb_true_iff in Hx as [Hc Hx]. apply negb_true_iff in Hc.
    cbn [Py.rsplit_slash]. rewrite Hc, IH by done.
    rewrite string_app_assoc. by rewrite append_cons, append_nil.
Qed.

Lemma rsplit_slash_tail s : forall h t,
  no_slash t = true -> no_slash (snd (Py.rsplit_slash h t s)) = true.
Proof.
  induction s as [|c s IH]; intros h t Ht; [done|].
  cbn [Py.rsplit_slash]. destruct (Ascii.eqb c Py.slash) eqn:Hc.
  - by apply IH.
  - apply IH. rewrite no_slash_app, Ht. cbn. by rewrite Hc.
Qed.

Lemma rsplit_slash_ends a : forall h t,
  Py.endswith_slash a = true -> snd (Py.rsplit_slash h t a) = EmptyString.
Proof.
  induction a as [|c a IH]; intros h t Ha; [done|].
  cbn [Py.rsplit_slash]. destruct a as [|c' a].
  - cbn in Ha. by rewrite Ha.
  - change (Py.endswith_slash (String c (String c' a)))
      with (Py.endswith_slash (String c' a)) in Ha.
    destruct (Ascii.eqb c Py.slash); by apply IH.
Qed.

Lemma path_split_tail_no_slash p : no_slash (snd (Py.path_split p)) = true.
Proof.
  unfold Py.path_split.
  pose proof (rsplit_slash_tail p EmptyString EmptyString eq_refl) as H.
  by destruct (Py.rsplit_slash EmptyString EmptyString p).
Qed.

Lemma no_slash_not_absolute x : no_slash x = true -> Py.startswith "/" x = false.
Proof.
  destruct x as [|c x]; [done|]. cbn [no_slash Py.startswith]. intros H.
  apply andb_true_iff in H as [Hc _]. apply negb_true_iff in Hc.
  rewrite Ascii.eqb_sym. fold Py.slash. by rewrite Hc.
Qed.

(** The last component of a joined path is the name that was joined. *)
Lemma path_split_join a x :
  no_slash x = true -> snd (Py.path_split (Py.path_join a x)) = x.
Proof.
  intros Hx.
  assert (Hsnd : forall p, snd (Py.path_split p)
                           = snd (Py.rsplit_slash EmptyString EmptyString p)).
  { intros p. unfold Py.path_split.
    by destruct (Py.rsplit_slash EmptyString EmptyString p). }
  rewrite Hsnd. unfold Py.path_join. rewrite (no_slash_not_absolute _ Hx).
  destruct (String.eqb a EmptyString) eqn:Ha.
  - apply String.eqb_eq in Ha as ->. cbn [orb]. rewrite append_nil.
    by rewrite rsplit_slash_plain.
  - cbn [orb]. destruct (Py.endswith_slash a) eqn:He.
    + rewrite rsplit_slash_app, rsplit_slash_plain by done.
      cbn [snd]. by rewrite rsplit_slash_ends.
    + rewrite rsplit_slash_app. rewrite append_cons, append_nil.
      cbn [Py.rsplit_slash]. change (Ascii.eqb "/" Py.slash) with true. cbv iota.
      by rewrite rsplit_slash_plain.
Qed.

(** *** [os.path.splitext] *)

Lemma rsplit_dot_app a b : forall root ext,
  Py.rsplit_dot root ext (a +:+ b)
  = Py.rsplit_dot (fst (Py.rsplit_dot root ext a)) (snd (Py.rsplit_dot root ext a)) b.
Proof.
  induction a as [|c a IH]; intros root ext; [done|].
  rewrite append_cons. cbn [Py.rsplit_dot].
  destruct (Ascii.eqb c Py.dot && negb (Py.all_dots (root +:+ ext))); apply IH.
Qed.

(** Nothing is lost when splitting. *)
Lemma rsplit_dot_concat s : forall root ext,
  fst (Py.rsplit_dot root ext s) +:+ snd (Py.rsplit_dot root ext s) = root +:+ ext +:+ s.
Proof.
  induction s as [|c s IH]; intros root ext.
  - cbn. by rewrite append_empty_r.
  - cbn [Py.rsplit_dot].
    destruct (Ascii.eqb c Py.dot && negb (Py.all_dots (root +:+ ext))); rewrite IH.
    + by rewrite string_app_assoc.
    + rewrite string_app_assoc. by rewrite append_cons, append_nil.
Qed.

Lemma rsplit_dot_plain e : forall root ext,
  no_dot e = true -> Py.rsplit_dot root ext e = (root, ext +:+ e).
Proof.
  induction e as [|c e IH]; intros root ext He.
  - by rewrite append_empty_r.
  - cbn in He. apply andb_true_iff in He as [Hc He]. apply negb_true_iff in Hc.
    cbn [Py.rsplit_dot]. rewrite Hc. cbn [andb]. rewrite IH by done.
    rewrite string_app_assoc. by rewrite append_cons, append_nil.
Qed.

(** The extension starts at the last dot, when something other than dots
    precedes it. *)
Lemma splitext_last_dot r e :
  Py.all_dots r = false -> no_dot e = true ->
  Py.splitext (r +:+ "." +:+ e) = (r, "." +:+ e).
Proof.
  intros Hr He. unfold Py.splitext. rewrite rsplit_dot_app.
  pose proof (rsplit_dot_concat r EmptyString EmptyString) as Hcat.
  rewrite !append_nil in Hcat.
  destruct (Py.rsplit_dot EmptyString EmptyString r) as [r1 e1]. cbn [fst snd] in *.
  rewrite append_cons, append_nil. cbn [Py.rsplit_dot].
  change (Ascii.eqb "." Py.dot) with true. rewrite Hcat, Hr. cbn [andb negb].
  rewrite rsplit_dot_plain by done. rewrite append_cons, append_nil.
  cbn [Py.startswith]. change (Ascii.eqb "." ".") with true. by rewrite Hr.
Qed.

(** X11.  The artifacts of a plate are filed under the name of the source
    board followed by ["-"] and the plate's suffix: for a source file
    named [stem.kicad_pcb], the file of the plate in the output folder has
    the board name [stem-suffix] (what [produce] then uses for the gerber
    folder and the archive), while the source board itself is filed under
    [stem]. *)
Theorem X11_plate_artifacts_named_after_stem_and_suffix file output_folder stem suffix :
  snd (Py.path_split file) = stem +:+ ".kicad_pcb" ->
  (forall pre, occurs_after ".kicad_pcb" pre (stem +:+ ".kicad_pcb") ->
               (String.length stem <= String.length pre)%nat) ->
  no_slash suffix = true ->
  board_name (plate_file_path file output_folder suffix) = stem +:+ "-" +:+ suffix
  /\ (Py.all_dots stem = false -> board_name file = stem).
Proof.
  intros Hname Hfirst Hsuffix.
  assert (Hstem : no_slash stem = true).
  { pose proof (path_split_tail_no_slash file) as H. rewrite Hname, no_slash_app in H.
    by apply andb_true_iff in H as [H _]. }
  split.
  - unfold board_name, plate_file_path. rewrite Hname.
    rewrite <- (append_empty_r (stem +:+ ".kicad_pcb")), string_app_assoc.
    rewrite replace_first.
    2:{ intros pre Hpre. apply Hfirst.
        by rewrite <- (append_empty_r (stem +:+ ".kicad_pcb")), string_app_assoc. }
    change (Py.replace ".kicad_pcb" ("-" +:+ suffix +:+ ".kicad_pcb") EmptyString)
      with EmptyString.
    rewrite append_empty_r.
    rewrite path_split_join.
    2:{ rewrite !no_slash_app, Hstem, Hsuffix. done. }
    replace (stem +:+ "-" +:+ suffix +:+ ".kicad_pcb")
      with ((stem +:+ "-" +:+ suffix) +:+ "." +:+ "kicad_pcb").
    2:{ by rewrite !string_app_assoc. }
    rewrite splitext_last_dot; [done| |done].
    rewrite all_dots_app. apply andb_false_iff. right. by rewrite append_cons.
  - intros Hdots. unfold board_name. rewrite Hname.
    change (stem +:+ ".kicad_pcb") with (stem +:+ "." +:+ "kicad_pcb").
    by rewrite splitext_last_dot.
Qed.

End Names.

Section References.

Lemma string_length_app (a b : string) :
  String.length (a +:+ b) = (String.length a + String.length b)%nat.
Proof. induction a as [|c a IH]; [done|]. rewrite append_cons. cbn. by rewrite IH. Qed.

Lemma take_drop_chars n : forall s, Py.take_chars n s +:+ Py.drop_chars n s = s.
Proof.
  induction n as [|n IH]; intros [|c s]; try done.
  cbn [Py.take_chars Py.drop_chars]. rewrite append_cons. by rewrite IH.
Qed.

Lemma take_chars_app d rest : Py.take_chars (String.length d) (d +:+ rest) = d.
Proof.
  induction d as [|c d IH]; [by destruct rest|].
  rewrite append_cons. cbn [String.length Py.take_chars]. by rewrite IH.
Qed.

Lemma is_decimal_In char : Py.is_decimal char = true <-> In char Py.decimal_digits.
Proof.
  unfold Py.is_decimal. rewrite existsb_exists. split.
  - intros (d & Hin & E). apply String.eqb_eq in E. by subst.
  - intros Hin. exists char. split; [done|]. apply String.eqb_refl.
Qed.

(** Every decimal digit is a whole character: its first byte tells its
    width. *)
Lemma decimal_digits_whole :
  forallb (fun d => match d with
                    | EmptyString => false
                    | String c _ => Nat.eqb (String.length d) (Py.char_width c)
                    end) Py.decimal_digits = true.
Proof. vm_compute. reflexivity. Qed.

Lemma decimal_digit_shape d :
  In d Py.decimal_digits ->
  exists c d', d = String c d' /\ S (String.length d') = Py.char_width c.
Proof.
  intros Hin. pose proof decimal_digits_whole as Hall.
  rewrite forallb_forall in Hall. specialize (Hall d Hin).
  destruct d as [|c d']; [done|]. apply Nat.eqb_eq in Hall. by exists c, d'.
Qed.

Lemma head_char_digit d rest : In d Py.decimal_digits -> Py.head_char (d +:+ rest) = d.
Proof.
  intros Hin. destruct (decimal_digit_shape d Hin) as (c & d' & -> & Hw).
  rewrite append_cons. unfold Py.head_char. rewrite <- Hw.
  change (String c (d' +:+ rest)) with (String c d' +:+ rest).
  exact (take_chars_app (String c d') rest).
Qed.

Lemma digits_to_end_skip s : forall seen k,
  Py.digits_to_end seen k s = Py.digits_to_end seen 0 (Py.drop_chars k s).
Proof.
  induction s as [|c s IH]; intros seen k.
  - by destruct k.
  - destruct k as [|k]; [done|]. cbn [Py.digits_to_end Py.drop_chars]. apply IH.
Qed.

(** A digit at the head is consumed. *)
Lemma digits_to_end_digit d rest seen :
  In d Py.decimal_digits ->
  Py.digits_to_end seen 0 (d +:+ rest) = Py.digits_to_end true 0 rest.
Proof.
  intros Hin. pose proof (head_char_digit d rest Hin) as Hhead.
  destruct (decimal_digit_shape d Hin) as (c & d' & -> & Hw).
  rewrite append_cons in Hhead |- *. cbn [Py.digits_to_end]. rewrite Hhead.
  rewrite (proj2 (is_decimal_In _) Hin). rewrite <- Hw. cbn [Nat.pred].
  rewrite digits_to_end_skip. by rewrite drop_chars_app.
Qed.

(** A sequence of digits, then the end or a final newline, is accepted. *)
Lemma digits_to_end_accepts ds : forall seen tail,
  Forall (fun d => In d Py.decimal_digits) ds ->
  seen = true \/ ds <> [] ->
  tail = EmptyString \/ tail = String Py.newline EmptyString ->
  Py.digits_to_end seen 0 (join_chars ds +:+ tail) = true.
Proof.
  induction ds as [|d ds IH]; intros seen tail Hds Hseen Htail.
  - destruct Hseen as [->|Hne]; [|done]. destruct Htail as [->| ->]; vm_compute; reflexivity.
  - apply Forall_cons in Hds as [Hd Hds]. cbn [join_chars].
    rewrite string_app_assoc, digits_to_end_digit by done. apply IH; auto.
Qed.

(** What is accepted is such a sequence. *)
Lemma digits_to_end_accepted n : forall s seen,
  (String.length s <= n)%nat ->
  Py.digits_to_end seen 0 s = true ->
  exists ds tail,
    s = join_chars ds +:+ tail /\ Forall (fun d => In d Py.decimal_digits) ds
    /\ (seen = true \/ ds <> [])
    /\ (tail = EmptyString \/ tail = String Py.newline EmptyString).
Proof.
  induction n as [|n IH]; intros s seen Hlen Hacc.
  - destruct s as [|c s]; [|cbn in Hlen; lia]. cbn in Hacc. subst seen.
    exists [], EmptyString. auto.
  - destruct s as [|c s].
    { cbn in Hacc. subst seen. exists [], EmptyString. auto. }
    destruct (Py.is_decimal (Py.head_char (String c s))) eqn:Hd.
    + apply is_decimal_In in Hd.
      pose proof (take_drop_chars (Py.char_width c) (String c s)) as Hsplit.
      change (Py.take_chars (Py.char_width c) (String c s))
        with (Py.head_char (String c s)) in Hsplit.
      set (d := Py.head_char (String c s)) in *.
      set (rest := Py.drop_chars (Py.char_width c) (String c s)) in *.
      rewrite <- Hsplit in Hacc, Hlen. rewrite digits_to_end_digit in Hacc by done.
      destruct (decimal_digit_shape d Hd) as (c0 & d' & Ed & _).
      rewrite string_length_app, Ed in Hlen. cbn [String.length] in Hlen.
      destruct (IH rest true ltac:(lia) Hacc) as (ds & tail & Erest & Hds & _ & Htail).
      exists (d :: ds), tail. rewrite <- Hsplit, Erest. cbn [join_chars].
      rewrite string_app_assoc. repeat split; auto.
    + cbn [Py.digits_to_end] in Hacc. rewrite Hd in Hacc.
      apply andb_true_iff in Hacc as [Hacc Hs]. apply andb_true_iff in Hacc as [-> Hc].
      apply Ascii.eqb_eq in Hc as ->. apply String.eqb_eq in Hs as ->.
      exists [], (String Py.newline EmptyString). auto.
Qed.

Lemma re_match_H r : Py.re_match_H_LOGO (String "H" r) = Py.digits_to_end false 0 r.
Proof. reflexivity. Qed.

Lemma re_match_LOGO r :
  Py.re_match_H_LOGO ("LOGO" +:+ r) = Py.digits_to_end false 0 r.
Proof. reflexivity. Qed.

(** A reference that matches starts with [H] or with [LOGO]. *)
Lemma re_match_prefix s :
  Py.re_match_H_LOGO s = true ->
  exists r, (s = String "H" r \/ s = "LOGO" +:+ r) /\ Py.digits_to_end false 0 r = true.
Proof.
  destruct s as [|c s]; [done|].
  destruct (Ascii.eqb_spec c "H") as [->|Hc].
  { intros H. exists s. auto. }
  destruct (Ascii.eqb_spec c "L") as [->|Hl].
  2:{ destruct c as [[] [] [] [] [] [] [] []]; try done. }
  destruct s as [|c1 s]; [done|].
  destruct (Ascii.eqb_spec c1 "O") as [->|H1].
  2:{ destruct c1 as [[] [] [] [] [] [] [] []]; try done. }
  destruct s as [|c2 s]; [done|].
  destruct (Ascii.eqb_spec c2 "G") as [->|H2].
  2:{ destruct c2 as [[] [] [] [] [] [] [] []]; try done. }
  destruct s as [|c3 s]; [done|].
  destruct (Ascii.eqb_spec c3 "O") as [->|H3].
  2:{ destruct c3 as [[] [] [] [] [] [] [] []]; try done. }
  intros H. exists s. auto.
Qed.

(** X12.  The references whose footprints are preserved whole are exactly
    [H] or [LOGO] followed by one or more decimal digits and then
    nothing, or one final newline (which Python's [$] lets pass).  The
    digits are those of every script ([\d] on a [str]: the characters of
    Unicode category Nd), not only [0] to [9]; the match is
    case-sensitive and anchored at both ends. *)
Theorem X12_preserved_references_are_H_or_LOGO_and_digits s :
  Py.re_match_H_LOGO s = true
  <-> exists head ds tail,
        s = head +:+ join_chars ds +:+ tail
        /\ (head = "H"%string \/ head = "LOGO"%string)
        /\ ds <> [] /\ Forall (fun d => In d Py.decimal_digits) ds
        /\ (tail = EmptyString \/ tail = String Py.newline EmptyString).
Proof.
  split.
  - intros H. destruct (re_match_prefix s H) as (r & Hs & Hr).
    apply (digits_to_end_accepted (String.length r) r false (le_n _)) in Hr
      as (ds & tail & -> & Hd & [Hf|Hne] & Ht); [done|].
    destruct Hs as [-> | ->]; [exists "H"%string|exists "LOGO"%string];
      exists ds, tail; repeat split; auto.
  - intros (head & ds & tail & -> & Hhead & Hne & Hd & Ht).
    assert (Hr : Py.digits_to_end false 0 (join_chars ds +:+ tail) = true).
    { apply digits_to_end_accepts; auto. }
    destruct Hhead as [-> | ->].
    + by rewrite append_cons, append_nil, re_match_H.
    + by rewrite re_match_LOGO.
Qed.

(** The invariant of the scan for the extension. *)
Lemma rsplit_dot_ext s : forall root ext,
  (Py.all_dots root = true
   \/ exists e, ext = String Py.dot e /\ no_dot e = true) ->
  Py.all_dots (fst (Py.rsplit_dot root ext s)) = true
  \/ exists e, snd (Py.rsplit_dot root ext s) = String Py.dot e /\ no_dot e = true.
Proof.
  induction s as [|c s IH]; intros root ext Hinv; [done|].
  cbn [Py.rsplit_dot].
  destruct (Ascii.eqb c Py.dot && negb (Py.all_dots (root +:+ ext))) eqn:Hstep.
  - apply IH. right. exists EmptyString. apply andb_true_iff in Hstep as [Hc _].
    apply Ascii.eqb_eq in Hc as ->. done.
  - apply IH. destruct Hinv as [Hr|(e & -> & He)]; [by left|].
    destruct (Py.all_dots root) eqn:Hr; [by left|]. right.
    rewrite all_dots_app, Hr in Hstep. cbn [andb negb] in Hstep.
    rewrite andb_true_r in Hstep.
    exists (e +:+ String c EmptyString). split; [by rewrite append_cons|].
    rewrite no_dot_app, He. cbn. by rewrite Hstep.
Qed.

(** X13.  [os.path.splitext], as the plugin uses it to name a board,
    loses nothing: root and extension put together give the name back.
    The extension is either empty or one dot followed by characters other
    than a dot, and then the root has a character other than a dot: a name
    made of dots only, or whose only dots lead it, has no extension. *)
Theorem X13_splitext_splits_at_the_last_dot name :
  fst (Py.splitext name) +:+ snd (Py.splitext name) = name
  /\ (snd (Py.splitext name) = EmptyString
      \/ exists e, snd (Py.splitext name) = String Py.dot e /\ no_dot e = true
                   /\ Py.all_dots (fst (Py.splitext name)) = false).
Proof.
  unfold Py.splitext.
  pose proof (rsplit_dot_concat name EmptyString EmptyString) as Hcat.
  pose proof (rsplit_dot_ext name EmptyString EmptyString (or_introl eq_refl)) as Hext.
  rewrite !append_nil in Hcat.
  destruct (Py.rsplit_dot EmptyString EmptyString name) as [root ext]. cbn [fst snd] in *.
  destruct (Py.startswith "." ext && negb (Py.all_dots root)) eqn:Hc; cbn [fst snd].
  - split; [done|]. right. apply andb_true_iff in Hc as [_ Hr]. apply negb_true_iff in Hr.
    destruct Hext as [Hd|(e & -> & He)]; [congruence|]. by exists e.
  - split; [by rewrite append_empty_r|by left].
Qed.

End References.

Section PlateFile.

Lemma replace_from_no_slash old new s : forall k,
  no_slash new = true -> no_slash s = true ->
  no_slash (Py.replace_from old new k s) = true.
Proof.
  induction s as [|c s IH]; intros k Hnew Hs; [done|].
  cbn [no_slash] in Hs. apply andb_true_iff in Hs as [Hc Hs].
  cbn [Py.replace_from]. destruct k as [|k]; [|by apply IH].
  destruct (Py.startswith old (String c s)).
  - rewrite no_slash_app, Hnew. by apply IH.
  - cbn [no_slash]. rewrite Hc. by apply IH.
Qed.

(** X14.  With a suffix that holds no ['/'], the plate file lies directly
    in the output folder: the last component of its path, which is what
    [produce] reads back to name the plate's artifacts, is the source file
    name after the replacement, whatever the folders are. *)
Theorem X14_plate_file_lies_in_output_folder file output_folder suffix :
  no_slash suffix = true ->
  let plate_name :=
    Py.replace ".kicad_pcb" ("-" +:+ suffix +:+ ".kicad_pcb") (snd (Py.path_split file)) in
  no_slash plate_name = true
  /\ snd (Py.path_split (plate_file_path file output_folder suffix)) = plate_name.
Proof.
  intros Hs plate_name.
  assert (Hn : no_slash plate_name = true).
  { apply replace_from_no_slash; [|apply path_split_tail_no_slash].
    rewrite !no_slash_app, Hs. done. }
  split; [done|]. unfold plate_file_path. fold plate_name. by apply path_split_join.
Qed.

End PlateFile.

Section TwoPlates.

Variable env : Pcbnew.

Local Abbreviation derive := (create_plate_pcb_from_layer env).

(** X15.  Plates are independent of each other: a second derivation from
    the same board, whatever its layer, folder and suffix and however it
    ends, leaves the first plate reading as it was derived; a second plate
    is another object, reads as derived from the unmodified source, and
    everything it reaches was made by the second derivation, so the two
    plates share no drawing, footprint, pad or graphical item. *)
Theorem X15_second_derivation_leaves_first_plate
    layer1 folder1 suffix1 layer2 folder2 suffix2 w board bv p1 w1 o2 w2 :
  board_view (heap w) board = Some bv ->
  derive board layer1 folder1 suffix1 w = (Returns (Some p1), w1) ->
  derive board layer2 folder2 suffix2 w1 = (o2, w2) ->
  board_view (heap w2) p1 = Some (plate_view env layer1 folder1 suffix1 bv)
  /\ forall p2, o2 = Returns (Some p2) ->
       p1 <> p2
       /\ board_view (heap w2) p2 = Some (plate_view env layer2 folder2 suffix2 bv)
       /\ forall l, In l (board_entities (heap w2) p2) ->
                    heap w1 !! l = None /\ ~ In l (board_entities (heap w1) p1).
Proof.
  intros Hview H1 H2.
  destruct (derive_frame _ _ _ _ _ _ _ _ _ Hview H1) as (Hf1 & _).
  assert (Hview1 : board_view (heap w1) board = Some bv) by by eapply board_view_mono.
  pose proof (derive_some_view _ _ _ _ _ _ _ _ _ Hview H1) as Hp1.
  destruct (derive_frame _ _ _ _ _ _ _ _ _ Hview1 H2) as (Hf2 & _).
  split; [by eapply board_view_mono|].
  intros p2 ->.
  destruct (derive_some _ _ _ _ _ _ _ _ _ Hview1 H2) as (-> & _ & _ & h' & -> & Hplate).
  assert (Hlt : (p1 < length (heap w1))%nat).
  { destruct (board_view_inv _ _ _ Hp1) as (P & HP & _). by eapply lookup_lt_Some. }
  split; [lia|]. split; [by eapply derive_some_view|].
  intros l Hl. cbn [heap add_log set_heap] in Hl.
  pose proof (plate_entities_fresh _ _ _ _ _ Hplate) as Hfresh.
  rewrite Forall_forall in Hfresh. specialize (Hfresh l (proj2 (list_elem_of_In _ _) Hl)).
  split; [by apply lookup_ge_None|].
  intros Hin. pose proof (board_entities_valid _ _ _ Hp1) as Hvalid.
  rewrite Forall_forall in Hvalid. specialize (Hvalid l (proj2 (list_elem_of_In _ _) Hin)).
  cbn beta in Hvalid. lia.
Qed.

End TwoPlates.

(** ** The further properties on the sample board *)

Section OnTheSampleAgain.

Import Sample SampleRun SampleProduce SampleFaults.

Lemma sample_again_view : board_view (heap world_again) src_board = Some src_view.
Proof. vm_compute. reflexivity. Qed.

Lemma sample_produce : produce kicad src_board world_again = produce_run.
Proof. vm_compute. reflexivity. Qed.

Lemma sample_names layer_name :
  resolve kicad layer_name <> None -> names_resolve kicad layer_name.
Proof.
  intros H. split; [by destruct (resolve kicad layer_name); [eexists|]|].
  repeat split; by eexists.
Qed.

Lemma sample_refused :
  create_plate_pcb_from_layer kicad_disk_full src_board "F.Adhesive" "/tmp" "top-plate" world0
  = refused_run.
Proof. vm_compute. reflexivity. Qed.

Lemma sample_again :
  create_plate_pcb_from_layer kicad src_board "F.Adhesive" "/tmp" "again" top_world
  = (Returns (Some 28%nat), snd again_run).
Proof. vm_compute. reflexivity. Qed.

(** X1 on the sample board, with a host that cannot write the front
    mask: four plots are done and the plot is not closed. *)
Lemma X1_witness :
  create_gerbers kicad_no_front_mask src_board "/tmp/horizon" world0 = gerber_run
  /\ heap (snd gerber_run) = heap world0
  /\ log (snd gerber_run)
     = [EvPlot src_board "/tmp/horizon" "F.Cu" "Front Copper";
        EvPlot src_board "/tmp/horizon" "B.Cu" "Back Copper";
        EvPlot src_board "/tmp/horizon" "F.SilkS" "Front SilkScreen";
        EvPlot src_board "/tmp/horizon" "B.SilkS" "Back SilkScreen"]
  /\ ~ In (EvClosePlot src_board) (log (snd gerber_run)).
Proof.
  destruct (X1_gerbers_in_order_and_stop_at_failure kicad_no_front_mask src_board
              "/tmp/horizon" world0 (fst gerber_run) (snd gerber_run) eq_refl)
    as (Hh & _ & [[Hret _]|(done & e & rest & _ & _ & _ & Hlog & Hno)]).
  - discriminate Hret.
  - split; [reflexivity|]. split; [exact Hh|]. split; [reflexivity|].
    rewrite Hlog. exact Hno.
Defined.

(** X2 on the sample board, with a host that cannot write drill files:
    no archive is made. *)
Lemma X2_witness :
  heap world0 !! src_board
  = Some (OBoard (mkBOARD "/home/u/horizon/pcb/horizon.kicad_pcb" [0; 1; 2]%nat
                          [7; 9; 11; 13]%nat))
  /\ produce_board kicad_no_drill "/tmp" "/out" src_board world0 = artifact_run
  /\ fst artifact_run = Raises (IOFailure (EvDrill src_board "/tmp/horizon"))
  /\ ~ In (EvZip "/out/horizon" "/tmp/horizon") (log (snd artifact_run)).
Proof.
  destruct (X2_archive_only_after_gerbers_and_drill kicad_no_drill "/tmp" "/out" src_board
              (mkBOARD "/home/u/horizon/pcb/horizon.kicad_pcb" [0; 1; 2]%nat [7; 9; 11; 13]%nat)
              world0 (fst artifact_run) (snd artifact_run) eq_refl eq_refl)
    as (_ & _ & [[Hret _]|(done & e & rest & _ & _ & _ & Hlog & Hno)]).
  - discriminate Hret.
  - split; [reflexivity|]. split; [reflexivity|]. split; [reflexivity|].
    rewrite Hlog. exact Hno.
Defined.

(** X4 on the sample board. *)
Lemma X4_witness :
  board_view (heap world_again) src_board = Some src_view
  /\ produce kicad src_board world_again = produce_run
  /\ board_view (heap (snd produce_run)) src_board = Some src_view.
Proof.
  destruct (X4_produce_leaves_source_board kicad world_again src_board src_view
              (fst produce_run) (snd produce_run) sample_again_view sample_produce)
    as (_ & Hv).
  split; [exact sample_again_view|]. split; [exact sample_produce|]. exact Hv.
Defined.

(** X5 on the sample board: the top plate comes with the outline drawn
    on [F.Adhesive]. *)
Lemma X5_witness :
  exists d lid,
    In d (v_drawings src_view) /\ resolve kicad "F.Adhesive" = Some lid
    /\ d_layer d = lid /\ d_class d = "PCB_SHAPE"%string.
Proof.
  exact (X5_plate_needs_shape_on_reference_layer kicad "F.Adhesive" "/tmp" "top-plate"
           world0 src_board src_view top_plate top_world sample_view sample_top).
Defined.

(** X6 on the sample board: the top plate. *)
Lemma X6_witness :
  exists w',
    create_plate_pcb_from_layer kicad src_board "F.Adhesive" "/tmp" "top-plate" world0
    = (Returns (Some 15%nat), w')
    /\ log w' = [EvSave 15%nat "/tmp/horizon-top-plate.kicad_pcb"].
Proof.
  destruct (X6_plate_is_returned_and_saved kicad "F.Adhesive" "/tmp" "top-plate"
              world0 src_board src_view sample_view)
    as (w' & Hrun & _ & Hlog & _).
  - apply sample_names. discriminate.
  - vm_compute. discriminate.
  - reflexivity.
  - exists w'. split; [exact Hrun|exact Hlog].
Defined.

(** X7 on the sample board, with a disk that refuses plate files. *)
Lemma X7_witness :
  exists w',
    create_plate_pcb_from_layer kicad_disk_full src_board "F.Adhesive" "/tmp" "top-plate"
      world0
    = (Raises (IOFailure (EvSave 15%nat "/tmp/horizon-top-plate.kicad_pcb")), w')
    /\ log w' = [] /\ board_view (heap w') src_board = Some src_view.
Proof.
  destruct (X7_refused_save_is_raised kicad_disk_full "F.Adhesive" "/tmp" "top-plate"
              world0 src_board src_view sample_view)
    as (w' & Hrun & Hlog & _ & Hv).
  - repeat split; by eexists.
  - vm_compute. discriminate.
  - reflexivity.
  - exists w'. split; [exact Hrun|]. split; [exact Hlog|exact Hv].
Defined.


(** X9 on the sample board: the cutout of [SW1]. *)
Lemma X9_witness :
  exists fv0 g0 lid,
    In fv0 (v_footprints src_view) /\ In g0 (v_graphics fv0)
    /\ v_reference fv0 = "SW1"%string
    /\ resolve kicad "F.Adhesive" = Some lid /\ g_layer g0 = lid
    /\ g_class sw1_cutout = g_class g0 /\ g_position sw1_cutout = g_position g0.
Proof.
  destruct (X9_ordinary_graphics_come_from_reference_layer kicad "F.Adhesive" "/tmp"
              "top-plate" world0 src_board src_view top_plate top_world top_view
              sw1_plate sw1_cutout sample_view sample_top sample_top_view)
    as (fv0 & g0 & lid & H1 & H2 & H3 & H4 & H5 & H6 & H7 & _).
  - vm_compute. auto.
  - reflexivity.
  - vm_compute. auto.
  - exists fv0, g0, lid. repeat split; assumption.
Defined.

(** X10 on the sample board: no bottom plate, a top plate, and the
    artifacts of the source board and of the top plate. *)
Lemma X10_witness :
  exists (bottom top : option nat) w',
    produce kicad src_board world0 = (Returns tt, w')
    /\ bottom = None /\ top <> None
    /\ length (log w') = (1 + 10 + 10)%nat.
Proof.
  destruct (X10_produce_runs_to_completion kicad (fun _ => eq_refl) world0 src_board src_view
              sample_view)
    as (bottom & top & w' & Hrun & Hb & Ht & Hlog).
  - apply sample_names. discriminate.
  - apply sample_names. discriminate.
  - exists bottom, top, w'. split; [exact Hrun|].
    assert (Hbottom : bottom = None) by (apply Hb; reflexivity).
    assert (Htop : top <> None).
    { intros Hn. apply Ht in Hn. vm_compute in Hn. discriminate Hn. }
    split; [exact Hbottom|]. split; [exact Htop|].
    rewrite Hlog, Hbottom. destruct top as [p|]; [reflexivity|by destruct Htop].
Defined.

(** X11 on the sample file name. *)
Lemma X11_witness :
  board_name (plate_file_path sample_file "/tmp" "top-plate") = "horizon-top-plate"%string
  /\ board_name sample_file = "horizon"%string.
Proof.
  destruct (X11_plate_artifacts_named_after_stem_and_suffix sample_file "/tmp" "horizon"
              "top-plate") as (Hplate & Hsrc).
  - reflexivity.
  - intros pre [post E].
    repeat (destruct pre as [|? pre]; [discriminate E|]). cbn. lia.
  - reflexivity.
  - split; [exact Hplate|]. apply Hsrc. reflexivity.
Defined.

(** X14 on the sample file name. *)
Lemma X14_witness :
  snd (Py.path_split (plate_file_path sample_file "/tmp" "top-plate"))
  = "horizon-top-plate.kicad_pcb"%string.
Proof.
  destruct (X14_plate_file_lies_in_output_folder sample_file "/tmp" "top-plate" eq_refl)
    as (_ & H).
  exact H.
Defined.

(** X15 on the sample board: a second plate from [F.Adhesive]. *)
Lemma X15_witness :
  board_view (heap (snd again_run)) top_plate = Some top_view
  /\ top_plate <> 28%nat
  /\ board_view (heap (snd again_run)) 28%nat
     = Some (plate_view kicad "F.Adhesive" "/tmp" "again" src_view).
Proof.
  destruct (X15_second_derivation_leaves_first_plate kicad "F.Adhesive" "/tmp" "top-plate"
              "F.Adhesive" "/tmp" "again" world0 src_board src_view top_plate top_world
              (Returns (Some 28%nat)) (snd again_run) sample_view sample_top sample_again)
    as (H1 & H2).
  destruct (H2 28%nat eq_refl) as (Hne & Hv & _).
  split; [|split; [exact Hne|exact Hv]].
  rewrite H1. reflexivity.
Defined.

(** X16 on the sample board and its top plate, with a host that cannot
    write the drill file of the plate: the source board has its archive,
    the plate has none. *)
Lemma X16_witness :
  Forall (fun pcb => is_Some (board_at (heap top_world) pcb)) [src_board; top_plate]
  /\ for_each (produce_board kicad_no_plate_drill "/tmp" "/out") [src_board; top_plate]
       top_world = loop_run
  /\ fst loop_run = Raises (IOFailure (EvDrill top_plate "/tmp/horizon-top-plate"))
  /\ heap (snd loop_run) = heap top_world
  /\ exists done rest,
       flat_map (board_artifacts (heap top_world) "/tmp" "/out") [src_board; top_plate]
       = done ++ EvDrill top_plate "/tmp/horizon-top-plate" :: rest
       /\ log (snd loop_run) = log top_world ++ done.
Proof.
  assert (Hall : Forall (fun pcb => is_Some (board_at (heap top_world) pcb))
                        [src_board; top_plate]).
  { repeat constructor; by eexists. }
  destruct (X16_artifact_loop_stops_at_first_refusal kicad_no_plate_drill "/tmp" "/out"
              [src_board; top_plate] top_world (fst loop_run) (snd loop_run) Hall eq_refl)
    as (Hh & _ & [[Hret _]|(done & e & rest & He & _ & Hasked & Hlog)]).
  - discriminate Hret.
  - split; [exact Hall|]. split; [reflexivity|]. split; [reflexivity|].
    split; [exact Hh|]. injection He as <-. exists done, rest.
    split; [exact Hasked|exact Hlog].
Defined.

End OnTheSampleAgain.
